(** * nblint: rule dispatch and status aggregation

    A shallow embedding of [tools/tensorflow_docs/tools/nblint/linter.py]
    (classes [Linter] and [LinterStatus]) and the properties of the
    dispatch engine and of the status report that follow from it.

    Python objects are embedded as follows.
    - A parsed JSON document is a [pyval] tree; a JSON object is an
      association list holding one binding per key.
    - What a lint callback hands back is a [verdict]: a [bool], or some other
      object, of which the engine can observe only the text [str()] gives for
      it and its truth value.
    - Exceptions are values of [PyExc]; a computation is a function from the
      log of callback invocations made so far to an outcome and the extended
      log, so that the log survives an exception.
    - The mutable [LinterStatus] object is threaded explicitly.
    - Messages written to [sys.stderr] are not part of the model. *)

From stdpp Require Import gmap strings list pretty.
From Stdlib Require Import ZArith Sorted.

(** ** Python values *)

Definition Path := string.

#[local] Unset Elimination Schemes.
Inductive pyval :=
| PNone
| PBool (b : bool)
| PInt (z : Z)
| PStr (s : string)
| PList (items : list pyval)
| PDict (items : list (string * pyval)).
#[local] Set Elimination Schemes.

Inductive verdict :=
| VBool (b : bool)
| VOther (shown : string) (truth : bool).

Inductive PyExc :=
| TypeError (msg : string)
| AttributeError (msg : string)
| KeyError (key : string)
| JSONDecodeError
| SystemExit (code : Z)
| Exception (msg : string).

(** [type(v).__name__] *)
Definition py_type_name (v : pyval) : string :=
  match v with
  | PNone => "NoneType"
  | PBool _ => "bool"
  | PInt _ => "int"
  | PStr _ => "str"
  | PList _ => "list"
  | PDict _ => "dict"
  end.

(** [bool(v)] *)
Definition py_truth (v : pyval) : bool :=
  match v with
  | PNone => false
  | PBool b => b
  | PInt z => negb (Z.eqb z 0)
  | PStr s => negb (String.eqb s "")
  | PList l => match l with [] => false | _ => true end
  | PDict l => match l with [] => false | _ => true end
  end.

(** [isinstance(v, bool)], [str(v)] and [bool(v)] of a callback result. *)
Definition isinstance_bool (v : verdict) : bool :=
  match v with VBool _ => true | VOther _ _ => false end.

Definition py_str (v : verdict) : string :=
  match v with
  | VBool true => "True"
  | VBool false => "False"
  | VOther shown _ => shown
  end.

Definition verdict_truth (v : verdict) : bool :=
  match v with VBool b => b | VOther _ t => t end.

(** [any(l)] and [all(l)] *)
Definition py_any (l : list verdict) : bool := existsb verdict_truth l.
Definition py_all (l : list verdict) : bool := forallb verdict_truth l.

(** [v == s] for a string literal [s] *)
Definition py_eq_str (v : pyval) (s : string) : bool :=
  match v with PStr t => String.eqb t s | _ => false end.

Fixpoint dict_lookup (items : list (string * pyval)) (key : string)
  : option pyval :=
  match items with
  | [] => None
  | (k, v) :: rest => if String.eqb k key then Some v else dict_lookup rest key
  end.

(** [enumerate(l)] *)
Definition enumerate {A} (l : list A) : list (nat * A) :=
  combine (seq 0 (length l)) l.

(** ** The decorator module

    [decorator.py] is not among the sources; [linter.py] fixes what it uses
    of it. *)

(** Modelled from the spec: the enumerations [decorator.Options.Scope] and
    [decorator.Options.Cond], with the members the spec and [linter.py]
    name. *)
Module Options.
Inductive Scope := CELLS | CODE | TEXT | FILE.
Inductive Cond := ANY | ALL.

(** Iterating [Options.Cond] yields its members in declaration order,
    which [linter.py] does not show: both orders are covered. *)
Definition Cond_members (any_first : bool) : list Cond :=
  if any_first then [ANY; ALL] else [ALL; ANY].

#[global] Instance Scope_eq_dec : EqDecision Scope.
Proof. solve_decision. Defined.

#[global] Instance Cond_eq_dec : EqDecision Cond.
Proof. solve_decision. Defined.
End Options.

(** Modelled from the spec: the rule descriptor [decorator.Lint], with the
    attributes [linter.py] reads. [cond] is [None] for an object that is no
    member of [Options.Cond]. *)
Module Lint.
Record t := mk {
  name : string;
  message : string;
  scope : Options.Scope;
  cond : option Options.Cond;
  style : string;
  run : string -> pyval -> Path -> verdict
}.
End Lint.

(** The table [lint_dict[scope][cond]]: a list of rules under every key. *)
Definition LintDict := Options.Scope -> Options.Cond -> list Lint.t.

(** ** Computations: callback log and exceptions *)

Record Call := mkCall {
  call_lint : Lint.t;
  call_source : string;
  call_target : pyval;
  call_path : Path
}.

Definition call_result (c : Call) : verdict :=
  Lint.run (call_lint c) (call_source c) (call_target c) (call_path c).

Inductive result (A : Type) :=
| Returns (a : A)
| Raises (e : PyExc).
Arguments Returns {A} a.
Arguments Raises {A} e.

Definition M (A : Type) : Type := list Call -> result A * list Call.

Definition ret {A} (a : A) : M A := fun log => (Returns a, log).

Definition raise {A} (e : PyExc) : M A := fun log => (Raises e, log).

Definition bind {A B} (m : M A) (k : A -> M B) : M B :=
  fun log =>
    match m log with
    | (Returns a, log') => k a log'
    | (Raises e, log') => (Raises e, log')
    end.

Notation "x <- m ;; k" := (bind m (fun x => k))
  (at level 100, m at next level, right associativity).

(** [try: body  except <handled>: handler] *)
Definition try_except {A} (body : M A) (handled : PyExc -> bool)
    (handler : PyExc -> M A) : M A :=
  fun log =>
    match body log with
    | (Returns a, log') => (Returns a, log')
    | (Raises e, log') =>
        if handled e then handler e log' else (Raises e, log')
    end.

(** [for x in l: s = body(s, x)] *)
Fixpoint for_each {A S} (l : list A) (body : S -> A -> M S) (s : S) : M S :=
  match l with
  | [] => ret s
  | x :: l' => s' <- body s x ;; for_each l' body s'
  end.

(** [lint.run(source, target, path)] *)
Definition invoke (lint : Lint.t) (source : string) (target : pyval)
    (path : Path) : M verdict :=
  fun log =>
    (Returns (Lint.run lint source target path),
     log ++ [mkCall lint source target path]).

(** [v.get(key)] *)
Definition py_get (v : pyval) (key : string) : M pyval :=
  match v with
  | PDict items =>
      ret (match dict_lookup items key with Some x => x | None => PNone end)
  | _ =>
      raise (AttributeError
               ("'" +:+ py_type_name v +:+ "' object has no attribute 'get'"))
  end.

(** [v[key]] for a dict [v] *)
Definition dict_getitem (items : list (string * pyval)) (key : string)
  : M pyval :=
  match dict_lookup items key with
  | Some x => ret x
  | None => raise (KeyError key)
  end.

(** [v[key]] for a string [key] *)
Definition py_getitem (v : pyval) (key : string) : M pyval :=
  match v with
  | PDict items => dict_getitem items key
  | PList _ => raise (TypeError "list indices must be integers or slices, not str")
  | PStr _ => raise (TypeError "string indices must be integers, not 'str'")
  | _ => raise (TypeError ("'" +:+ py_type_name v
                           +:+ "' object is not subscriptable"))
  end.

(** Iteration over a value, as [enumerate] and [str.join] do it. *)
Definition py_iter (onfail : string) (v : pyval) : M (list pyval) :=
  match v with
  | PList l => ret l
  | PStr s => ret (map (fun c => PStr (String c "")) (String.list_ascii_of_string s))
  | PDict items => ret (map (fun kv => PStr (fst kv)) items)
  | _ => raise (TypeError onfail)
  end.

Fixpoint join_items (i : nat) (l : list pyval) : M string :=
  match l with
  | [] => ret ""
  | PStr s :: l' => rest <- join_items (S i) l' ;; ret (s +:+ rest)
  | v :: _ =>
      raise (TypeError ("sequence item " +:+ pretty i
                        +:+ ": expected str instance, "
                        +:+ py_type_name v +:+ " found"))
  end.

(** ["".join(v)] *)
Definition py_join (v : pyval) : M string :=
  l <- py_iter "can only join an iterable" v ;;
  join_items 0 l.

(** ** LinterStatus *)

Module LinterStatus.

Module LintStatusEntry.
Record t := mk {
  lint : Lint.t;
  is_success : bool;
  name : string;
  group : option string;
  is_group_entry : bool
}.
End LintStatusEntry.

Record t := mk {
  path : Path;
  verbose : bool;
  _status_list : list LintStatusEntry.t
}.

Definition __init__ (path : Path) (verbose : bool) : t :=
  mk path verbose [].

Definition add_entry (self : t) (lint : Lint.t) (is_success : verdict)
    (name : option string) (group : option string) (is_group_entry : bool)
  : M t :=
  match is_success with
  | VOther _ _ =>
      raise (TypeError ("Lint status must return Boolean, got: "
                        +:+ py_str is_success))
  | VBool b =>
      let name :=
        match name with
        | Some s => if py_truth (PStr s) then s else Lint.name lint
        | None => Lint.name lint
        end in
      let entry := LintStatusEntry.mk lint b name group is_group_entry in
      ret (mk (path self) (verbose self) (_status_list self ++ [entry]))
  end.

(** The loop of the [is_success] property, with its [break]. *)
Fixpoint is_success_loop (entries : list LintStatusEntry.t) : bool :=
  match entries with
  | [] => true
  | entry :: rest =>
      if negb (LintStatusEntry.is_group_entry entry)
         && negb (LintStatusEntry.is_success entry)
      then false
      else is_success_loop rest
  end.

Definition is_success (self : t) : bool :=
  is_success_loop (_status_list self).

Definition ESC : string := String (Ascii.ascii_of_nat 27) "".
Definition NL : string := String (Ascii.ascii_of_nat 10) "".

Definition _format_status (entry : LintStatusEntry.t) : string :=
  if LintStatusEntry.is_success entry then
    ESC +:+ "[32mPass" +:+ ESC +:+ "[00m"
  else if LintStatusEntry.is_group_entry entry then
    ESC +:+ "[33mFail" +:+ ESC +:+ "[00m"
  else
    ESC +:+ "[91mFail" +:+ ESC +:+ "[00m".

(** The dictionary [groups], keyed by [entry.group]. *)
Definition groups_add (groups : gmap (option string) (list LintStatusEntry.t))
    (entry : LintStatusEntry.t)
  : gmap (option string) (list LintStatusEntry.t) :=
  if LintStatusEntry.is_group_entry entry then
    match groups !! LintStatusEntry.group entry with
    | Some members =>
        <[LintStatusEntry.group entry := members ++ [entry]]> groups
    | None => <[LintStatusEntry.group entry := [entry]]> groups
    end
  else groups.

Definition build_groups (self : t)
  : gmap (option string) (list LintStatusEntry.t) :=
  if verbose self then fold_left groups_add (_status_list self) ∅ else ∅.

Definition root_entries (self : t) : list LintStatusEntry.t :=
  List.filter (fun obj => negb (LintStatusEntry.is_group_entry obj))
    (_status_list self).

Definition child_line (output : string) (child : LintStatusEntry.t)
  : string :=
  output +:+ "- " +:+ _format_status child +:+ " | "
         +:+ LintStatusEntry.name child +:+ NL.

(** One pass of the loop over the top-level entries. *)
Definition print_entry (self : t)
    (groups : gmap (option string) (list LintStatusEntry.t))
    (output : string) (entry : LintStatusEntry.t) : string :=
  let status := _format_status entry in
  let name :=
    Lint.style (LintStatusEntry.lint entry) +:+ "::"
    +:+ LintStatusEntry.name entry in
  let msg :=
    if py_truth (PStr (Lint.message (LintStatusEntry.lint entry)))
    then " | " +:+ Lint.message (LintStatusEntry.lint entry) else "" in
  let output := output +:+ status +:+ " | " +:+ name +:+ msg +:+ NL in
  if verbose self then
    match groups !! LintStatusEntry.group entry with
    | Some members =>
        let output := output +:+ "[All results]" +:+ NL in
        let output := fold_left child_line members output in
        output +:+ NL
    | None => output
    end
  else output.

Definition __str__ (self : t) : string :=
  let groups := build_groups self in
  fold_left (print_entry self groups) (root_entries self) "".

End LinterStatus.

(** ** Linter *)

Module Linter.

Record t := mk { verbose : bool }.

Inductive run_result :=
| RFalse
| RStatus (status : LinterStatus.t).

Section Environment.

(** [path.read_text(encoding="utf-8")] and [json.loads], the latter
    yielding [None] where it raises [json.JSONDecodeError]. *)
Variable read_text : Path -> string.
Variable json_loads : string -> option pyval.
(** Whether [ANY] is declared before [ALL] in [Options.Cond]. *)
Variable any_first : bool.

Definition handled (e : PyExc) : bool :=
  match e with JSONDecodeError => true | _ => false end.

Definition _load_notebook (self : t) (path : Path)
  : M (option pyval * string) :=
  let source := read_text path in
  data <- try_except
            (data <- match json_loads source with
                     | Some v => ret v
                     | None => raise JSONDecodeError
                     end ;;
             cells <- py_get data "cells" ;;
             match cells with
             | PList _ => ret (Some data)
             | _ => raise (SystemExit 1)
             end)
            handled
            (fun err => ret None) ;;
  ret (data, source).

(** ["".join(cell["source"])] *)
Definition cell_source (cell : pyval) : M string :=
  lines <- py_getitem cell "source" ;;
  py_join lines.

(** The two [continue] tests on a cell's type. *)
Definition out_of_scope (scope : Options.Scope) (cell_type : pyval)
  : bool :=
  match scope with
  | Options.TEXT => negb (py_eq_str cell_type "markdown")
  | Options.CODE => negb (py_eq_str cell_type "code")
  | _ => false
  end.

(** One pass of the loop over [enumerate(data.get("cells"))]. *)
Definition lint_cell (lint : Lint.t) (path : Path)
    (acc : list verdict * LinterStatus.t) (item : nat * pyval)
  : M (list verdict * LinterStatus.t) :=
  let scope := Lint.scope lint in
  cell_type <- py_get (snd item) "cell_type" ;;
  if out_of_scope scope cell_type then ret acc
  else
    source <- cell_source (snd item) ;;
    is_success <- invoke lint source (snd item) path ;;
    let is_success_list := fst acc ++ [is_success] in
    let name := Lint.name lint +:+ "__cell_" +:+ pretty (fst item) in
    status <- LinterStatus.add_entry (snd acc) lint is_success
                (Some name) (Some (Lint.name lint)) true ;;
    ret (is_success_list, status).

Definition _run_lint_group (self : t) (lint : Lint.t) (data : pyval)
    (status : LinterStatus.t) (path : Path)
  : M (bool * LinterStatus.t) :=
  cells <- py_get data "cells" ;;
  cells <- py_iter ("'" +:+ py_type_name cells
                    +:+ "' object is not iterable") cells ;;
  acc <- for_each (enumerate cells) (lint_cell lint path) ([], status) ;;
  match Lint.cond lint with
  | Some Options.ANY => ret (py_any (fst acc), snd acc)
  | Some Options.ALL => ret (py_all (fst acc), snd acc)
  | None => raise (Exception "Unsupported lint condition.")
  end.

(** The body of the loop over the file-scoped rules. *)
Definition lint_file (source : string) (data : pyval) (path : Path)
    (status : LinterStatus.t) (lint : Lint.t) : M LinterStatus.t :=
  is_success <- invoke lint source data path ;;
  LinterStatus.add_entry status lint is_success None None false.

(** The body of the innermost loop over the cell-scoped rules. *)
Definition lint_group (self : t) (data : pyval) (path : Path)
    (status : LinterStatus.t) (lint : Lint.t) : M LinterStatus.t :=
  r <- _run_lint_group self lint data status path ;;
  LinterStatus.add_entry (snd r) lint (VBool (fst r))
    None (Some (Lint.name lint)) false.

Definition run (self : t) (path : Path) (lint_dict : LintDict)
  : M run_result :=
  r <- _load_notebook self path ;;
  match fst r with
  | None => ret RFalse
  | Some data =>
      if negb (py_truth data) then ret RFalse
      else
        let source := snd r in
        let status := LinterStatus.__init__ path (verbose self) in
        status <- for_each (lint_dict Options.FILE Options.ANY)
                    (lint_file source data path) status ;;
        status <- for_each [Options.CELLS; Options.CODE; Options.TEXT]
                    (fun status scope =>
                       for_each (Options.Cond_members any_first)
                         (fun status cond =>
                            let lints := lint_dict scope cond in
                            for_each lints (lint_group self data path)
                              status)
                         status)
                    status ;;
        ret (RStatus status)
  end.

End Environment.
End Linter.

(** ** The report a run is expected to build

    Closed forms of what the loops of [Linter.run] leave in the status list
    and in the log, used to state the properties below. *)

Definition eval {A} (m : M A) : result A := fst (m []).

Definition cell_text (cell : pyval) : string :=
  match eval (Linter.cell_source cell) with
  | Returns s => s
  | Raises _ => ""
  end.

Definition cell_kind (cell : pyval) : pyval :=
  match eval (py_get cell "cell_type") with
  | Returns k => k
  | Raises _ => PNone
  end.

(** The scope filter: which cells a rule of a given scope is run on. *)
Definition matches (scope : Options.Scope) (cell : pyval) : bool :=
  negb (Linter.out_of_scope scope (cell_kind cell)).

Definition selected (scope : Options.Scope) (cells : list pyval)
  : list (nat * pyval) :=
  List.filter (fun item => matches scope (snd item)) (enumerate cells).

Definition member_call (lint : Lint.t) (path : Path) (item : nat * pyval)
  : Call :=
  mkCall lint (cell_text (snd item)) (snd item) path.

Definition member_name (lint : Lint.t) (cell_idx : nat) : string :=
  Lint.name lint +:+ "__cell_" +:+ pretty cell_idx.

Definition member_entry (lint : Lint.t) (path : Path) (item : nat * pyval)
  : LinterStatus.LintStatusEntry.t :=
  LinterStatus.LintStatusEntry.mk lint
    (verdict_truth (call_result (member_call lint path item)))
    (member_name lint (fst item)) (Some (Lint.name lint)) true.

Definition member_entries (lint : Lint.t) (path : Path) (cells : list pyval)
  : list LinterStatus.LintStatusEntry.t :=
  map (member_entry lint path) (selected (Lint.scope lint) cells).

Definition member_calls (lint : Lint.t) (path : Path) (cells : list pyval)
  : list Call :=
  map (member_call lint path) (selected (Lint.scope lint) cells).

Definition group_verdict (lint : Lint.t) (path : Path) (cells : list pyval)
  : bool :=
  let passed := map call_result (member_calls lint path cells) in
  match Lint.cond lint with
  | Some Options.ANY => py_any passed
  | Some Options.ALL => py_all passed
  | None => false
  end.

Definition aggregate_entry (lint : Lint.t) (path : Path)
    (cells : list pyval) : LinterStatus.LintStatusEntry.t :=
  LinterStatus.LintStatusEntry.mk lint (group_verdict lint path cells)
    (Lint.name lint) (Some (Lint.name lint)) false.

Definition group_block (path : Path) (cells : list pyval) (lint : Lint.t)
  : list LinterStatus.LintStatusEntry.t :=
  member_entries lint path cells ++ [aggregate_entry lint path cells].

Definition file_call (source : string) (data : pyval) (path : Path)
    (lint : Lint.t) : Call :=
  mkCall lint source data path.

Definition file_entry (source : string) (data : pyval) (path : Path)
    (lint : Lint.t) : LinterStatus.LintStatusEntry.t :=
  LinterStatus.LintStatusEntry.mk lint
    (verdict_truth (call_result (file_call source data path lint)))
    (Lint.name lint) None false.

(** The cell-scoped rules in the order [Linter.run] reaches them. *)
Definition cell_lints (any_first : bool) (lint_dict : LintDict)
  : list Lint.t :=
  flat_map (fun scope =>
              flat_map (fun cond => lint_dict scope cond)
                (Options.Cond_members any_first))
    [Options.CELLS; Options.CODE; Options.TEXT].

Definition file_lints (lint_dict : LintDict) : list Lint.t :=
  lint_dict Options.FILE Options.ANY.

Definition report_entries (any_first : bool) (lint_dict : LintDict)
    (source : string) (data : pyval) (cells : list pyval) (path : Path)
  : list LinterStatus.LintStatusEntry.t :=
  map (file_entry source data path) (file_lints lint_dict)
  ++ flat_map (group_block path cells) (cell_lints any_first lint_dict).

Definition report_calls (any_first : bool) (lint_dict : LintDict)
    (source : string) (data : pyval) (cells : list pyval) (path : Path)
  : list Call :=
  map (file_call source data path) (file_lints lint_dict)
  ++ flat_map (fun lint => member_calls lint path cells)
       (cell_lints any_first lint_dict).

(** The cells of a parsed notebook: the list under its ["cells"] key. *)
Definition notebook_cells (data : pyval) : option (list pyval) :=
  match data with
  | PDict items =>
      match dict_lookup items "cells" with
      | Some (PList cells) => Some cells
      | _ => None
      end
  | _ => None
  end.

(** The rendering of one top-level entry given the members found under its
    group key. *)
Definition top_line (entry : LinterStatus.LintStatusEntry.t) : string :=
  LinterStatus._format_status entry +:+ " | "
  +:+ (Lint.style (LinterStatus.LintStatusEntry.lint entry) +:+ "::"
       +:+ LinterStatus.LintStatusEntry.name entry)
  +:+ (if py_truth (PStr (Lint.message
                            (LinterStatus.LintStatusEntry.lint entry)))
       then " | " +:+ Lint.message (LinterStatus.LintStatusEntry.lint entry)
       else "")
  +:+ LinterStatus.NL.

Definition child_text (child : LinterStatus.LintStatusEntry.t) : string :=
  "- " +:+ LinterStatus._format_status child +:+ " | "
  +:+ LinterStatus.LintStatusEntry.name child +:+ LinterStatus.NL.

Definition join_text (texts : list string) : string :=
  fold_right String.append "" texts.

Definition child_block (members : list LinterStatus.LintStatusEntry.t)
  : string :=
  match members with
  | [] => ""
  | _ => "[All results]" +:+ LinterStatus.NL
         +:+ join_text (map child_text members) +:+ LinterStatus.NL
  end.

(** The member entries of a status list that carry a given group key. *)
Definition members_of (group : option string)
    (entries : list LinterStatus.LintStatusEntry.t)
  : list LinterStatus.LintStatusEntry.t :=
  List.filter
    (fun e => LinterStatus.LintStatusEntry.is_group_entry e
              && bool_decide (LinterStatus.LintStatusEntry.group e = group))
    entries.

(** The text printed for one top-level entry of a verbose report. *)
Definition entry_text (entries : list LinterStatus.LintStatusEntry.t)
    (entry : LinterStatus.LintStatusEntry.t) : string :=
  top_line entry
  +:+ child_block
        (members_of (LinterStatus.LintStatusEntry.group entry) entries).

(** ** The registry *)

(** Modelled from the spec: the registry that the loader, which is not among
    the sources, fills before a run. [register] files a rule under the key
    made of its scope and its condition, behind the rules already there. *)
Definition empty_registry : LintDict := fun _ _ => [].

Definition register (registry : LintDict) (lint : Lint.t) : LintDict :=
  match Lint.cond lint with
  | Some c =>
      fun scope cond =>
        if bool_decide (scope = Lint.scope lint /\ cond = c)
        then registry scope cond ++ [lint]
        else registry scope cond
  | None => registry
  end.

Definition registry_of (lints : list Lint.t) : LintDict :=
  fold_left register lints empty_registry.

(** ** Sample notebooks and rules *)

Module Samples.

Definition DQ : string := String (Ascii.ascii_of_nat 34) "".
Definition quoted (s : string) : string := DQ +:+ s +:+ DQ.

Definition cell (kind : string) (lines : list string) : pyval :=
  PDict [("cell_type", PStr kind); ("source", PList (map PStr lines))].

Definition cell_json (kind line : string) : string :=
  "{" +:+ quoted "cell_type" +:+ ": " +:+ quoted kind +:+ ", "
  +:+ quoted "source" +:+ ": [" +:+ quoted line +:+ "]}".

Definition notebook (cells : list pyval) : pyval :=
  PDict [("cells", PList cells)].

(** A code cell followed by a prose cell. *)
Definition mixed_cells : list pyval :=
  [cell "code" ["x=1"];
   cell "markdown" ["Copyright 2024 The TensorFlow Authors"]].

Definition mixed_json : string :=
  "{" +:+ quoted "cells" +:+ ": ["
  +:+ cell_json "code" "x=1" +:+ ", "
  +:+ cell_json "markdown" "Copyright 2024 The TensorFlow Authors"
  +:+ "]}".

(** Prose, code, prose, code. *)
Definition striped_cells : list pyval :=
  [cell "markdown" ["# Title"]; cell "code" ["import os"];
   cell "markdown" ["Some text"]; cell "code" ["print(1)"]].

Definition striped_json : string :=
  "{" +:+ quoted "cells" +:+ ": ["
  +:+ cell_json "markdown" "# Title" +:+ ", "
  +:+ cell_json "code" "import os" +:+ ", "
  +:+ cell_json "markdown" "Some text" +:+ ", "
  +:+ cell_json "code" "print(1)" +:+ "]}".

(** A single prose cell. *)
Definition prose_cells : list pyval := [cell "markdown" ["Some text"]].

Definition prose_json : string :=
  "{" +:+ quoted "cells" +:+ ": [" +:+ cell_json "markdown" "Some text"
  +:+ "]}".

(** The files of a small directory. *)
Definition read_text (path : Path) : string :=
  if String.eqb path "mixed.ipynb" then mixed_json
  else if String.eqb path "striped.ipynb" then striped_json
  else if String.eqb path "prose.ipynb" then prose_json
  else if String.eqb path "object.ipynb" then "{}"
  else if String.eqb path "array.ipynb" then "[]"
  else "{".

(** [json.loads] on the texts of those files. *)
Definition json_loads (source : string) : option pyval :=
  if String.eqb source mixed_json then Some (notebook mixed_cells)
  else if String.eqb source striped_json then Some (notebook striped_cells)
  else if String.eqb source prose_json then Some (notebook prose_cells)
  else if String.eqb source "{}" then Some (PDict [])
  else if String.eqb source "[]" then Some (PList [])
  else None.

Definition contains (needle haystack : string) : bool :=
  match String.index 0 needle haystack with
  | Some _ => true
  | None => false
  end.

Definition has (needle : string) (source : string) (target : pyval)
    (path : Path) : verdict :=
  VBool (contains needle source).

Definition always_true (source : string) (target : pyval) (path : Path)
  : verdict := VBool true.

Definition gives_None (source : string) (target : pyval) (path : Path)
  : verdict := VOther "None" false.

Definition file_rule : Lint.t :=
  Lint.mk "file_ok" "" Options.FILE (Some Options.ANY) "sample" always_true.

Definition file_rule_all : Lint.t :=
  Lint.mk "file_all" "" Options.FILE (Some Options.ALL) "sample" always_true.

Definition copyright_rule : Lint.t :=
  Lint.mk "copyright_check" "Copyright is required" Options.TEXT
    (Some Options.ANY) "sample" (has "Copyright 20").

Definition license_rule : Lint.t :=
  Lint.mk "license_check" "Apache license is required" Options.CODE
    (Some Options.ANY) "sample" (has "Apache License").

Definition code_true_rule : Lint.t :=
  Lint.mk "code_ok" "" Options.CODE (Some Options.ANY) "sample" always_true.

Definition text_all_rule : Lint.t :=
  Lint.mk "text_has_text" "" Options.TEXT (Some Options.ALL) "sample"
    (has "text").

Definition cells_rule : Lint.t :=
  Lint.mk "license_check" "" Options.CELLS (Some Options.ALL) "other"
    always_true.

Definition broken_rule : Lint.t :=
  Lint.mk "broken_check" "" Options.CODE (Some Options.ANY) "sample"
    gives_None.

Definition linter : Linter.t := Linter.mk false.
Definition verbose_linter : Linter.t := Linter.mk true.

Definition run (self : Linter.t) (path : Path) (lints : list Lint.t)
  : result Linter.run_result * list Call :=
  Linter.run read_text json_loads true self path (registry_of lints) [].

(** The report of a run that returned one, and the empty report otherwise. *)
Definition report_of (r : result Linter.run_result * list Call)
  : LinterStatus.t :=
  match fst r with
  | Returns (Linter.RStatus status) => status
  | _ => LinterStatus.__init__ "" false
  end.

End Samples.

(** ** Auxiliary notions *)

(** A computation that neither reads nor extends the log. *)
Definition logless {A} (m : M A) : Prop :=
  forall log, m log = (eval m, log).

(** The status object after further entries have been appended. *)
Definition extend (status : LinterStatus.t)
    (entries : list LinterStatus.LintStatusEntry.t) : LinterStatus.t :=
  LinterStatus.mk (LinterStatus.path status) (LinterStatus.verbose status)
    (LinterStatus._status_list status ++ entries).

Definition extends (status : LinterStatus.t)
    (entries : list LinterStatus.LintStatusEntry.t) (status' : LinterStatus.t)
  : Prop :=
  status' = extend status entries.

(** A call whose callback handed back a [bool]. *)
Definition boolean_call (c : Call) : Prop :=
  isinstance_bool (call_result c) = true.

(** A cell on which a rule could be run: its source lines join to a string
    and the callback hands back a [bool]. *)
Definition cell_ok (lint : Lint.t) (path : Path) (item : nat * pyval)
  : Prop :=
  eval (Linter.cell_source (snd item)) = Returns (cell_text (snd item))
  /\ boolean_call (member_call lint path item).

(** A rule whose group could be run on the given cells. *)
Definition group_ok (path : Path) (cells : list pyval) (lint : Lint.t)
  : Prop :=
  Forall (cell_ok lint path) (selected (Lint.scope lint) cells)
  /\ Lint.cond lint <> None.

(** The cell of one loop pass, if the scope filter lets it through. *)
Definition pick (scope : Options.Scope) (item : nat * pyval)
  : list (nat * pyval) :=
  if matches scope (snd item) then [item] else [].

(** The two accumulators of [_run_lint_group] after the rule was run on
    further cells. *)
Definition grows (lint : Lint.t) (path : Path)
    (acc : list verdict * LinterStatus.t) (items : list (nat * pyval))
    (acc' : list verdict * LinterStatus.t) : Prop :=
  fst acc' = fst acc
             ++ map (fun item => call_result (member_call lint path item))
                  items
  /\ extends (snd acc) (map (member_entry lint path) items) (snd acc').

(** The entries recorded before the group of a cell-scoped rule that comes
    after the rules [pre] in the order of dispatch. *)
Definition entries_before (lint_dict : LintDict) (source : string)
    (data : pyval) (cells : list pyval) (path : Path) (pre : list Lint.t)
  : list LinterStatus.LintStatusEntry.t :=
  map (file_entry source data path) (file_lints lint_dict)
  ++ flat_map (group_block path cells) pre.

(** The scope filter in the words of the specification: [CELLS] selects
    every cell, [CODE] the cells whose kind is code, [TEXT] the cells whose
    kind is prose. *)
Definition scope_filter (scope : Options.Scope) (cell : pyval) : bool :=
  match scope with
  | Options.CELLS => true
  | Options.CODE => py_eq_str (cell_kind cell) "code"
  | Options.TEXT => py_eq_str (cell_kind cell) "markdown"
  | Options.FILE => false
  end.

(** The positions, in the whole document, of the cells a scope selects. *)
Definition matching_indices (scope : Options.Scope) (cells : list pyval)
  : list nat :=
  map fst (selected scope cells).

(** The rules among [lints] that carry a given scope and condition, in the
    order of [lints]. *)
Definition filed (lints : list Lint.t) (scope : Options.Scope)
    (cond : Options.Cond) : list Lint.t :=
  List.filter
    (fun lint =>
       bool_decide (Lint.scope lint = scope /\ Lint.cond lint = Some cond))
    lints.

(** The message of the [TypeError] that [add_entry] raises. *)
Definition abort_message (v : verdict) : string :=
  "Lint status must return Boolean, got: " +:+ py_str v.

(** What the calls a computation has added to the log say about its
    outcome: either all of them handed back a [bool], or the last one did
    not and the computation has raised the [TypeError] of [add_entry] for
    it. *)
Definition trace_ok {A} (out : result A) (calls : list Call) : Prop :=
  Forall boolean_call calls
  \/ exists before c,
       calls = before ++ [c]
       /\ Forall boolean_call before
       /\ isinstance_bool (call_result c) = false
       /\ out = Raises (TypeError (abort_message (call_result c))).

Definition traced {A} (m : M A) : Prop :=
  forall log,
    exists calls, snd (m log) = log ++ calls /\ trace_ok (fst (m log)) calls.

(** ** More of Python: item assignment, defaults, substrings *)

Definition is_dict (v : pyval) : Prop :=
  match v with PDict _ => True | _ => False end.

(** [d[key] = value] on the items of a dict: an existing key keeps its
    place, a new key goes to the end. *)
Fixpoint dict_set (items : list (string * pyval)) (key : string)
    (value : pyval) : list (string * pyval) :=
  match items with
  | [] => [(key, value)]
  | (k, v) :: rest =>
      if String.eqb k key then (k, value) :: rest
      else (k, v) :: dict_set rest key value
  end.

(** The items of a dict without a key. *)
Fixpoint dict_remove (items : list (string * pyval)) (key : string)
  : list (string * pyval) :=
  match items with
  | [] => []
  | (k, v) :: rest =>
      if String.eqb k key then rest else (k, v) :: dict_remove rest key
  end.

(** [v.get(key, default)] *)
Definition py_get_or (v : pyval) (key : string) (default : pyval)
  : M pyval :=
  match v with
  | PDict items =>
      ret (match dict_lookup items key with Some x => x | None => default end)
  | _ =>
      raise (AttributeError
               ("'" +:+ py_type_name v +:+ "' object has no attribute 'get'"))
  end.

(** [needle in haystack] for two strings *)
Fixpoint str_contains (needle haystack : string) : bool :=
  String.prefix needle haystack
  || match haystack with
     | EmptyString => false
     | String _ rest => str_contains needle rest
     end.

(** The character [/]. *)
Definition SLASH : Ascii.ascii := Ascii.ascii_of_nat 47.

(** [os.path.basename(p)]: what follows the last slash. *)
Fixpoint basename_from (name p : string) : string :=
  match p with
  | EmptyString => name
  | String c rest =>
      if Ascii.eqb c SLASH then basename_from "" rest
      else basename_from (name +:+ String c "") rest
  end.

Definition basename (p : string) : string := basename_from "" p.

(** ** The notebook formatter, [tools/nbfmt.py]

    The functions of the formatter change the parsed notebook in place and
    write warnings to [sys.stderr]. Here a computation maps the text
    written to [sys.stderr] so far to an outcome and the extended text, and
    a function that changes [data] hands back the changed [data]. The
    notebook is a tree, as [json.load] builds it: no object is reachable
    along two paths. The flag [FLAGS.preserve_outputs] is an argument. *)

Module Nbfmt.

Definition W (A : Type) : Type := list string -> result A * list string.

Definition wret {A} (a : A) : W A := fun err => (Returns a, err).

Definition wraise {A} (e : PyExc) : W A := fun err => (Raises e, err).

Definition wbind {A B} (m : W A) (k : A -> W B) : W B :=
  fun err =>
    match m err with
    | (Returns a, err') => k a err'
    | (Raises e, err') => (Raises e, err')
    end.

Notation "x <~ m ;; k" := (wbind m (fun x => k))
  (at level 100, m at next level, right associativity).

(** A computation of the linter's kind that does not invoke callbacks. *)
Definition lift {A} (m : M A) : W A := fun err => (eval m, err).

Fixpoint wfor_each {A S} (l : list A) (body : S -> A -> W S) (s : S) : W S :=
  match l with
  | [] => wret s
  | x :: l' => s' <~ body s x ;; wfor_each l' body s'
  end.

(** [print(text, file=sys.stderr)] *)
Definition print_stderr (text : string) : W unit :=
  fun err => (Returns tt, err ++ [text +:+ LinterStatus.NL]).

(** [v[key] = value] for a string [key] *)
Definition py_setitem (v : pyval) (key : string) (value : pyval) : W pyval :=
  match v with
  | PDict items => wret (PDict (dict_set items key value))
  | PList _ =>
      wraise (TypeError "list indices must be integers or slices, not str")
  | _ =>
      wraise (TypeError ("'" +:+ py_type_name v
                         +:+ "' object does not support item assignment"))
  end.

(** [container[key1][key2] = value] *)
Definition set_in (container : pyval) (key1 key2 : string) (value : pyval)
  : W pyval :=
  inner <~ lift (py_getitem container key1) ;;
  inner <~ py_setitem inner key2 value ;;
  py_setitem container key1 inner.

(** [for x in v] *)
Definition iterate (v : pyval) : W (list pyval) :=
  lift (py_iter ("'" +:+ py_type_name v +:+ "' object is not iterable") v).

Definition REQUIRED_REGEXPS : list (string * string) :=
  [("copyright", "Copyright 20[1-9][0-9] The TensorFlow\s.*?\s?Authors");
   ("TF2 Colab magic", "%tensorflow_version 2.x")].

Definition warn (msg : string) : W unit :=
  print_stderr (" " +:+ LinterStatus.ESC +:+ "[33m " +:+ msg
                +:+ LinterStatus.ESC +:+ "[00m").

(** [any(cell["source"])] *)
Definition has_source (cell : pyval) : W bool :=
  source <~ lift (py_getitem cell "source") ;;
  items <~ iterate source ;;
  wret (existsb py_truth items).

(** [[cell for cell in cells if any(cell["source"])]] *)
Fixpoint nonempty_cells (cells : list pyval) : W (list pyval) :=
  match cells with
  | [] => wret []
  | cell :: rest =>
      keep <~ has_source cell ;;
      kept <~ nonempty_cells rest ;;
      wret (if keep then cell :: kept else kept)
  end.

(** One pass of the loop that clears the outputs; the accumulator holds
    [has_outputs] and the cells passed so far, as the loop leaves them. *)
Definition clear_outputs (acc : bool * list pyval) (cell : pyval)
  : W (bool * list pyval) :=
  cell_type <~ lift (py_getitem cell "cell_type") ;;
  if py_eq_str cell_type "code" then
    outputs <~ lift (py_get cell "outputs") ;;
    if py_truth outputs then
      cell <~ py_setitem cell "execution_count" (PInt 0) ;;
      cell <~ py_setitem cell "outputs" (PList []) ;;
      wret (true, snd acc ++ [cell])
    else wret (fst acc, snd acc ++ [cell])
  else wret (fst acc, snd acc ++ [cell]).

Definition delete_cells (preserve_outputs : bool) (data : pyval) : W pyval :=
  cells <~ lift (py_getitem data "cells") ;;
  cells <~ iterate cells ;;
  kept <~ nonempty_cells cells ;;
  data <~ py_setitem data "cells" (PList kept) ;;
  if negb preserve_outputs then
    cells <~ lift (py_getitem data "cells") ;;
    cells <~ iterate cells ;;
    acc <~ wfor_each cells clear_outputs (false, []) ;;
    data <~ py_setitem data "cells" (PList (snd acc)) ;;
    if fst acc then
      _ <~ warn "Removed the existing output cells." ;;
      wret data
    else wret data
  else wret data.

Definition update_metadata (preserve_outputs : bool) (data : pyval)
    (filepath : option string) : W pyval :=
  metadata <~ lift (py_get_or data "metadata" (PDict [])) ;;
  colab <~ lift (py_get_or metadata "colab" (PDict [])) ;;
  metadata <~ py_setitem metadata "colab" colab ;;
  metadata <~ match filepath with
              | Some fp => set_in metadata "colab" "name" (PStr (basename fp))
              | None => wret metadata
              end ;;
  metadata <~ (if preserve_outputs
               then set_in metadata "colab" "private_outputs" (PBool false)
               else set_in metadata "colab" "private_outputs" (PBool true)) ;;
  metadata <~ set_in metadata "colab" "provenance" (PList []) ;;
  metadata <~ set_in metadata "colab" "toc_visible" (PBool true) ;;
  py_setitem data "metadata" metadata.

Definition license_header : string :=
  "#@title Licensed under the Apache License".

(** One pass of the loop of [has_license_and_update]; the accumulator holds
    [has_license] and the cells passed so far, as the loop leaves them. *)
Definition mark_license (acc : bool * list pyval) (cell : pyval)
  : W (bool * list pyval) :=
  src_text <~ lift (Linter.cell_source cell) ;;
  if str_contains license_header src_text then
    metadata <~ lift (py_get_or cell "metadata" (PDict [])) ;;
    metadata <~ py_setitem metadata "cellView" (PStr "form") ;;
    cell <~ py_setitem cell "metadata" metadata ;;
    wret (true, snd acc ++ [cell])
  else wret (fst acc, snd acc ++ [cell]).

Definition has_license_and_update (data : pyval) : W (bool * pyval) :=
  cells_value <~ lift (py_getitem data "cells") ;;
  cells <~ iterate cells_value ;;
  acc <~ wfor_each cells mark_license (false, []) ;;
  data <~ match cells_value with
          | PList _ => py_setitem data "cells" (PList (snd acc))
          | _ => wret data
          end ;;
  if negb (fst acc) then
    _ <~ warn ("Missing license: " +:+ license_header) ;;
    wret (fst acc, data)
  else wret (fst acc, data).

Section Regexps.

(** [re.compile(pattern).search(text)], as a truth value. *)
Variable re_search : string -> string -> bool.

(** The loop over the cells, with its [break]. *)
Fixpoint search_cells (pattern : string) (cells : list pyval) : W bool :=
  match cells with
  | [] => wret false
  | cell :: rest =>
      src_text <~ lift (Linter.cell_source cell) ;;
      if re_search pattern src_text then wret true
      else search_cells pattern rest
  end.

(** The loop over the required patterns, with its early [return]. *)
Fixpoint check_patterns (patterns : list (string * string)) (data : pyval)
  : W bool :=
  match patterns with
  | [] => wret true
  | (desc, pattern) :: rest =>
      cells <~ lift (py_getitem data "cells") ;;
      cells <~ iterate cells ;;
      has_pattern <~ search_cells pattern cells ;;
      if negb has_pattern then
        _ <~ warn ("Missing " +:+ desc +:+ ": " +:+ pattern) ;;
        wret false
      else check_patterns rest data
  end.

Definition has_required_regexps (data : pyval) : W bool :=
  check_patterns REQUIRED_REGEXPS data.

End Regexps.

(** [OrderedDict.move_to_end(key, last)] on the items of a dict. *)
Definition move_to_end (items : list (string * pyval)) (key : string)
    (last : bool) : W (list (string * pyval)) :=
  match dict_lookup items key with
  | None => wraise (KeyError key)
  | Some value =>
      if last then wret (dict_remove items key ++ [(key, value)])
      else wret ((key, value) :: dict_remove items key)
  end.

(** [sort_notebook] on the items of the dict [data]; where [main] calls it,
    [data] is a dict, items having been assigned to it. *)
Definition sort_notebook (data : list (string * pyval))
  : W (list (string * pyval)) :=
  sorted_data <~ wret data ;;
  sorted_data <~ move_to_end sorted_data "metadata" false ;;
  sorted_data <~ move_to_end sorted_data "cells" true ;;
  wret sorted_data.

End Nbfmt.

(** ** The style module, [nblint/style/tensorflow.py] *)

Module TensorflowStyle.


End TensorflowStyle.

(** ** Sample notebooks for the formatter *)

Module FmtSamples.

Definition title_cell : pyval :=
  PDict [("cell_type", PStr "markdown"); ("source", PList [PStr "# Title"])].

Definition empty_cell : pyval :=
  PDict [("cell_type", PStr "code"); ("source", PList []);
         ("outputs", PList [PStr "stale"])].

Definition blank_cell : pyval :=
  PDict [("cell_type", PStr "code"); ("source", PList [PStr ""])].

Definition run_cell : pyval :=
  PDict [("cell_type", PStr "code"); ("execution_count", PInt 3);
         ("source", PList [PStr "print(1)"]);
         ("outputs", PList [PStr "1"])].

Definition license_cell : pyval :=
  PDict [("cell_type", PStr "code");
         ("source",
          PList [PStr "#@title Licensed under the Apache License, Version 2.0";
                 PStr "# you may not use this file"])].

Definition cells : list pyval :=
  [title_cell; empty_cell; blank_cell; run_cell; license_cell].

Definition items : list (string * pyval) :=
  [("nbformat", PInt 4);
   ("cells", PList cells);
   ("metadata",
    PDict [("kernelspec", PStr "python3");
           ("colab", PDict [("collapsed_sections", PList [])])])].

Definition notebook : pyval := PDict items.

(** A stand-in for [re.search] that finds each pattern as a substring. *)
Definition literal_search (pattern text : string) : bool :=
  str_contains pattern text.

(** What a computation of the formatter hands back, and [default] when it
    raises. *)
Definition value_of {A} (default : A) (r : result A * list string) : A :=
  match fst r with
  | Returns a => a
  | Raises _ => default
  end.

End FmtSamples.

(** ** When a notebook can be linted *)

(** The conditions under which the loops of [Linter.run] run to their end:
    every callback that gets invoked hands back a [bool], every cell a rule
    selects has source lines that join, every rule run on cells has a
    condition of the enumeration and, if there is such a rule, every cell is
    a dict. *)
Definition lintable (any_first : bool) (lint_dict : LintDict)
    (source : string) (data : pyval) (cells : list pyval) (path : Path)
  : Prop :=
  Forall (fun lint => boolean_call (file_call source data path lint))
    (file_lints lint_dict)
  /\ Forall (group_ok path cells) (cell_lints any_first lint_dict)
  /\ (cell_lints any_first lint_dict = [] \/ Forall is_dict cells).

(** ** Notions for the formatter *)

(** What a computation of the formatter does on an empty [sys.stderr]. *)
Definition evalw {A} (m : Nbfmt.W A) : result A := fst (m []).

(** [v[key]] where it exists. *)
Definition py_field (v : pyval) (key : string) : option pyval :=
  match v with
  | PDict items => dict_lookup items key
  | _ => None
  end.

(** The keys of a dict, in their order. *)
Definition keys (items : list (string * pyval)) : list string :=
  map fst items.

(** The items of a dict other than the two that [sort_notebook] moves. *)
Definition middle_items (items : list (string * pyval))
  : list (string * pyval) :=
  List.filter
    (fun kv => negb (String.eqb (fst kv) "metadata")
               && negb (String.eqb (fst kv) "cells"))
    items.

(** The Colab settings as [update_metadata] leaves them. *)
Definition colab_settings (preserve_outputs : bool) (filepath : option string)
    (colab : list (string * pyval)) : list (string * pyval) :=
  let colab :=
    match filepath with
    | Some fp => dict_set colab "name" (PStr (basename fp))
    | None => colab
    end in
  let colab := dict_set colab "private_outputs"
                 (PBool (negb preserve_outputs)) in
  let colab := dict_set colab "provenance" (PList []) in
  dict_set colab "toc_visible" (PBool true).

(** [d.get(key, {})], as the items of the dict found, if it is one. *)
Definition dict_or_empty (items : list (string * pyval)) (key : string)
  : option (list (string * pyval)) :=
  match dict_lookup items key with
  | None => Some []
  | Some (PDict found) => Some found
  | Some _ => None
  end.

(** Whether some item of the cell's source is truthy: for a source that is
    a list of lines, whether some line is not empty. *)
Definition source_truthy (cell : pyval) : bool :=
  match py_field cell "source" with
  | Some source =>
      match eval (py_iter "" source) with
      | Returns items => existsb py_truth items
      | Raises _ => false
      end
  | None => false
  end.

(** Whether the cell is a code cell with outputs. *)
Definition produces_outputs (cell : pyval) : bool :=
  match py_field cell "cell_type" with
  | Some cell_type => py_eq_str cell_type "code"
  | None => false
  end
  && match py_field cell "outputs" with
     | Some outputs => py_truth outputs
     | None => false
     end.

(** The cell with its execution count reset and its outputs emptied. *)
Definition cleared (cell : pyval) : pyval :=
  match cell with
  | PDict items =>
      PDict (dict_set (dict_set items "execution_count" (PInt 0))
               "outputs" (PList []))
  | _ => cell
  end.

Definition without_outputs (cell : pyval) : pyval :=
  if produces_outputs cell then cleared cell else cell.

(** The cells as [delete_cells] leaves them. *)
Definition remaining_cells (preserve_outputs : bool) (cells : list pyval)
  : list pyval :=
  if preserve_outputs then List.filter source_truthy cells
  else map without_outputs (List.filter source_truthy cells).

(** What [delete_cells] writes to [sys.stderr]. *)
Definition outputs_warning (preserve_outputs : bool) (cells : list pyval)
  : list string :=
  if negb preserve_outputs
     && existsb produces_outputs (List.filter source_truthy cells)
  then [" " +:+ LinterStatus.ESC +:+ "[33m "
        +:+ "Removed the existing output cells."
        +:+ LinterStatus.ESC +:+ "[00m" +:+ LinterStatus.NL]
  else [].

(** Whether [for x in v] can run. *)
Definition iterable (v : pyval) : bool :=
  match v with
  | PList _ | PStr _ | PDict _ => true
  | _ => false
  end.

(** Whether the cell is a dict with a ["source"] that can be iterated. *)
Definition has_iterable_source (cell : pyval) : bool :=
  match py_field cell "source" with
  | Some source => iterable source
  | None => false
  end.

(** Whether the cell is a dict with a ["cell_type"]. *)
Definition has_cell_type (cell : pyval) : bool :=
  match py_field cell "cell_type" with
  | Some _ => true
  | None => false
  end.

(** The cells on which [delete_cells] runs to its end: the first loop reads
    the source of every cell, the second one the type of every cell the
    first one has kept. *)
Definition deletable (preserve_outputs : bool) (cells : list pyval) : bool :=
  forallb has_iterable_source cells
  && (preserve_outputs
      || forallb has_cell_type (List.filter source_truthy cells)).

(** Two cells that agree on every key but the two that [delete_cells]
    resets. *)
Definition same_but_outputs (cell cell' : pyval) : Prop :=
  forall key,
    key <> "execution_count" -> key <> "outputs" ->
    py_field cell' key = py_field cell key.

(** Whether the joined source of the cell holds the license header. *)
Definition has_header (cell : pyval) : bool :=
  str_contains Nbfmt.license_header (cell_text cell).

(** The cell with its form view switched on. *)
Definition as_form (cell : pyval) : pyval :=
  match cell with
  | PDict items =>
      match dict_or_empty items "metadata" with
      | Some metadata =>
          PDict (dict_set items "metadata"
                   (PDict (dict_set metadata "cellView" (PStr "form"))))
      | None => cell
      end
  | _ => cell
  end.

Definition marked (cell : pyval) : pyval :=
  if has_header cell then as_form cell else cell.

(** What [has_license_and_update] writes to [sys.stderr]. *)
Definition license_warning (has_license : bool) : list string :=
  if has_license then []
  else [" " +:+ LinterStatus.ESC +:+ "[33m "
        +:+ ("Missing license: " +:+ Nbfmt.license_header)
        +:+ LinterStatus.ESC +:+ "[00m" +:+ LinterStatus.NL].

(** Whether the source lines of the cell join to a string. *)
Definition joins (cell : pyval) : bool :=
  match eval (Linter.cell_source cell) with
  | Returns _ => true
  | Raises _ => false
  end.

(** Whether the cell's ["metadata"], if there is one, is a dict. *)
Definition metadata_ok (cell : pyval) : bool :=
  match cell with
  | PDict items =>
      match dict_or_empty items "metadata" with
      | Some _ => true
      | None => false
      end
  | _ => false
  end.

(** The cells on which the loop of [has_license_and_update] runs to its
    end. *)
Definition markable (cell : pyval) : bool :=
  joins cell && (negb (has_header cell) || metadata_ok cell).

(** [cell["metadata"][key]], where a cell without ["metadata"] counts as
    one with empty metadata. *)
Definition metadata_field (cell : pyval) (key : string) : option pyval :=
  match py_field cell "metadata" with
  | Some metadata => py_field metadata key
  | None => None
  end.

(** Two cells that agree on every key but ["metadata"], and under
    ["metadata"] on every key but ["cellView"]: the second cell has no key
    under ["metadata"], other than ["cellView"], that the first one has not,
    with the same value. *)
Definition same_but_view (cell cell' : pyval) : Prop :=
  (forall key, key <> "metadata" -> py_field cell' key = py_field cell key)
  /\ forall key,
       key <> "cellView" ->
       metadata_field cell' key = metadata_field cell key.

(** The strings of a list of values, if they are all strings. *)
Fixpoint strings_of (items : list pyval) : option (list string) :=
  match items with
  | [] => Some []
  | PStr s :: rest =>
      match strings_of rest with
      | Some strings => Some (s :: strings)
      | None => None
      end
  | _ => None
  end.

(** The source lines of a cell: the strings under its ["source"], a single
    string counting as one line, and a dict as its keys. *)
Definition source_lines (cell : pyval) : option (list string) :=
  match py_field cell "source" with
  | Some (PList items) => strings_of items
  | Some (PStr s) => Some [s]
  | Some (PDict items) => Some (map fst items)
  | _ => None
  end.

(** The cells a scope selects, in the words of the specification, as a
    property of the cell. *)
Definition scope_selects (scope : Options.Scope) (cell : pyval) : Prop :=
  match scope with
  | Options.CELLS => True
  | Options.CODE => cell_kind cell = PStr "code"
  | Options.TEXT => cell_kind cell = PStr "markdown"
  | Options.FILE => False
  end.

(** Whether some cell's joined source matches the pattern. *)
Definition found_in (re_search : string -> string -> bool)
    (cells : list pyval) (pattern : string) : bool :=
  existsb (fun cell => re_search pattern (cell_text cell)) cells.

(** The first required pattern that no cell matches. *)
Definition first_missing (re_search : string -> string -> bool)
    (cells : list pyval) : option (string * string) :=
  List.find (fun p => negb (found_in re_search cells (snd p)))
    Nbfmt.REQUIRED_REGEXPS.

(** What [has_required_regexps] writes to [sys.stderr]. *)
Definition regexps_warning (missing : option (string * string))
  : list string :=
  match missing with
  | Some (desc, pattern) =>
      [(" " +:+ LinterStatus.ESC +:+ "[33m "
        +:+ ("Missing " +:+ desc +:+ ": " +:+ pattern)
        +:+ LinterStatus.ESC +:+ "[00m") +:+ LinterStatus.NL]
  | None => []
  end.

(** The cell shows as a form: its ["metadata"] is a dict whose
    ["cellView"] is ["form"]. *)
Definition shown_as_form (cell : pyval) : Prop :=
  exists metadata,
    py_field cell "metadata" = Some (PDict metadata)
    /\ dict_lookup metadata "cellView" = Some (PStr "form").

(** A computation of the formatter that writes nothing to [sys.stderr]. *)
Definition silent {A} (m : Nbfmt.W A) : Prop :=
  forall err, snd (m err) = err.

(** ** Reasoning about computations *)

Section Computations.
Context {A B : Type}.

Lemma bind_returns (m : M A) (k : A -> M B) log b log2 :
  bind m k log = (Returns b, log2) ->
  exists a log1, m log = (Returns a, log1) /\ k a log1 = (Returns b, log2).
Proof.
  unfold bind. destruct (m log) as [[a|e] log1]; [eauto | discriminate].
Qed.

Lemma bind_step (m : M A) (k : A -> M B) log a log1 :
  m log = (Returns a, log1) -> bind m k log = k a log1.
Proof. unfold bind. now intros ->. Qed.

Lemma bind_raises (m : M A) (k : A -> M B) log e log1 :
  m log = (Raises e, log1) -> bind m k log = (Raises e, log1).
Proof. unfold bind. now intros ->. Qed.

End Computations.

Lemma logless_ret {A} (a : A) : logless (ret a).
Proof. now intros log. Qed.

Lemma logless_raise {A} (e : PyExc) : logless (@raise A e).
Proof. now intros log. Qed.

Lemma logless_bind {A B} (m : M A) (k : A -> M B) :
  logless m -> (forall a, logless (k a)) -> logless (bind m k).
Proof.
  intros Hm Hk log. unfold eval, bind.
  rewrite (Hm log), (Hm []). destruct (eval m) as [a|e]; [|reflexivity].
  rewrite (Hk a log), (Hk a []). reflexivity.
Qed.

Lemma logless_py_get v key : logless (py_get v key).
Proof. destruct v; simpl; auto using logless_ret, logless_raise. Qed.

Lemma logless_py_getitem v key : logless (py_getitem v key).
Proof.
  destruct v; simpl; auto using logless_raise.
  unfold dict_getitem. destruct (dict_lookup items key);
    auto using logless_ret, logless_raise.
Qed.

Lemma logless_py_iter onfail v : logless (py_iter onfail v).
Proof. destruct v; simpl; auto using logless_ret, logless_raise. Qed.

Lemma logless_join_items l : forall i, logless (join_items i l).
Proof.
  induction l as [|v l IH]; intros i; simpl; [apply logless_ret|].
  destruct v; auto using logless_raise.
  apply logless_bind; [apply IH | intros; apply logless_ret].
Qed.

Lemma logless_py_join v : logless (py_join v).
Proof.
  apply logless_bind; [apply logless_py_iter | intros; apply logless_join_items].
Qed.

Lemma logless_cell_source cell : logless (Linter.cell_source cell).
Proof.
  apply logless_bind; [apply logless_py_getitem | intros; apply logless_py_join].
Qed.

Lemma logless_returns {A} (m : M A) log a log' :
  logless m -> m log = (Returns a, log') -> eval m = Returns a /\ log' = log.
Proof. intros Hm. rewrite (Hm log). now intros [= -> ->]. Qed.

(** ** Loops that only append *)

Section ForEach.
Context {A S E : Type}.
Variable ext : S -> list E -> S -> Prop.
Hypothesis ext_nil : forall s, ext s [] s.
Hypothesis ext_app : forall s es s' es' s'',
  ext s es s' -> ext s' es' s'' -> ext s (es ++ es') s''.
Variable body : S -> A -> M S.
Variable added : A -> list E.
Variable called : A -> list Call.
Variable good : A -> Prop.
Hypothesis body_returns : forall s x log s' log',
  body s x log = (Returns s', log') ->
  ext s (added x) s' /\ log' = log ++ called x /\ good x.

Lemma for_each_returns l : forall s log s' log',
  for_each l body s log = (Returns s', log') ->
  ext s (flat_map added l) s' /\ log' = log ++ flat_map called l
  /\ Forall good l.
Proof.
  induction l as [|x l IH]; simpl; intros s log s' log' H.
  - injection H as <- <-. rewrite app_nil_r. auto.
  - apply bind_returns in H as (s1 & log1 & Hx & Hl).
    apply body_returns in Hx as (Hext & -> & Hgood).
    apply IH in Hl as (Hext' & -> & Hall).
    rewrite <- app_assoc. eauto.
Qed.

End ForEach.

(** ** The status object only grows *)

Lemma extends_nil status : extends status [] status.
Proof. unfold extends, extend. rewrite app_nil_r. now destruct status. Qed.

Lemma extends_app status es status' es' status'' :
  extends status es status' -> extends status' es' status'' ->
  extends status (es ++ es') status''.
Proof.
  unfold extends, extend. intros -> ->. simpl. now rewrite app_assoc.
Qed.

Lemma member_name_truthy name (idx : nat) :
  negb (String.eqb (name +:+ "__cell_" +:+ pretty idx) "") = true.
Proof. now destruct name. Qed.

Lemma add_entry_bool status lint b name group flag log :
  LinterStatus.add_entry status lint (VBool b) name group flag log
  = (Returns
       (extend status
          [LinterStatus.LintStatusEntry.mk lint b
             match name with
             | Some s => if py_truth (PStr s) then s else Lint.name lint
             | None => Lint.name lint
             end group flag]), log).
Proof. reflexivity. Qed.

Lemma add_entry_other status lint shown truth name group flag log :
  LinterStatus.add_entry status lint (VOther shown truth) name group flag log
  = (Raises (TypeError ("Lint status must return Boolean, got: " +:+ shown)),
     log).
Proof. reflexivity. Qed.

Lemma add_entry_returns status lint v name group flag log status' log' :
  LinterStatus.add_entry status lint v name group flag log
  = (Returns status', log') ->
  isinstance_bool v = true /\ log' = log /\
  status' = extend status
              [LinterStatus.LintStatusEntry.mk lint (verdict_truth v)
                 match name with
                 | Some s => if py_truth (PStr s) then s else Lint.name lint
                 | None => Lint.name lint
                 end group flag].
Proof.
  destruct v as [b|shown truth].
  - rewrite add_entry_bool. intros [= <- <-]. auto.
  - rewrite add_entry_other. discriminate.
Qed.

(** ** The loops of the dispatch engine *)

Lemma grows_nil lint path acc : grows lint path acc [] acc.
Proof. split; simpl; [now rewrite app_nil_r | apply extends_nil]. Qed.

Lemma grows_app lint path acc es acc' es' acc'' :
  grows lint path acc es acc' -> grows lint path acc' es' acc'' ->
  grows lint path acc (es ++ es') acc''.
Proof.
  intros [Hv He] [Hv' He']. split.
  - rewrite Hv', Hv, map_app. now rewrite app_assoc.
  - rewrite map_app. eapply extends_app; eauto.
Qed.

Lemma flat_map_pick scope items :
  flat_map (pick scope) items
  = List.filter (fun item => matches scope (snd item)) items.
Proof.
  induction items as [|item items IH]; simpl; [reflexivity|].
  unfold pick at 1. destruct (matches scope (snd item)); simpl; now rewrite IH.
Qed.

Lemma lint_cell_returns lint path acc item log acc' log' :
  Linter.lint_cell lint path acc item log = (Returns acc', log') ->
  grows lint path acc (pick (Lint.scope lint) item) acc'
  /\ log' = log ++ map (member_call lint path) (pick (Lint.scope lint) item)
  /\ Forall (cell_ok lint path) (pick (Lint.scope lint) item).
Proof.
  unfold Linter.lint_cell. intros H.
  apply bind_returns in H as (cell_type & log1 & Hget & H).
  apply logless_returns in Hget as [Hkind ->]; [|apply logless_py_get].
  unfold pick, matches, cell_kind. rewrite Hkind.
  destruct (Linter.out_of_scope (Lint.scope lint) cell_type); simpl.
  - injection H as <- <-. rewrite app_nil_r.
    auto using grows_nil.
  - apply bind_returns in H as (source & log1 & Hsrc & H).
    apply logless_returns in Hsrc as [Hsrc ->]; [|apply logless_cell_source].
    assert (Htext : cell_text (snd item) = source)
      by (unfold cell_text; now rewrite Hsrc).
    apply bind_returns in H as (v & log1 & Hrun & H).
    injection Hrun as <- <-.
    apply bind_returns in H as (status & log1 & Hadd & H).
    apply add_entry_returns in Hadd as (Hbool & -> & ->).
    injection H as <- <-.
    rewrite member_name_truthy. subst source.
    split; [split; reflexivity|]. split; [reflexivity|].
    constructor; [|constructor]. split; assumption.
Qed.

Lemma map_flat_map {X Y Z} (g : Y -> Z) (f : X -> list Y) l :
  flat_map (fun x => map g (f x)) l = map g (flat_map f l).
Proof.
  induction l as [|x l IH]; simpl; [reflexivity|].
  now rewrite map_app, IH.
Qed.

Lemma flat_map_singleton {X Y} (f : X -> Y) l :
  flat_map (fun x => [f x]) l = map f l.
Proof. induction l as [|x l IH]; simpl; [reflexivity | now rewrite IH]. Qed.

Lemma flat_map_flat_map {X Y Z} (g : Y -> list Z) (f : X -> list Y) l :
  flat_map (fun x => flat_map g (f x)) l = flat_map g (flat_map f l).
Proof.
  induction l as [|x l IH]; simpl; [reflexivity|].
  now rewrite flat_map_app, IH.
Qed.

Lemma notebook_cells_get data cells :
  notebook_cells data = Some cells ->
  forall log, py_get data "cells" log = (Returns (PList cells), log).
Proof.
  destruct data as [| | | | |items]; simpl; try discriminate.
  destruct (dict_lookup items "cells") as [[| | | |l|]|]; try discriminate.
  now intros [= ->].
Qed.

Lemma run_lint_group_returns self lint data cells status path log r log' :
  notebook_cells data = Some cells ->
  Linter._run_lint_group self lint data status path log = (Returns r, log') ->
  fst r = group_verdict lint path cells
  /\ snd r = extend status (member_entries lint path cells)
  /\ log' = log ++ member_calls lint path cells
  /\ group_ok path cells lint.
Proof.
  intros Hcells H. unfold Linter._run_lint_group in H.
  rewrite (bind_step _ _ _ _ _ (notebook_cells_get _ _ Hcells log)) in H.
  apply bind_returns in H as (cells' & log1 & Hiter & H).
  injection Hiter as <- <-.
  apply bind_returns in H as (acc & log1 & Hloop & H).
  apply (for_each_returns (grows lint path) (grows_nil lint path)
           (grows_app lint path) _ (pick (Lint.scope lint))
           (fun item => map (member_call lint path)
                          (pick (Lint.scope lint) item))
           (fun item => Forall (cell_ok lint path)
                          (pick (Lint.scope lint) item))
           (lint_cell_returns lint path)) in Hloop
    as ([Hv He] & -> & Hok).
  rewrite map_flat_map in *. rewrite flat_map_pick in *.
  apply Forall_flat_map in Hok. rewrite flat_map_pick in Hok.
  simpl in Hv.
  unfold group_verdict, group_ok, member_calls, member_entries, selected.
  rewrite map_map.
  destruct (Lint.cond lint) as [[|]|]; [| |discriminate];
    injection H as <- <-; simpl; rewrite Hv; repeat split; auto.
Qed.

Lemma lint_group_returns self data cells path status lint log status' log' :
  notebook_cells data = Some cells ->
  Linter.lint_group self data path status lint log = (Returns status', log') ->
  extends status (group_block path cells lint) status'
  /\ log' = log ++ member_calls lint path cells
  /\ group_ok path cells lint.
Proof.
  intros Hcells H. unfold Linter.lint_group in H.
  apply bind_returns in H as (r & log1 & Hrun & H).
  apply (run_lint_group_returns _ _ _ _ _ _ _ _ _ Hcells) in Hrun
    as (Hv & Hs & -> & Hok).
  rewrite add_entry_bool in H. injection H as <- <-.
  rewrite Hv, Hs. split; [|split; [reflexivity|assumption]].
  unfold extends, extend, group_block, aggregate_entry. simpl.
  now rewrite app_assoc.
Qed.

Lemma lint_file_returns source data path status lint log status' log' :
  Linter.lint_file source data path status lint log = (Returns status', log') ->
  extends status [file_entry source data path lint] status'
  /\ log' = log ++ [file_call source data path lint]
  /\ boolean_call (file_call source data path lint).
Proof.
  unfold Linter.lint_file. intros H.
  apply bind_returns in H as (v & log1 & Hrun & H).
  injection Hrun as <- <-.
  apply add_entry_returns in H as (Hbool & -> & ->).
  repeat split; auto.
Qed.

Lemma notebook_cells_truth data cells :
  notebook_cells data = Some cells -> py_truth data = true.
Proof.
  destruct data as [| | | | |items]; simpl; try discriminate.
  now destruct items.
Qed.

Section Loading.
Variable read_text : Path -> string.
Variable json_loads : string -> option pyval.

Lemma load_notebook_undecodable self path log :
  json_loads (read_text path) = None ->
  Linter._load_notebook read_text json_loads self path log
  = (Returns (None, read_text path), log).
Proof.
  intros H. unfold Linter._load_notebook, bind, try_except. now rewrite H.
Qed.

Lemma load_notebook_cells self path data cells log :
  json_loads (read_text path) = Some data ->
  notebook_cells data = Some cells ->
  Linter._load_notebook read_text json_loads self path log
  = (Returns (Some data, read_text path), log).
Proof.
  intros H Hcells. unfold Linter._load_notebook, bind, try_except.
  rewrite H. unfold ret at 1.
  rewrite (notebook_cells_get _ _ Hcells). reflexivity.
Qed.

Lemma load_notebook_no_cells self path items log :
  json_loads (read_text path) = Some (PDict items) ->
  notebook_cells (PDict items) = None ->
  Linter._load_notebook read_text json_loads self path log
  = (Raises (SystemExit 1), log).
Proof.
  intros H Hcells. unfold Linter._load_notebook, bind, try_except.
  rewrite H. simpl in *. unfold ret at 1 2.
  destruct (dict_lookup items "cells") as [[| | | |l|]|];
    try reflexivity; discriminate.
Qed.

Lemma load_notebook_returns self path log r log' :
  Linter._load_notebook read_text json_loads self path log
  = (Returns r, log') ->
  log' = log /\ snd r = read_text path
  /\ match fst r with
     | None => json_loads (read_text path) = None
     | Some data =>
         json_loads (read_text path) = Some data
         /\ exists cells, notebook_cells data = Some cells
     end.
Proof.
  destruct (json_loads (read_text path)) as [data|] eqn:Hjson.
  - destruct (notebook_cells data) as [cells|] eqn:Hcells.
    + rewrite (load_notebook_cells _ _ _ _ _ Hjson Hcells).
      intros [= <- <-]. simpl. eauto.
    + unfold Linter._load_notebook, bind, try_except. rewrite Hjson.
      unfold ret at 1.
      destruct data as [| | | | |items]; simpl; try discriminate.
      simpl in Hcells. unfold ret at 1.
      destruct (dict_lookup items "cells") as [[| | | |l|]|];
        simpl; discriminate.
  - rewrite (load_notebook_undecodable _ _ _ Hjson).
    intros [= <- <-]. simpl. auto.
Qed.

End Loading.

(** ** What a run that returns has done *)

Section Run.
Variable read_text : Path -> string.
Variable json_loads : string -> option pyval.
Variable any_first : bool.

Lemma cell_loops_returns self data cells path lint_dict status log status' log' :
  notebook_cells data = Some cells ->
  for_each [Options.CELLS; Options.CODE; Options.TEXT]
    (fun status scope =>
       for_each (Options.Cond_members any_first)
         (fun status cond =>
            for_each (lint_dict scope cond) (Linter.lint_group self data path)
              status)
         status)
    status log = (Returns status', log') ->
  extends status
    (flat_map (group_block path cells) (cell_lints any_first lint_dict))
    status'
  /\ log' = log ++ flat_map (fun lint => member_calls lint path cells)
                     (cell_lints any_first lint_dict)
  /\ Forall (group_ok path cells) (cell_lints any_first lint_dict).
Proof.
  intros Hcells H.
  pose proof (fun lints =>
    for_each_returns extends extends_nil extends_app
      (Linter.lint_group self data path) (group_block path cells)
      (fun lint => member_calls lint path cells) (group_ok path cells)
      (fun s x l s' l' => lint_group_returns self data cells path s x l s' l'
                            Hcells) lints) as Hlints.
  pose proof (fun scope conds =>
    for_each_returns extends extends_nil extends_app
      (fun status cond =>
         for_each (lint_dict scope cond) (Linter.lint_group self data path)
           status)
      (fun cond => flat_map (group_block path cells) (lint_dict scope cond))
      (fun cond => flat_map (fun lint => member_calls lint path cells)
                     (lint_dict scope cond))
      (fun cond => Forall (group_ok path cells) (lint_dict scope cond))
      (fun s cond => Hlints (lint_dict scope cond) s) conds) as Hconds.
  apply (for_each_returns extends extends_nil extends_app _
           (fun scope =>
              flat_map
                (fun cond =>
                   flat_map (group_block path cells) (lint_dict scope cond))
                (Options.Cond_members any_first))
           (fun scope =>
              flat_map
                (fun cond =>
                   flat_map (fun lint => member_calls lint path cells)
                     (lint_dict scope cond))
                (Options.Cond_members any_first))
           (fun scope =>
              Forall (fun cond =>
                        Forall (group_ok path cells) (lint_dict scope cond))
                (Options.Cond_members any_first))
           (fun s scope => Hconds scope (Options.Cond_members any_first) s))
    in H as (Hext & -> & Hok).
  unfold cell_lints.
  rewrite <- !flat_map_flat_map.
  split; [|split].
  - erewrite flat_map_ext; [exact Hext|].
    intros scope. symmetry. apply flat_map_flat_map.
  - f_equal. apply flat_map_ext.
    intros scope. apply flat_map_flat_map.
  - apply Forall_flat_map. eapply Forall_impl; [exact Hok|].
    intros scope Hscope. now apply Forall_flat_map.
Qed.

Lemma run_returns self path lint_dict log r log' :
  Linter.run read_text json_loads any_first self path lint_dict log
  = (Returns r, log') ->
  (json_loads (read_text path) = None /\ r = Linter.RFalse /\ log' = log)
  \/ exists data cells,
       json_loads (read_text path) = Some data
       /\ notebook_cells data = Some cells
       /\ r = Linter.RStatus
                (LinterStatus.mk path (Linter.verbose self)
                   (report_entries any_first lint_dict (read_text path)
                      data cells path))
       /\ log' = log ++ report_calls any_first lint_dict (read_text path)
                          data cells path
       /\ Forall (fun lint =>
                    boolean_call (file_call (read_text path) data path lint))
            (file_lints lint_dict)
       /\ Forall (group_ok path cells) (cell_lints any_first lint_dict).
Proof.
  unfold Linter.run. intros H.
  apply bind_returns in H as (loaded & log1 & Hload & H).
  apply load_notebook_returns in Hload as (-> & Hsrc & Hdata).
  destruct (fst loaded) as [data|].
  - destruct Hdata as [Hjson [cells Hcells]].
    rewrite (notebook_cells_truth _ _ Hcells) in H. cbn [negb] in H.
    apply bind_returns in H as (status1 & log1 & Hfile & H).
    apply (for_each_returns extends extends_nil extends_app _
             (fun lint => [file_entry (snd loaded) data path lint])
             (fun lint => [file_call (snd loaded) data path lint])
             (fun lint => boolean_call (file_call (snd loaded) data path lint))
             (lint_file_returns (snd loaded) data path)) in Hfile
      as (Hext1 & -> & Hok1).
    apply bind_returns in H as (status2 & log2 & Hcell & H).
    apply (cell_loops_returns _ _ _ _ _ _ _ _ _ Hcells) in Hcell
      as (Hext2 & -> & Hok2).
    injection H as <- <-.
    right. exists data, cells. rewrite Hsrc in *.
    split; [assumption|]. split; [assumption|].
    rewrite Hext2, Hext1. unfold report_entries, report_calls, file_lints.
    rewrite !flat_map_singleton.
    unfold extend, LinterStatus.__init__. cbn [LinterStatus.path
      LinterStatus.verbose LinterStatus._status_list app].
    rewrite <- app_assoc. auto.
  - injection H as <- <-. left. auto.
Qed.

End Run.

(** ** Overall success *)

Lemma is_success_loop_false entries :
  LinterStatus.is_success_loop entries = false <->
  exists entry,
    In entry entries
    /\ LinterStatus.LintStatusEntry.is_group_entry entry = false
    /\ LinterStatus.LintStatusEntry.is_success entry = false.
Proof.
  induction entries as [|e entries IH]; simpl.
  - split; [discriminate | intros (? & [] & _)].
  - destruct (LinterStatus.LintStatusEntry.is_group_entry e) eqn:Hg;
      destruct (LinterStatus.LintStatusEntry.is_success e) eqn:Hs; simpl.
    all: try (rewrite IH; split;
              [ intros (x & Hin & Hx); exists x; auto
              | intros (x & [<- | Hin] & Hgx & Hsx);
                [congruence | exists x; auto] ]).
    split; [intros _; exists e; auto | reflexivity].
Qed.

Lemma is_success_loop_roots entries :
  LinterStatus.is_success_loop entries
  = LinterStatus.is_success_loop
      (List.filter
         (fun obj => negb (LinterStatus.LintStatusEntry.is_group_entry obj))
         entries).
Proof.
  induction entries as [|e entries IH]; simpl; [reflexivity|].
  destruct (LinterStatus.LintStatusEntry.is_group_entry e) eqn:Hg; simpl.
  - exact IH.
  - rewrite Hg. simpl. now rewrite IH.
Qed.

(** C1: the overall success of the report of a run is false exactly when
    some entry that is not a group member has failed; the entries that are
    group members have no part in it, since the overall success is that of
    the top-level entries alone. *)
Theorem overall_success_of_run read_text json_loads any_first self path
    lint_dict log status log' :
  Linter.run read_text json_loads any_first self path lint_dict log
  = (Returns (Linter.RStatus status), log') ->
  (LinterStatus.is_success status = false <->
   exists entry,
     In entry (LinterStatus._status_list status)
     /\ LinterStatus.LintStatusEntry.is_group_entry entry = false
     /\ LinterStatus.LintStatusEntry.is_success entry = false)
  /\ LinterStatus.is_success status
     = LinterStatus.is_success_loop (LinterStatus.root_entries status).
Proof.
  intros _. split.
  - apply is_success_loop_false.
  - apply is_success_loop_roots.
Qed.

Lemma overall_success_of_run_witness :
  let status :=
    Samples.report_of
      (Samples.run Samples.linter "mixed.ipynb"
         [Samples.license_rule; Samples.file_rule]) in
  (LinterStatus.is_success status = false <->
   exists entry,
     In entry (LinterStatus._status_list status)
     /\ LinterStatus.LintStatusEntry.is_group_entry entry = false
     /\ LinterStatus.LintStatusEntry.is_success entry = false)
  /\ LinterStatus.is_success status
     = LinterStatus.is_success_loop (LinterStatus.root_entries status).
Proof.
  intros status.
  apply (overall_success_of_run Samples.read_text Samples.json_loads true
           Samples.linter "mixed.ipynb"
           (registry_of [Samples.license_rule; Samples.file_rule]) []
           status
           (snd (Samples.run Samples.linter "mixed.ipynb"
                   [Samples.license_rule; Samples.file_rule]))).
  vm_compute. reflexivity.
Defined.

(** ** Documents that cannot be linted *)

(** C2, as the code has it: a document that does not decode as JSON makes
    [run] return [False], with no callback invoked; a document that decodes
    to a mapping without a list under ["cells"] ends the process through
    [sys.exit(1)]. *)
Theorem malformed_document read_text json_loads any_first self path
    lint_dict log :
  (json_loads (read_text path) = None ->
   Linter.run read_text json_loads any_first self path lint_dict log
   = (Returns Linter.RFalse, log))
  /\ (forall items,
        json_loads (read_text path) = Some (PDict items) ->
        notebook_cells (PDict items) = None ->
        Linter.run read_text json_loads any_first self path lint_dict log
        = (Raises (SystemExit 1), log)).
Proof.
  split.
  - intros H. unfold Linter.run.
    now rewrite (bind_step _ _ _ _ _
                   (load_notebook_undecodable _ _ self path log H)).
  - intros items H Hcells. unfold Linter.run.
    now rewrite (bind_raises _ _ _ _ _
                   (load_notebook_no_cells _ _ self path items log H Hcells)).
Qed.

Lemma malformed_document_witness :
  Samples.run Samples.linter "broken.ipynb" [Samples.file_rule]
  = (Returns Linter.RFalse, [])
  /\ Samples.run Samples.linter "object.ipynb" [Samples.file_rule]
     = (Raises (SystemExit 1), []).
Proof.
  split.
  - apply (proj1 (malformed_document Samples.read_text Samples.json_loads
                    true Samples.linter "broken.ipynb"
                    (registry_of [Samples.file_rule]) [])).
    vm_compute. reflexivity.
  - apply (proj2 (malformed_document Samples.read_text Samples.json_loads
                    true Samples.linter "object.ipynb"
                    (registry_of [Samples.file_rule]) []) []).
    + vm_compute. reflexivity.
    + vm_compute. reflexivity.
Defined.

(** C2 as stated fails: the file [object.ipynb] holds the JSON text of an
    empty object, a mapping with no ["cells"] key, and [run] does not return
    [False] on it but leaves through [SystemExit]. *)
Lemma malformed_document_exits :
  Samples.read_text "object.ipynb" = "{}"
  /\ Samples.json_loads "{}" = Some (PDict [])
  /\ notebook_cells (PDict []) = None
  /\ Samples.run Samples.linter "object.ipynb" [Samples.file_rule]
     = (Raises (SystemExit 1), [])
  /\ Samples.run Samples.linter "object.ipynb" [Samples.file_rule]
     <> (Returns Linter.RFalse, []).
Proof. vm_compute. repeat split; discriminate. Qed.

(** ** The cells a rule is run on *)

Lemma py_eq_str_true v s : py_eq_str v s = true <-> v = PStr s.
Proof.
  destruct v; simpl; try (split; [discriminate | intros [=]]).
  rewrite String.eqb_eq. split; [now intros -> | now intros [= ->]].
Qed.

Lemma matches_scope_filter scope cell :
  scope <> Options.FILE -> matches scope cell = scope_filter scope cell.
Proof.
  unfold matches, scope_filter, Linter.out_of_scope.
  destruct scope; intros H; try reflexivity; try apply negb_involutive.
  now destruct H.
Qed.

Lemma enumerate_from_snd {X} (l : list X) n :
  map snd (combine (seq n (length l)) l) = l.
Proof.
  revert n. induction l as [|x l IH]; intros n; simpl;
    [reflexivity | now rewrite IH].
Qed.

Lemma enumerate_from_lookup {X} (l : list X) n i x :
  In (i, x) (combine (seq n (length l)) l) <->
  n <= i /\ l !! (i - n) = Some x.
Proof.
  revert n. induction l as [|y l IH]; intros n; simpl.
  - split; [intros [] | intros [_ [=]]].
  - rewrite IH. split.
    + intros [[= <- <-] | [Hle Hx]].
      * rewrite Nat.sub_diag. auto.
      * split; [lia|]. now replace (i - n) with (S (i - S n)) by lia.
    + intros [Hle Hx]. destruct (i - n) as [|k] eqn:Hk.
      * left. injection Hx as ->. f_equal. lia.
      * right. split; [lia|]. now replace (i - S n) with k by lia.
Qed.

Lemma enumerate_lookup {X} (l : list X) i x :
  In (i, x) (enumerate l) <-> l !! i = Some x.
Proof.
  unfold enumerate. rewrite enumerate_from_lookup, Nat.sub_0_r.
  split; [now intros [_ H] | intros H; split; [lia | exact H]].
Qed.

Lemma filter_map_snd {X Y} (f : Y -> bool) (l : list (X * Y)) :
  map snd (List.filter (fun item => f (snd item)) l)
  = List.filter f (map snd l).
Proof.
  induction l as [|item l IH]; simpl; [reflexivity|].
  destruct (f (snd item)); simpl; now rewrite IH.
Qed.

Lemma selected_cells scope cells :
  map snd (selected scope cells) = List.filter (matches scope) cells.
Proof.
  unfold selected, enumerate.
  now rewrite filter_map_snd, enumerate_from_snd.
Qed.

Lemma selected_lookup scope cells i cell :
  In (i, cell) (selected scope cells) <->
  cells !! i = Some cell /\ matches scope cell = true.
Proof.
  unfold selected. rewrite filter_In, enumerate_lookup. reflexivity.
Qed.

Lemma In_selected scope cells cell :
  In cell cells -> matches scope cell = true ->
  exists i, In (i, cell) (selected scope cells).
Proof.
  intros Hin Hm. apply list_elem_of_In, list_elem_of_lookup in Hin as [i Hi].
  exists i. now apply selected_lookup.
Qed.

Lemma member_entries_length lint path cells :
  length (member_entries lint path cells)
  = length (List.filter (matches (Lint.scope lint)) cells).
Proof.
  unfold member_entries.
  now rewrite length_map, <- selected_cells, length_map.
Qed.

(** ** The place of a rule's group in the report *)

Section Groups.
Variable read_text : Path -> string.
Variable json_loads : string -> option pyval.
Variable any_first : bool.

Lemma run_returns_status self path lint_dict log status log' data cells :
  Linter.run read_text json_loads any_first self path lint_dict log
  = (Returns (Linter.RStatus status), log') ->
  json_loads (read_text path) = Some data ->
  notebook_cells data = Some cells ->
  status = LinterStatus.mk path (Linter.verbose self)
             (report_entries any_first lint_dict (read_text path) data cells
                path)
  /\ log' = log ++ report_calls any_first lint_dict (read_text path) data
                     cells path
  /\ Forall (fun lint =>
               boolean_call (file_call (read_text path) data path lint))
       (file_lints lint_dict)
  /\ Forall (group_ok path cells) (cell_lints any_first lint_dict).
Proof.
  intros H Hjson Hcells.
  apply run_returns in H
    as [(_ & [=] & _) | (data' & cells' & Hjson' & Hcells' & [= ->] & H)].
  rewrite Hjson in Hjson'. injection Hjson' as <-.
  rewrite Hcells in Hcells'. injection Hcells' as <-.
  split; [reflexivity | exact H].
Qed.

Lemma run_group self path lint_dict log status log' data cells pre lint post :
  Linter.run read_text json_loads any_first self path lint_dict log
  = (Returns (Linter.RStatus status), log') ->
  json_loads (read_text path) = Some data ->
  notebook_cells data = Some cells ->
  cell_lints any_first lint_dict = pre ++ lint :: post ->
  LinterStatus._status_list status
  = entries_before lint_dict (read_text path) data cells path pre
    ++ member_entries lint path cells
    ++ aggregate_entry lint path cells
    :: flat_map (group_block path cells) post
  /\ group_ok path cells lint.
Proof.
  intros H Hjson Hcells Hsplit.
  apply (run_returns_status _ _ _ _ _ _ _ _ H Hjson) in Hcells
    as (-> & _ & _ & Hok).
  rewrite Hsplit in Hok. apply Forall_app in Hok as [_ Hok].
  apply Forall_cons in Hok as [Hok _]. split; [|exact Hok].
  simpl. unfold report_entries, entries_before. rewrite Hsplit.
  rewrite flat_map_app. simpl. unfold group_block at 2.
  now rewrite <- !app_assoc.
Qed.

End Groups.

(** ** Group verdicts *)

Lemma matches_code cell :
  matches Options.CODE cell = true <-> cell_kind cell = PStr "code".
Proof.
  unfold matches. simpl. rewrite negb_involutive. apply py_eq_str_true.
Qed.

Lemma matches_text cell :
  matches Options.TEXT cell = true <-> cell_kind cell = PStr "markdown".
Proof.
  unfold matches. simpl. rewrite negb_involutive. apply py_eq_str_true.
Qed.

Lemma filter_nonempty {X} (f : X -> bool) l :
  List.filter f l <> [] <-> exists x, In x l /\ f x = true.
Proof.
  split.
  - destruct (List.filter f l) as [|x l'] eqn:Hf; [congruence|].
    intros _. exists x. apply filter_In. rewrite Hf. now left.
  - intros (x & Hx) Hf. apply filter_In in Hx. rewrite Hf in Hx.
    destruct Hx.
Qed.

Lemma py_any_all_true {X} (f : X -> verdict) l :
  (forall x, f x = VBool true) ->
  py_any (map f l) = true <-> l <> [].
Proof.
  intros Hf. destruct l as [|x l]; simpl.
  - split; [discriminate | congruence].
  - rewrite Hf. simpl. split; [discriminate | reflexivity].
Qed.

Lemma py_all_booleans {X} (f : X -> verdict) l :
  Forall (fun x => isinstance_bool (f x) = true) l ->
  py_all (map f l) = true <-> forall x, In x l -> f x = VBool true.
Proof.
  induction 1 as [|x l Hx Hl IH]; simpl.
  - split; [intros _ ? [] | reflexivity].
  - rewrite andb_true_iff, IH. split.
    + intros [Hv Hall] y [<- | Hy]; [|now apply Hall].
      destruct (f x); [simpl in Hv; now subst | discriminate].
    + intros Hall. split; [|intros y Hy; apply Hall; now right].
      rewrite (Hall x); [reflexivity | now left].
Qed.

(** C3, as the code has it: for a rule of scope [CODE] and condition [ANY]
    whose callback always returns [True], the aggregate entry that [run]
    records is true exactly when the document has at least one code cell; on
    a document without code cells it is false, [any] of no results being
    [False]. *)
Theorem any_rule_on_code_cells read_text json_loads any_first self path
    lint_dict log status log' data cells pre lint post :
  Linter.run read_text json_loads any_first self path lint_dict log
  = (Returns (Linter.RStatus status), log') ->
  json_loads (read_text path) = Some data ->
  notebook_cells data = Some cells ->
  cell_lints any_first lint_dict = pre ++ lint :: post ->
  Lint.scope lint = Options.CODE ->
  Lint.cond lint = Some Options.ANY ->
  (forall source cell p, Lint.run lint source cell p = VBool true) ->
  exists verdict,
    LinterStatus._status_list status
    = entries_before lint_dict (read_text path) data cells path pre
      ++ member_entries lint path cells
      ++ LinterStatus.LintStatusEntry.mk lint verdict (Lint.name lint)
           (Some (Lint.name lint)) false
      :: flat_map (group_block path cells) post
    /\ (verdict = true <->
        exists cell, In cell cells /\ cell_kind cell = PStr "code")
    /\ ((forall cell, In cell cells -> cell_kind cell <> PStr "code") ->
        verdict = false).
Proof.
  intros H Hjson Hcells Hsplit Hscope Hcond Htrue.
  destruct (run_group _ _ _ _ _ _ _ _ _ _ _ _ _ _ H Hjson Hcells Hsplit)
    as [Hentries _].
  exists (group_verdict lint path cells). split; [exact Hentries|].
  assert (Hiff : group_verdict lint path cells = true <->
                 exists cell, In cell cells /\ cell_kind cell = PStr "code").
  { unfold group_verdict, member_calls. rewrite Hcond, Hscope, map_map.
    rewrite py_any_all_true by (intros item; apply Htrue).
    unfold selected. rewrite filter_nonempty. split.
    - intros ([i cell] & Hin & Hm). exists cell. split.
      + apply enumerate_lookup in Hin.
        apply list_elem_of_In, list_elem_of_lookup. eauto.
      + now apply matches_code.
    - intros (cell & Hin & Hkind).
      apply matches_code in Hkind.
      destruct (In_selected _ _ _ Hin Hkind) as [i Hi].
      exists (i, cell). apply filter_In in Hi. exact Hi. }
  split; [exact Hiff|].
  intros Hnone. destruct (group_verdict lint path cells); [|reflexivity].
  destruct (proj1 Hiff eq_refl) as (cell & Hin & Hkind).
  now destruct (Hnone cell Hin).
Qed.

Lemma any_rule_on_code_cells_witness :
  exists verdict,
    LinterStatus._status_list
      (Samples.report_of
         (Samples.run Samples.linter "striped.ipynb"
            [Samples.file_rule; Samples.code_true_rule]))
    = entries_before
        (registry_of [Samples.file_rule; Samples.code_true_rule])
        (Samples.read_text "striped.ipynb")
        (Samples.notebook Samples.striped_cells) Samples.striped_cells
        "striped.ipynb" []
      ++ member_entries Samples.code_true_rule "striped.ipynb"
           Samples.striped_cells
      ++ LinterStatus.LintStatusEntry.mk Samples.code_true_rule verdict
           "code_ok" (Some "code_ok") false
      :: flat_map (group_block "striped.ipynb" Samples.striped_cells) []
    /\ (verdict = true <->
        exists cell,
          In cell Samples.striped_cells /\ cell_kind cell = PStr "code")
    /\ ((forall cell,
           In cell Samples.striped_cells -> cell_kind cell <> PStr "code") ->
        verdict = false).
Proof.
  apply (any_rule_on_code_cells Samples.read_text Samples.json_loads true
           Samples.linter "striped.ipynb"
           (registry_of [Samples.file_rule; Samples.code_true_rule]) []
           (Samples.report_of
              (Samples.run Samples.linter "striped.ipynb"
                 [Samples.file_rule; Samples.code_true_rule]))
           (snd (Samples.run Samples.linter "striped.ipynb"
                   [Samples.file_rule; Samples.code_true_rule]))
           (Samples.notebook Samples.striped_cells) Samples.striped_cells
           [] Samples.code_true_rule []).
  - vm_compute. reflexivity.
  - vm_compute. reflexivity.
  - reflexivity.
  - vm_compute. reflexivity.
  - reflexivity.
  - reflexivity.
  - reflexivity.
Defined.

(** C3 as stated fails: on a notebook whose only cell is prose, the rule
    [code_ok], of scope [CODE] and condition [ANY] and always true, gets the
    aggregate verdict false. *)
Lemma any_rule_without_code_cells :
  Lint.scope Samples.code_true_rule = Options.CODE
  /\ Lint.cond Samples.code_true_rule = Some Options.ANY
  /\ List.filter (scope_filter Options.CODE) Samples.prose_cells = []
  /\ map (fun e => (LinterStatus.LintStatusEntry.name e,
                    LinterStatus.LintStatusEntry.is_success e,
                    LinterStatus.LintStatusEntry.is_group_entry e))
       (LinterStatus._status_list
          (Samples.report_of
             (Samples.run Samples.linter "prose.ipynb"
                [Samples.code_true_rule])))
     = [("code_ok", false, false)].
Proof. vm_compute. repeat split. Qed.

Lemma eval_bind_logless {X Y} (m : M X) (k : X -> M Y) :
  logless m ->
  eval (bind m k)
  = match eval m with
    | Returns a => eval (k a)
    | Raises e => Raises e
    end.
Proof.
  intros Hm. unfold eval at 1. unfold bind. rewrite (Hm []).
  now destruct (eval m).
Qed.

(** Joining values gives the concatenation of their strings, and raises if
    one of them is not a string. *)
Lemma join_items_lines l : forall i,
  match strings_of l with
  | Some lines => eval (join_items i l) = Returns (join_text lines)
  | None => exists e, eval (join_items i l) = Raises e
  end.
Proof.
  induction l as [|v l IH]; intros i; [reflexivity|].
  destruct v; cbn [strings_of join_items]; try (eexists; reflexivity).
  rewrite eval_bind_logless by apply logless_join_items.
  specialize (IH (S i)). destruct (strings_of l) as [lines|].
  - now rewrite IH.
  - destruct IH as [e ->]. eauto.
Qed.

Lemma join_chars s : forall i,
  eval (join_items i
          (map (fun c => PStr (String c "")) (String.list_ascii_of_string s)))
  = Returns s.
Proof.
  induction s as [|c s IH]; intros i; [reflexivity|].
  cbn [String.list_ascii_of_string map join_items].
  rewrite eval_bind_logless by apply logless_join_items.
  now rewrite IH.
Qed.

Lemma strings_of_keys (items : list (string * pyval)) :
  strings_of (map (fun kv => PStr (fst kv)) items) = Some (map fst items).
Proof.
  induction items as [|kv items IH]; [reflexivity|].
  cbn [map strings_of]. now rewrite IH.
Qed.

(** The text a callback is handed is the concatenation of the source lines
    of the cell; a cell without source lines makes the join raise. *)
Lemma cell_source_lines cell :
  match source_lines cell with
  | Some lines => eval (Linter.cell_source cell) = Returns (join_text lines)
  | None => exists e, eval (Linter.cell_source cell) = Raises e
  end.
Proof.
  unfold source_lines, Linter.cell_source.
  destruct cell as [| | | | |items]; try (eexists; reflexivity).
  cbn [py_field]. rewrite eval_bind_logless by apply logless_py_getitem.
  cbn [py_getitem]. unfold dict_getitem.
  destruct (dict_lookup items "source") as [source|];
    [|eexists; reflexivity].
  change (eval (ret source)) with (Returns source).
  unfold py_join. rewrite eval_bind_logless by apply logless_py_iter.
  destruct source as [| | |s|l|keyed]; try (eexists; reflexivity).
  - change (eval (py_iter "can only join an iterable" (PStr s)))
      with (Returns (map (fun c => PStr (String c ""))
                       (String.list_ascii_of_string s))).
    cbv beta iota. rewrite join_chars. cbn [join_text fold_right].
    f_equal. clear. induction s as [|c s IH]; [reflexivity|].
    change (String c s = String c (s +:+ "")). now rewrite <- IH.
  - exact (join_items_lines l 0).
  - change (eval (py_iter "can only join an iterable" (PDict keyed)))
      with (Returns (map (fun kv => PStr (fst kv)) keyed)).
    cbv beta iota.
    pose proof (join_items_lines (map (fun kv => PStr (fst kv)) keyed) 0) as H.
    now rewrite strings_of_keys in H.
Qed.

Lemma cell_text_lines cell lines :
  source_lines cell = Some lines -> cell_text cell = join_text lines.
Proof.
  intros H. pose proof (cell_source_lines cell) as Hs. rewrite H in Hs.
  unfold cell_text. now rewrite Hs.
Qed.

Lemma source_lines_joinable cell text :
  eval (Linter.cell_source cell) = Returns text ->
  exists lines, source_lines cell = Some lines.
Proof.
  intros H. pose proof (cell_source_lines cell) as Hs.
  destruct (source_lines cell) as [lines|]; [eauto|].
  destruct Hs as [e He]. congruence.
Qed.

(** C6: for a rule of scope [TEXT] and condition [ALL], the aggregate entry
    that [run] records is true exactly when the callback returns [True] on
    every prose cell of the document, handed the concatenation of the
    source lines of the cell; every prose cell has source lines; the
    aggregate is true when there is no prose cell. *)
Theorem all_rule_on_prose_cells read_text json_loads any_first self path
    lint_dict log status log' data cells pre lint post :
  Linter.run read_text json_loads any_first self path lint_dict log
  = (Returns (Linter.RStatus status), log') ->
  json_loads (read_text path) = Some data ->
  notebook_cells data = Some cells ->
  cell_lints any_first lint_dict = pre ++ lint :: post ->
  Lint.scope lint = Options.TEXT ->
  Lint.cond lint = Some Options.ALL ->
  exists verdict,
    LinterStatus._status_list status
    = entries_before lint_dict (read_text path) data cells path pre
      ++ member_entries lint path cells
      ++ LinterStatus.LintStatusEntry.mk lint verdict (Lint.name lint)
           (Some (Lint.name lint)) false
      :: flat_map (group_block path cells) post
    /\ (forall cell,
          In cell cells -> cell_kind cell = PStr "markdown" ->
          exists lines, source_lines cell = Some lines)
    /\ (verdict = true <->
        forall cell lines,
          In cell cells -> cell_kind cell = PStr "markdown" ->
          source_lines cell = Some lines ->
          Lint.run lint (join_text lines) cell path = VBool true)
    /\ ((forall cell, In cell cells -> cell_kind cell <> PStr "markdown") ->
        verdict = true).
Proof.
  intros H Hjson Hcells Hsplit Hscope Hcond.
  destruct (run_group _ _ _ _ _ _ _ _ _ _ _ _ _ _ H Hjson Hcells Hsplit)
    as [Hentries [Hok _]].
  exists (group_verdict lint path cells). split; [exact Hentries|].
  assert (Hlines : forall cell,
            In cell cells -> cell_kind cell = PStr "markdown" ->
            exists lines, source_lines cell = Some lines).
  { intros cell Hin Hkind. apply matches_text in Hkind.
    destruct (In_selected _ _ _ Hin Hkind) as [i Hi].
    rewrite Hscope in Hok.
    destruct (proj1 (List.Forall_forall _ _) Hok (i, cell) Hi) as [Hsrc _].
    exact (source_lines_joinable _ _ Hsrc). }
  split; [exact Hlines|].
  assert (Hiff : group_verdict lint path cells = true <->
                 forall cell lines,
                   In cell cells -> cell_kind cell = PStr "markdown" ->
                   source_lines cell = Some lines ->
                   Lint.run lint (join_text lines) cell path = VBool true).
  { unfold group_verdict, member_calls. rewrite Hcond, map_map.
    rewrite py_all_booleans
      by (eapply Forall_impl; [exact Hok | now intros item [_ Hb]]).
    rewrite Hscope. split.
    - intros Hall cell lines Hin Hkind Hsrc. apply matches_text in Hkind.
      destruct (In_selected _ _ _ Hin Hkind) as [i Hi].
      rewrite <- (cell_text_lines _ _ Hsrc).
      exact (Hall (i, cell) Hi).
    - intros Hall [i cell] Hi. apply selected_lookup in Hi as [Hi Hm].
      assert (Hin : In cell cells)
        by (apply list_elem_of_In, list_elem_of_lookup; eauto).
      apply matches_text in Hm.
      destruct (Hlines cell Hin Hm) as [lines Hsrc].
      unfold call_result, member_call.
      cbn [call_lint call_source call_target call_path snd].
      rewrite (cell_text_lines _ _ Hsrc).
      exact (Hall cell lines Hin Hm Hsrc). }
  split; [exact Hiff|].
  intros Hnone. apply Hiff. intros cell lines Hin Hkind.
  now destruct (Hnone cell Hin).
Qed.

Lemma all_rule_on_prose_cells_witness :
  let lint :=
    Lint.mk "prose_has_e" "" Options.TEXT (Some Options.ALL) "sample"
      (Samples.has "e") in
  exists verdict,
    LinterStatus._status_list
      (Samples.report_of
         (Samples.run Samples.linter "striped.ipynb"
            [Samples.file_rule; lint]))
    = entries_before
        (registry_of [Samples.file_rule; lint])
        (Samples.read_text "striped.ipynb")
        (Samples.notebook Samples.striped_cells) Samples.striped_cells
        "striped.ipynb" []
      ++ member_entries lint "striped.ipynb" Samples.striped_cells
      ++ LinterStatus.LintStatusEntry.mk lint verdict
           "prose_has_e" (Some "prose_has_e") false
      :: flat_map (group_block "striped.ipynb" Samples.striped_cells) []
    /\ (forall cell,
          In cell Samples.striped_cells ->
          cell_kind cell = PStr "markdown" ->
          exists lines, source_lines cell = Some lines)
    /\ (verdict = true <->
        forall cell lines,
          In cell Samples.striped_cells ->
          cell_kind cell = PStr "markdown" ->
          source_lines cell = Some lines ->
          Samples.has "e" (join_text lines) cell "striped.ipynb"
          = VBool true)
    /\ ((forall cell,
           In cell Samples.striped_cells ->
           cell_kind cell <> PStr "markdown") ->
        verdict = true).
Proof.
  intros lint.
  apply (all_rule_on_prose_cells Samples.read_text Samples.json_loads true
           Samples.linter "striped.ipynb"
           (registry_of [Samples.file_rule; lint]) []
           (Samples.report_of
              (Samples.run Samples.linter "striped.ipynb"
                 [Samples.file_rule; lint]))
           (snd (Samples.run Samples.linter "striped.ipynb"
                   [Samples.file_rule; lint]))
           (Samples.notebook Samples.striped_cells) Samples.striped_cells
           [] lint []).
  - vm_compute. reflexivity.
  - vm_compute. reflexivity.
  - reflexivity.
  - vm_compute. reflexivity.
  - reflexivity.
  - reflexivity.
Defined.

Lemma scope_filter_selects scope cell :
  scope_filter scope cell = true <-> scope_selects scope cell.
Proof.
  destruct scope; cbn [scope_filter scope_selects].
  - tauto.
  - apply py_eq_str_true.
  - apply py_eq_str_true.
  - split; [discriminate | intros []].
Qed.

(** C7: for a rule of scope [CELLS], [CODE] or [TEXT], the member entries
    that [run] records for it are as many as the cells its scope selects:
    every cell for [CELLS], the cells whose kind is ["code"] for [CODE], the
    cells whose kind is ["markdown"] for [TEXT]. They are all the entries
    between those of the rules before it and its own aggregate entry, each
    flagged as a group member, and each made for a selected cell: a cell
    that the scope does not select has no entry. *)
Theorem member_entry_count read_text json_loads any_first self path
    lint_dict log status log' data cells pre lint post :
  Linter.run read_text json_loads any_first self path lint_dict log
  = (Returns (Linter.RStatus status), log') ->
  json_loads (read_text path) = Some data ->
  notebook_cells data = Some cells ->
  cell_lints any_first lint_dict = pre ++ lint :: post ->
  Lint.scope lint <> Options.FILE ->
  exists members aggregate,
    LinterStatus._status_list status
    = entries_before lint_dict (read_text path) data cells path pre
      ++ members ++ aggregate :: flat_map (group_block path cells) post
    /\ length members
       = length (List.filter (scope_filter (Lint.scope lint)) cells)
    /\ (forall cell,
          scope_filter (Lint.scope lint) cell = true
          <-> scope_selects (Lint.scope lint) cell)
    /\ Forall (fun e =>
                 LinterStatus.LintStatusEntry.is_group_entry e = true
                 /\ LinterStatus.LintStatusEntry.lint e = lint)
         members
    /\ LinterStatus.LintStatusEntry.is_group_entry aggregate = false
    /\ LinterStatus.LintStatusEntry.lint aggregate = lint
    /\ members
       = map (member_entry lint path)
           (List.filter (fun item => scope_filter (Lint.scope lint) (snd item))
              (enumerate cells)).
Proof.
  intros H Hjson Hcells Hsplit Hscope.
  destruct (run_group _ _ _ _ _ _ _ _ _ _ _ _ _ _ H Hjson Hcells Hsplit)
    as [Hentries _].
  exists (member_entries lint path cells), (aggregate_entry lint path cells).
  split; [exact Hentries|]. split; [|split; [|split; [|split; [|split]]]].
  - rewrite member_entries_length. f_equal. apply filter_ext.
    intros cell. now apply matches_scope_filter.
  - intros cell. apply scope_filter_selects.
  - unfold member_entries. apply Forall_map, Forall_forall. now intros item _.
  - reflexivity.
  - reflexivity.
  - unfold member_entries, selected. f_equal. apply filter_ext.
    intros item. now apply matches_scope_filter.
Qed.

Lemma member_entry_count_witness :
  exists members aggregate,
    LinterStatus._status_list
      (Samples.report_of
         (Samples.run Samples.linter "striped.ipynb"
            [Samples.file_rule; Samples.license_rule]))
    = entries_before
        (registry_of [Samples.file_rule; Samples.license_rule])
        (Samples.read_text "striped.ipynb")
        (Samples.notebook Samples.striped_cells) Samples.striped_cells
        "striped.ipynb" []
      ++ members
      ++ aggregate
      :: flat_map (group_block "striped.ipynb" Samples.striped_cells) []
    /\ length members = 2
    /\ (forall cell,
          scope_filter Options.CODE cell = true
          <-> cell_kind cell = PStr "code")
    /\ Forall (fun e =>
                 LinterStatus.LintStatusEntry.is_group_entry e = true
                 /\ LinterStatus.LintStatusEntry.lint e = Samples.license_rule)
         members
    /\ LinterStatus.LintStatusEntry.is_group_entry aggregate = false
    /\ LinterStatus.LintStatusEntry.lint aggregate = Samples.license_rule
    /\ members
       = [member_entry Samples.license_rule "striped.ipynb"
            (1, Samples.cell "code" ["import os"]);
          member_entry Samples.license_rule "striped.ipynb"
            (3, Samples.cell "code" ["print(1)"])].
Proof.
  apply (member_entry_count Samples.read_text Samples.json_loads true
           Samples.linter "striped.ipynb"
           (registry_of [Samples.file_rule; Samples.license_rule]) []
           (Samples.report_of
              (Samples.run Samples.linter "striped.ipynb"
                 [Samples.file_rule; Samples.license_rule]))
           (snd (Samples.run Samples.linter "striped.ipynb"
                   [Samples.file_rule; Samples.license_rule]))
           (Samples.notebook Samples.striped_cells) Samples.striped_cells
           [] Samples.license_rule []).
  - vm_compute. reflexivity.
  - vm_compute. reflexivity.
  - reflexivity.
  - vm_compute. reflexivity.
  - discriminate.
Defined.

(** C9: the name of a member entry is the rule's name, [__cell_] and the
    position of its cell among all the cells of the document, whatever the
    scope lets through; so the positions in the names of the members of a
    [CODE] or [TEXT] rule can skip numbers and start above zero, as the
    code cells at positions 1 and 3 of the striped notebook show. *)
Theorem member_names_carry_document_index read_text json_loads any_first
    self path lint_dict log status log' data cells pre lint post :
  Linter.run read_text json_loads any_first self path lint_dict log
  = (Returns (Linter.RStatus status), log') ->
  json_loads (read_text path) = Some data ->
  notebook_cells data = Some cells ->
  cell_lints any_first lint_dict = pre ++ lint :: post ->
  Lint.scope lint <> Options.FILE ->
  exists members aggregate,
    LinterStatus._status_list status
    = entries_before lint_dict (read_text path) data cells path pre
      ++ members ++ aggregate :: flat_map (group_block path cells) post
    /\ LinterStatus.LintStatusEntry.is_group_entry aggregate = false
    /\ map LinterStatus.LintStatusEntry.name members
       = map (fun cell_idx => Lint.name lint +:+ "__cell_" +:+ pretty cell_idx)
           (matching_indices (Lint.scope lint) cells)
    /\ (forall cell_idx,
          In cell_idx (matching_indices (Lint.scope lint) cells) <->
          exists cell,
            cells !! cell_idx = Some cell
            /\ scope_filter (Lint.scope lint) cell = true)
    /\ matching_indices Options.CODE Samples.striped_cells = [1; 3].
Proof.
  intros H Hjson Hcells Hsplit Hscope.
  destruct (run_group _ _ _ _ _ _ _ _ _ _ _ _ _ _ H Hjson Hcells Hsplit)
    as [Hentries _].
  exists (member_entries lint path cells), (aggregate_entry lint path cells).
  split; [exact Hentries|]. split; [reflexivity|].
  split; [|split; [|reflexivity]].
  - unfold member_entries, matching_indices. now rewrite !map_map.
  - intros cell_idx. unfold matching_indices. rewrite in_map_iff. split.
    + intros ([i cell] & <- & Hin). apply selected_lookup in Hin as [Hi Hm].
      exists cell. now rewrite <- matches_scope_filter.
    + intros (cell & Hi & Hm). exists (cell_idx, cell). split; [reflexivity|].
      apply selected_lookup. now rewrite matches_scope_filter.
Qed.

Lemma member_names_carry_document_index_witness :
  exists members aggregate,
    LinterStatus._status_list
      (Samples.report_of
         (Samples.run Samples.linter "striped.ipynb"
            [Samples.file_rule; Samples.license_rule]))
    = entries_before
        (registry_of [Samples.file_rule; Samples.license_rule])
        (Samples.read_text "striped.ipynb")
        (Samples.notebook Samples.striped_cells) Samples.striped_cells
        "striped.ipynb" []
      ++ members
      ++ aggregate
      :: flat_map (group_block "striped.ipynb" Samples.striped_cells) []
    /\ LinterStatus.LintStatusEntry.is_group_entry aggregate = false
    /\ map LinterStatus.LintStatusEntry.name members
       = map (fun cell_idx => "license_check" +:+ "__cell_" +:+ pretty cell_idx)
           (matching_indices Options.CODE Samples.striped_cells)
    /\ (forall cell_idx,
          In cell_idx (matching_indices Options.CODE Samples.striped_cells)
          <->
          exists cell,
            Samples.striped_cells !! cell_idx = Some cell
            /\ scope_filter Options.CODE cell = true)
    /\ matching_indices Options.CODE Samples.striped_cells = [1; 3].
Proof.
  apply (member_names_carry_document_index Samples.read_text
           Samples.json_loads true Samples.linter "striped.ipynb"
           (registry_of [Samples.file_rule; Samples.license_rule]) []
           (Samples.report_of
              (Samples.run Samples.linter "striped.ipynb"
                 [Samples.file_rule; Samples.license_rule]))
           (snd (Samples.run Samples.linter "striped.ipynb"
                   [Samples.file_rule; Samples.license_rule]))
           (Samples.notebook Samples.striped_cells) Samples.striped_cells
           [] Samples.license_rule []).
  - vm_compute. reflexivity.
  - vm_compute. reflexivity.
  - reflexivity.
  - vm_compute. reflexivity.
  - discriminate.
Defined.

(** ** File-scoped rules *)

Lemma for_each_ext {X S} (l : list X) (body body' : S -> X -> M S) :
  (forall x, In x l -> forall s log, body s x log = body' s x log) ->
  forall s log, for_each l body s log = for_each l body' s log.
Proof.
  induction l as [|x l IH]; intros Hb s log; simpl; [reflexivity|].
  unfold bind. rewrite (Hb x) by now left.
  destruct (body' s x log) as [[s'|e] log1]; [|reflexivity].
  apply IH. intros y Hy. apply Hb. now right.
Qed.

Lemma run_ignores_file_all read_text json_loads any_first self path
    (lint_dict lint_dict' : LintDict) log :
  (forall scope cond,
     (scope = Options.FILE /\ cond = Options.ALL)
     \/ lint_dict' scope cond = lint_dict scope cond) ->
  Linter.run read_text json_loads any_first self path lint_dict' log
  = Linter.run read_text json_loads any_first self path lint_dict log.
Proof.
  intros Hsame. unfold Linter.run, bind.
  destruct (Linter._load_notebook read_text json_loads self path log)
    as [[loaded|e] log1]; [|reflexivity].
  destruct (fst loaded) as [data|]; [|reflexivity].
  destruct (negb (py_truth data)); [reflexivity|].
  destruct (Hsame Options.FILE Options.ANY) as [[_ [=]] | ->].
  destruct (for_each (lint_dict Options.FILE Options.ANY)
              (Linter.lint_file (snd loaded) data path)
              (LinterStatus.__init__ path (Linter.verbose self)) log1)
    as [[status1|e] log2]; [|reflexivity].
  rewrite for_each_ext with
    (body' := fun status scope =>
                for_each (Options.Cond_members any_first)
                  (fun status cond =>
                     for_each (lint_dict scope cond)
                       (Linter.lint_group self data path) status)
                  status); [reflexivity|].
  intros scope Hscope s l. apply for_each_ext. intros cond _ s' l'.
  destruct (Hsame scope cond) as [[-> _] | ->]; [|reflexivity].
  simpl in Hscope. intuition discriminate.
Qed.

(** C4, as the code has it: for every rule filed under the key
    ([FILE], [ANY]), a run that returns a report has invoked the callback
    once, on the raw text, the parsed document and the path, and has
    recorded one entry for it, which is not a group member and has no group;
    the calls and entries of the file-scoped rules come first, in the order
    of the rules. What is filed under ([FILE], [ALL]) is never read. *)
Theorem file_rule_entry read_text json_loads any_first self path
    lint_dict log status log' data cells pre lint post :
  Linter.run read_text json_loads any_first self path lint_dict log
  = (Returns (Linter.RStatus status), log') ->
  json_loads (read_text path) = Some data ->
  notebook_cells data = Some cells ->
  lint_dict Options.FILE Options.ANY = pre ++ lint :: post ->
  (exists verdict,
     Lint.run lint (read_text path) data path = VBool verdict
     /\ log' = log
               ++ map (file_call (read_text path) data path) pre
               ++ mkCall lint (read_text path) data path
               :: map (file_call (read_text path) data path) post
               ++ flat_map (fun lint => member_calls lint path cells)
                    (cell_lints any_first lint_dict)
     /\ LinterStatus._status_list status
        = map (file_entry (read_text path) data path) pre
          ++ LinterStatus.LintStatusEntry.mk lint verdict (Lint.name lint)
               None false
          :: map (file_entry (read_text path) data path) post
          ++ flat_map (group_block path cells)
               (cell_lints any_first lint_dict))
  /\ (forall lint_dict' : LintDict,
        (forall scope cond,
           (scope = Options.FILE /\ cond = Options.ALL)
           \/ lint_dict' scope cond = lint_dict scope cond) ->
        Linter.run read_text json_loads any_first self path lint_dict' log
        = (Returns (Linter.RStatus status), log')).
Proof.
  intros H Hjson Hcells Hsplit. split.
  - apply (run_returns_status _ _ _ _ _ _ _ _ _ _ _ H Hjson) in Hcells
      as (-> & -> & Hok & _).
    unfold file_lints in Hok. rewrite Hsplit in Hok.
    apply Forall_app in Hok as [_ Hok]. apply Forall_cons in Hok as [Hok _].
    unfold boolean_call, call_result in Hok. simpl in Hok.
    destruct (Lint.run lint (read_text path) data path) as [b|] eqn:Hrun;
      [|discriminate].
    exists b. split; [reflexivity|].
    unfold report_calls, report_entries, file_lints. rewrite Hsplit.
    rewrite !map_app. simpl. unfold file_entry at 2, file_call at 2.
    unfold call_result. simpl. rewrite Hrun. simpl.
    rewrite <- !app_assoc. simpl. split; reflexivity.
  - intros lint_dict' Hsame. rewrite <- H.
    now apply run_ignores_file_all.
Qed.

Lemma file_rule_entry_witness :
  (exists verdict,
     Lint.run Samples.file_rule (Samples.read_text "mixed.ipynb")
       (Samples.notebook Samples.mixed_cells) "mixed.ipynb" = VBool verdict
     /\ snd (Samples.run Samples.linter "mixed.ipynb" [Samples.file_rule])
        = []
          ++ map (file_call (Samples.read_text "mixed.ipynb")
                    (Samples.notebook Samples.mixed_cells) "mixed.ipynb") []
          ++ mkCall Samples.file_rule (Samples.read_text "mixed.ipynb")
               (Samples.notebook Samples.mixed_cells) "mixed.ipynb"
          :: map (file_call (Samples.read_text "mixed.ipynb")
                    (Samples.notebook Samples.mixed_cells) "mixed.ipynb") []
          ++ flat_map
               (fun lint => member_calls lint "mixed.ipynb" Samples.mixed_cells)
               (cell_lints true (registry_of [Samples.file_rule]))
     /\ LinterStatus._status_list
          (Samples.report_of
             (Samples.run Samples.linter "mixed.ipynb" [Samples.file_rule]))
        = map (file_entry (Samples.read_text "mixed.ipynb")
                 (Samples.notebook Samples.mixed_cells) "mixed.ipynb") []
          ++ LinterStatus.LintStatusEntry.mk Samples.file_rule verdict
               "file_ok" None false
          :: map (file_entry (Samples.read_text "mixed.ipynb")
                    (Samples.notebook Samples.mixed_cells) "mixed.ipynb") []
          ++ flat_map (group_block "mixed.ipynb" Samples.mixed_cells)
               (cell_lints true (registry_of [Samples.file_rule])))
  /\ (forall lint_dict' : LintDict,
        (forall scope cond,
           (scope = Options.FILE /\ cond = Options.ALL)
           \/ lint_dict' scope cond
              = registry_of [Samples.file_rule] scope cond) ->
        Linter.run Samples.read_text Samples.json_loads true Samples.linter
          "mixed.ipynb" lint_dict' []
        = (Returns
             (Linter.RStatus
                (Samples.report_of
                   (Samples.run Samples.linter "mixed.ipynb"
                      [Samples.file_rule]))),
           snd (Samples.run Samples.linter "mixed.ipynb"
                  [Samples.file_rule]))).
Proof.
  apply (file_rule_entry Samples.read_text Samples.json_loads true
           Samples.linter "mixed.ipynb" (registry_of [Samples.file_rule]) []
           (Samples.report_of
              (Samples.run Samples.linter "mixed.ipynb" [Samples.file_rule]))
           (snd (Samples.run Samples.linter "mixed.ipynb"
                   [Samples.file_rule]))
           (Samples.notebook Samples.mixed_cells) Samples.mixed_cells
           [] Samples.file_rule []).
  - vm_compute. reflexivity.
  - vm_compute. reflexivity.
  - reflexivity.
  - vm_compute. reflexivity.
Defined.

(** C4 as stated fails: the rule [file_all] has scope [FILE] and is filed
    under the condition [ALL]; the run returns a report without invoking it
    and without an entry for it. *)
Lemma file_rule_under_all_is_skipped :
  Lint.scope Samples.file_rule_all = Options.FILE
  /\ registry_of [Samples.file_rule_all] Options.FILE Options.ALL
     = [Samples.file_rule_all]
  /\ Samples.run Samples.linter "mixed.ipynb" [Samples.file_rule_all]
     = (Returns (Linter.RStatus (LinterStatus.mk "mixed.ipynb" false [])),
        []).
Proof. vm_compute. repeat split. Qed.

(** ** The order of the report *)

Lemma register_filed registry lint scope cond :
  register registry lint scope cond
  = registry scope cond ++ filed [lint] scope cond.
Proof.
  unfold register, filed. simpl.
  destruct (Lint.cond lint) as [c|] eqn:Hc.
  - repeat case_bool_decide; try reflexivity; try (now rewrite app_nil_r).
    + destruct H as [-> ->]. now destruct H0.
    + destruct H0 as [<- [= <-]]. now destruct H.
  - case_bool_decide as H; [|now rewrite app_nil_r]. now destruct H.
Qed.

Lemma fold_register_filed lints : forall registry scope cond,
  fold_left register lints registry scope cond
  = registry scope cond ++ filed lints scope cond.
Proof.
  induction lints as [|lint lints IH]; intros registry scope cond; simpl.
  - now rewrite app_nil_r.
  - rewrite IH, register_filed, <- app_assoc. f_equal.
    unfold filed. simpl. now case_bool_decide.
Qed.

Lemma registry_of_filed lints scope cond :
  registry_of lints scope cond = filed lints scope cond.
Proof. unfold registry_of. now rewrite fold_register_filed. Qed.

Lemma selected_indices_sorted (f : nat * pyval -> bool) cells : forall n,
  StronglySorted lt
    (map fst (List.filter f (combine (seq n (length cells)) cells)))
  /\ Forall (fun i => n <= i)
       (map fst (List.filter f (combine (seq n (length cells)) cells))).
Proof.
  induction cells as [|cell cells IH]; intros n; simpl.
  - split; constructor.
  - destruct (IH (S n)) as [Hs Hb].
    assert (Hb' : Forall (fun i => n <= i)
                    (map fst (List.filter f
                                (combine (seq (S n) (length cells)) cells))))
      by (eapply Forall_impl; [exact Hb | intros; simpl in *; lia]).
    destruct (f (n, cell)); simpl; [|now split].
    split.
    + constructor; [exact Hs|].
      eapply Forall_impl; [exact Hb | intros; simpl in *; lia].
    + constructor; [lia | exact Hb'].
Qed.

Lemma matching_indices_sorted scope cells :
  StronglySorted lt (matching_indices scope cells).
Proof.
  unfold matching_indices, selected, enumerate.
  apply (selected_indices_sorted (fun item => matches scope (snd item))).
Qed.

(** C8, as the code has it: the report lists first the entries of the rules
    filed under ([FILE], [ANY]), then, for the scopes [CELLS], [CODE] and
    [TEXT] in this order and within a scope for the conditions in the order
    of the enumeration, the groups of the rules filed under that scope and
    condition; the rules of one key appear in the order they were
    registered in. The group of a rule is its member entries, in the order
    of the cells in the document, followed by its one aggregate entry, which
    is not a group member and has the rule's name as its group. *)
Theorem report_order read_text json_loads any_first self path lints log
    status log' data cells :
  Linter.run read_text json_loads any_first self path (registry_of lints) log
  = (Returns (Linter.RStatus status), log') ->
  json_loads (read_text path) = Some data ->
  notebook_cells data = Some cells ->
  LinterStatus._status_list status
  = map (file_entry (read_text path) data path)
      (filed lints Options.FILE Options.ANY)
    ++ flat_map
         (fun scope =>
            flat_map
              (fun cond =>
                 flat_map
                   (fun lint =>
                      map (member_entry lint path)
                        (selected (Lint.scope lint) cells)
                      ++ [LinterStatus.LintStatusEntry.mk lint
                            (group_verdict lint path cells) (Lint.name lint)
                            (Some (Lint.name lint)) false])
                   (filed lints scope cond))
              (Options.Cond_members any_first))
         [Options.CELLS; Options.CODE; Options.TEXT]
  /\ forall lint,
       map (fun e => LinterStatus.LintStatusEntry.name e)
         (map (member_entry lint path) (selected (Lint.scope lint) cells))
       = map (member_name lint) (matching_indices (Lint.scope lint) cells)
       /\ StronglySorted lt (matching_indices (Lint.scope lint) cells)
       /\ Forall (fun e =>
                    LinterStatus.LintStatusEntry.is_group_entry e = true
                    /\ LinterStatus.LintStatusEntry.group e
                       = Some (Lint.name lint))
            (map (member_entry lint path) (selected (Lint.scope lint) cells)).
Proof.
  intros H Hjson Hcells.
  apply (run_returns_status _ _ _ _ _ _ _ _ _ _ _ H Hjson) in Hcells
    as (-> & _ & _ & _).
  split.
  - cbn [LinterStatus._status_list].
    unfold report_entries, file_lints, cell_lints.
    rewrite registry_of_filed. f_equal.
    rewrite <- flat_map_flat_map. apply flat_map_ext. intros scope.
    rewrite <- flat_map_flat_map. apply flat_map_ext. intros cond.
    now rewrite registry_of_filed.
  - intros lint. split; [|split].
    + unfold matching_indices. now rewrite !map_map.
    + apply matching_indices_sorted.
    + apply Forall_map, Forall_forall. now intros item _.
Qed.

Lemma report_order_witness :
  LinterStatus._status_list
    (Samples.report_of
       (Samples.run Samples.linter "mixed.ipynb"
          [Samples.license_rule; Samples.file_rule]))
  = map (file_entry (Samples.read_text "mixed.ipynb")
           (Samples.notebook Samples.mixed_cells) "mixed.ipynb")
      (filed [Samples.license_rule; Samples.file_rule]
         Options.FILE Options.ANY)
    ++ flat_map
         (fun scope =>
            flat_map
              (fun cond =>
                 flat_map
                   (fun lint =>
                      map (member_entry lint "mixed.ipynb")
                        (selected (Lint.scope lint) Samples.mixed_cells)
                      ++ [LinterStatus.LintStatusEntry.mk lint
                            (group_verdict lint "mixed.ipynb"
                               Samples.mixed_cells)
                            (Lint.name lint) (Some (Lint.name lint)) false])
                   (filed [Samples.license_rule; Samples.file_rule]
                      scope cond))
              (Options.Cond_members true))
         [Options.CELLS; Options.CODE; Options.TEXT]
  /\ forall lint,
       map (fun e => LinterStatus.LintStatusEntry.name e)
         (map (member_entry lint "mixed.ipynb")
            (selected (Lint.scope lint) Samples.mixed_cells))
       = map (member_name lint)
           (matching_indices (Lint.scope lint) Samples.mixed_cells)
       /\ StronglySorted lt
            (matching_indices (Lint.scope lint) Samples.mixed_cells)
       /\ Forall (fun e =>
                    LinterStatus.LintStatusEntry.is_group_entry e = true
                    /\ LinterStatus.LintStatusEntry.group e
                       = Some (Lint.name lint))
            (map (member_entry lint "mixed.ipynb")
               (selected (Lint.scope lint) Samples.mixed_cells)).
Proof.
  apply (report_order Samples.read_text Samples.json_loads true
           Samples.linter "mixed.ipynb"
           [Samples.license_rule; Samples.file_rule] []
           (Samples.report_of
              (Samples.run Samples.linter "mixed.ipynb"
                 [Samples.license_rule; Samples.file_rule]))
           (snd (Samples.run Samples.linter "mixed.ipynb"
                   [Samples.license_rule; Samples.file_rule]))
           (Samples.notebook Samples.mixed_cells) Samples.mixed_cells).
  - vm_compute. reflexivity.
  - vm_compute. reflexivity.
  - reflexivity.
Defined.

(** C8 as stated fails: [license_check], of scope [CODE], is registered
    before [file_ok], of scope [FILE], and the report has the entry of
    [file_ok] before the entries of [license_check]. *)
Lemma report_not_in_registration_order :
  map Lint.name [Samples.license_rule; Samples.file_rule]
  = ["license_check"; "file_ok"]
  /\ map (fun e => Lint.name (LinterStatus.LintStatusEntry.lint e))
       (LinterStatus._status_list
          (Samples.report_of
             (Samples.run Samples.linter "mixed.ipynb"
                [Samples.license_rule; Samples.file_rule])))
     = ["file_ok"; "license_check"; "license_check"]
  /\ map (fun e => LinterStatus.LintStatusEntry.name e)
       (LinterStatus._status_list
          (Samples.report_of
             (Samples.run Samples.linter "mixed.ipynb"
                [Samples.license_rule; Samples.file_rule])))
     = ["file_ok"; "license_check__cell_0"; "license_check"].
Proof. vm_compute. repeat split. Qed.

(** ** Callbacks that do not return a bool *)

Lemma trace_ok_returns {A} (a : A) calls :
  trace_ok (Returns a) calls -> Forall boolean_call calls.
Proof. intros [H | (? & ? & _ & _ & _ & [=])]. exact H. Qed.

Lemma trace_ok_prefix {A} (out : result A) calls calls' :
  Forall boolean_call calls -> trace_ok out calls' ->
  trace_ok out (calls ++ calls').
Proof.
  intros Hc [H | (before & c & -> & Hb & Hn & Hout)].
  - left. apply Forall_app. auto.
  - right. exists (calls ++ before), c. rewrite app_assoc.
    repeat split; auto. apply Forall_app. auto.
Qed.

Lemma trace_ok_raises {A B} e calls :
  trace_ok (@Raises A e) calls -> trace_ok (@Raises B e) calls.
Proof.
  intros [H | (before & c & -> & Hb & Hn & [= ->])]; [now left|].
  right. exists before, c. auto.
Qed.

Lemma traced_logless {A} (m : M A) : logless m -> traced m.
Proof.
  intros Hm log. exists []. rewrite (Hm log), app_nil_r.
  split; [reflexivity | left; constructor].
Qed.

Lemma traced_bind {A B} (m : M A) (k : A -> M B) :
  traced m -> (forall a, traced (k a)) -> traced (bind m k).
Proof.
  intros Hm Hk log. destruct (Hm log) as (calls & Hlog & Hok).
  unfold bind. destruct (m log) as [[a|e] log1]; simpl in *; subst log1.
  - destruct (Hk a (log ++ calls)) as (calls' & Hlog' & Hok').
    exists (calls ++ calls'). rewrite Hlog', app_assoc.
    split; [reflexivity|].
    apply trace_ok_prefix; [now apply trace_ok_returns in Hok | exact Hok'].
  - exists calls. split; [reflexivity | exact (trace_ok_raises e calls Hok)].
Qed.

Lemma traced_invoke {B} lint source target path status name group flag
    (k : verdict -> LinterStatus.t -> M B) :
  (forall v s, traced (k v s)) ->
  traced (bind (invoke lint source target path)
            (fun v =>
               bind (LinterStatus.add_entry status lint v name group flag)
                 (k v))).
Proof.
  intros Hk log. unfold bind at 1. unfold invoke.
  destruct (Lint.run lint source target path) as [b|shown truth] eqn:Hrun.
  - unfold bind. rewrite add_entry_bool.
    match goal with |- context [k ?v ?s ?l] =>
      destruct (Hk v s l) as (calls & Hlog & Hok) end.
    exists (mkCall lint source target path :: calls).
    rewrite Hlog, <- app_assoc. split; [reflexivity|].
    apply (trace_ok_prefix _ [_]); [|exact Hok].
    constructor; [|constructor]. unfold boolean_call, call_result. simpl.
    now rewrite Hrun.
  - unfold bind. rewrite add_entry_other.
    exists [mkCall lint source target path]. split; [reflexivity|].
    right. exists [], (mkCall lint source target path).
    unfold call_result, abort_message. simpl. rewrite Hrun.
    repeat split; constructor.
Qed.

Lemma traced_for_each {X S} (l : list X) (body : S -> X -> M S) :
  (forall s x, traced (body s x)) -> forall s, traced (for_each l body s).
Proof.
  intros Hb. induction l as [|x l IH]; intros s; simpl.
  - apply traced_logless, logless_ret.
  - apply traced_bind; [apply Hb | exact IH].
Qed.

Lemma traced_lint_cell lint path acc item :
  traced (Linter.lint_cell lint path acc item).
Proof.
  unfold Linter.lint_cell.
  apply traced_bind; [apply traced_logless, logless_py_get|].
  intros cell_type.
  destruct (Linter.out_of_scope (Lint.scope lint) cell_type);
    [apply traced_logless, logless_ret|].
  apply traced_bind; [apply traced_logless, logless_cell_source|].
  intros source.
  apply (traced_invoke lint source (snd item) path (snd acc) _ _ _
           (fun v status => ret (fst acc ++ [v], status))).
  intros v s. apply traced_logless, logless_ret.
Qed.

Lemma traced_run_lint_group self lint data status path :
  traced (Linter._run_lint_group self lint data status path).
Proof.
  unfold Linter._run_lint_group.
  apply traced_bind; [apply traced_logless, logless_py_get|]. intros cells.
  apply traced_bind; [apply traced_logless, logless_py_iter|]. intros l.
  apply traced_bind;
    [apply traced_for_each; intros; apply traced_lint_cell|].
  intros acc. apply traced_logless.
  destruct (Lint.cond lint) as [[|]|];
    auto using logless_ret, logless_raise.
Qed.

Lemma traced_lint_group self data path status lint :
  traced (Linter.lint_group self data path status lint).
Proof.
  unfold Linter.lint_group.
  apply traced_bind; [apply traced_run_lint_group|].
  intros r. apply traced_logless. intros log. reflexivity.
Qed.

Lemma traced_lint_file source data path status lint :
  traced (Linter.lint_file source data path status lint).
Proof.
  unfold Linter.lint_file.
  pose proof (traced_invoke lint source data path status None None false
                (fun _ s => ret s)) as H.
  intros log. destruct (H (fun _ s => traced_logless _ (logless_ret s)) log)
    as (calls & Hlog & Hok).
  exists calls. unfold bind in *. unfold invoke in *.
  destruct (LinterStatus.add_entry status lint
              (Lint.run lint source data path) None None false
              (log ++ [mkCall lint source data path]))
    as [[s|e] log1]; simpl in *; auto.
Qed.

Lemma logless_load_notebook read_text json_loads self path :
  logless (Linter._load_notebook read_text json_loads self path).
Proof.
  intros log. unfold eval.
  destruct (json_loads (read_text path)) as [data|] eqn:Hjson.
  - destruct (notebook_cells data) as [cells|] eqn:Hcells.
    + now rewrite !(load_notebook_cells _ _ _ _ _ _ _ Hjson Hcells).
    + unfold Linter._load_notebook, bind, try_except. rewrite Hjson.
      unfold ret at 1 4.
      destruct data as [| | | | |items]; try reflexivity.
      simpl in *. unfold ret at 1 3.
      destruct (dict_lookup items "cells") as [[| | | |l|]|];
        try reflexivity; discriminate.
  - now rewrite !(load_notebook_undecodable _ _ _ _ _ Hjson).
Qed.

Lemma traced_run read_text json_loads any_first self path lint_dict :
  traced (Linter.run read_text json_loads any_first self path lint_dict).
Proof.
  unfold Linter.run.
  apply traced_bind; [apply traced_logless, logless_load_notebook|].
  intros loaded.
  destruct (fst loaded) as [data|]; [|apply traced_logless, logless_ret].
  destruct (negb (py_truth data)); [apply traced_logless, logless_ret|].
  apply traced_bind;
    [apply traced_for_each; intros; apply traced_lint_file|].
  intros status1.
  apply traced_bind; [|intros; apply traced_logless, logless_ret].
  apply traced_for_each. intros s scope.
  apply traced_for_each. intros s' cond.
  apply traced_for_each. intros s'' lint. apply traced_lint_group.
Qed.

(** C5, as the code has it: as soon as a callback hands back something that
    is not a [bool], the run stops with the [TypeError] that [add_entry]
    raises for it; no callback is invoked after that one, and every earlier
    one returned a [bool]. [add_entry] raises before it touches the status
    list, so no entry is made for the invocation. The message of the error
    shows the offending value and nothing of the rule. *)
Theorem non_boolean_verdict_aborts read_text json_loads any_first self path
    lint_dict log out log' :
  Linter.run read_text json_loads any_first self path lint_dict log
  = (out, log') ->
  (exists calls,
     log' = log ++ calls
     /\ forall c,
          In c calls -> isinstance_bool (call_result c) = false ->
          out = Raises (TypeError
                          ("Lint status must return Boolean, got: "
                           +:+ py_str (call_result c)))
          /\ exists before,
               calls = before ++ [c] /\ Forall boolean_call before)
  /\ (forall status lint v name group flag l,
        isinstance_bool v = false ->
        LinterStatus.add_entry status lint v name group flag l
        = (Raises (TypeError
                     ("Lint status must return Boolean, got: " +:+ py_str v)),
           l)).
Proof.
  intros H. split.
  - destruct (traced_run read_text json_loads any_first self path lint_dict
                log) as (calls & Hlog & Hok).
    rewrite H in Hlog, Hok. simpl in Hlog, Hok.
    exists calls. split; [exact Hlog|]. intros c Hin Hc.
    destruct Hok as [Hall | (before & c' & -> & Hb & Hn & ->)].
    + rewrite List.Forall_forall in Hall. apply Hall in Hin.
      unfold boolean_call in Hin. congruence.
    + apply in_app_iff in Hin as [Hin | [<- | []]].
      * rewrite List.Forall_forall in Hb. apply Hb in Hin.
        unfold boolean_call in Hin. congruence.
      * split; [reflexivity|]. exists before. auto.
  - intros status lint [b|shown truth] name group flag l Hv;
      [discriminate | reflexivity].
Qed.

Lemma non_boolean_verdict_aborts_witness :
  let r := Samples.run Samples.linter "striped.ipynb"
             [Samples.file_rule; Samples.broken_rule] in
  let c := mkCall Samples.broken_rule "import os"
             (Samples.cell "code" ["import os"]) "striped.ipynb" in
  fst r = Raises (TypeError
                    ("Lint status must return Boolean, got: "
                     +:+ py_str (call_result c)))
  /\ exists before, snd r = before ++ [c] /\ Forall boolean_call before.
Proof.
  intros r c.
  destruct (non_boolean_verdict_aborts Samples.read_text Samples.json_loads
              true Samples.linter "striped.ipynb"
              (registry_of [Samples.file_rule; Samples.broken_rule]) []
              (fst r) (snd r)) as [(calls & Hlog & Hc) _].
  - symmetry. apply surjective_pairing.
  - simpl in Hlog. rewrite <- Hlog in Hc. apply Hc.
    + vm_compute. right. left. reflexivity.
    + reflexivity.
Defined.

(** C5 as stated fails in its last part: the rule [broken_check] hands back
    [None], and the error the run stops with does not name the rule. *)
Lemma abort_message_omits_rule_name :
  Lint.name Samples.broken_rule = "broken_check"
  /\ fst (Samples.run Samples.linter "striped.ipynb" [Samples.broken_rule])
     = Raises (TypeError "Lint status must return Boolean, got: None")
  /\ Samples.contains "broken_check"
       "Lint status must return Boolean, got: None" = false.
Proof. vm_compute. repeat split. Qed.

(** ** The printed report *)

Lemma string_app_assoc (a b c : string) : (a +:+ b) +:+ c = a +:+ b +:+ c.
Proof.
  induction a as [|x a IH]; [reflexivity|].
  change (String x ((a +:+ b) +:+ c) = String x (a +:+ b +:+ c)).
  now rewrite IH.
Qed.

Lemma string_app_nil_r (a : string) : a +:+ "" = a.
Proof.
  induction a as [|x a IH]; [reflexivity|].
  change (String x (a +:+ "") = String x a). now rewrite IH.
Qed.

Lemma join_text_app l l' : join_text (l ++ l') = join_text l +:+ join_text l'.
Proof.
  induction l as [|x l IH]; simpl; [reflexivity|].
  now rewrite IH, string_app_assoc.
Qed.

Lemma fold_child_line members : forall output,
  fold_left LinterStatus.child_line members output
  = output +:+ join_text (map child_text members).
Proof.
  induction members as [|child members IH]; intros output; simpl.
  - now rewrite string_app_nil_r.
  - rewrite IH. unfold LinterStatus.child_line, child_text.
    now rewrite !string_app_assoc.
Qed.

Lemma members_of_cons group entry entries :
  members_of group (entry :: entries)
  = if LinterStatus.LintStatusEntry.is_group_entry entry
       && bool_decide (LinterStatus.LintStatusEntry.group entry = group)
    then entry :: members_of group entries
    else members_of group entries.
Proof. reflexivity. Qed.

Lemma fold_groups_add entries : forall groups group,
  fold_left LinterStatus.groups_add entries groups !! group
  = match members_of group entries with
    | [] => groups !! group
    | members => Some (default [] (groups !! group) ++ members)
    end.
Proof.
  induction entries as [|entry entries IH]; intros groups group;
    [reflexivity|].
  cbn [fold_left]. rewrite IH, members_of_cons.
  unfold LinterStatus.groups_add.
  destruct (LinterStatus.LintStatusEntry.is_group_entry entry);
    [|reflexivity].
  cbn [andb]. case_bool_decide as Hg.
  - subst group.
    destruct (groups !! LinterStatus.LintStatusEntry.group entry)
      as [old|] eqn:Hold; rewrite lookup_insert_eq; cbn [default];
      destruct (members_of _ entries); try reflexivity;
      unfold id; now rewrite <- app_assoc.
  - destruct (groups !! LinterStatus.LintStatusEntry.group entry);
      now rewrite lookup_insert_ne.
Qed.

Lemma build_groups_lookup status group :
  LinterStatus.verbose status = true ->
  LinterStatus.build_groups status !! group
  = match members_of group (LinterStatus._status_list status) with
    | [] => None
    | members => Some members
    end.
Proof.
  intros Hv. unfold LinterStatus.build_groups. rewrite Hv, fold_groups_add.
  now rewrite lookup_empty.
Qed.

Lemma print_entry_verbose status output entry :
  LinterStatus.verbose status = true ->
  LinterStatus.print_entry status (LinterStatus.build_groups status) output
    entry
  = output +:+ entry_text (LinterStatus._status_list status) entry.
Proof.
  intros Hv. unfold LinterStatus.print_entry, entry_text.
  rewrite Hv, (build_groups_lookup _ _ Hv).
  destruct (members_of _ _) as [|child members].
  - cbn [child_block]. now rewrite string_app_nil_r.
  - rewrite fold_child_line. unfold child_block, top_line.
    now rewrite !string_app_assoc.
Qed.

Lemma fold_print_entry status entries : forall output,
  LinterStatus.verbose status = true ->
  fold_left (LinterStatus.print_entry status (LinterStatus.build_groups status))
    entries output
  = output
    +:+ join_text (map (entry_text (LinterStatus._status_list status)) entries).
Proof.
  induction entries as [|entry entries IH]; intros output Hv; simpl.
  - now rewrite string_app_nil_r.
  - rewrite IH, print_entry_verbose by assumption.
    now rewrite string_app_assoc.
Qed.

Lemma str_verbose status :
  LinterStatus.verbose status = true ->
  LinterStatus.__str__ status
  = join_text (map (entry_text (LinterStatus._status_list status))
                 (LinterStatus.root_entries status)).
Proof. intros Hv. unfold LinterStatus.__str__. now rewrite fold_print_entry. Qed.

Lemma filter_all {X} (f : X -> bool) l :
  (forall x, In x l -> f x = true) -> List.filter f l = l.
Proof.
  induction l as [|x l IH]; intros H; simpl; [reflexivity|].
  rewrite (H x) by now left. f_equal. apply IH. intros y Hy. apply H.
  now right.
Qed.

Lemma filter_around {X} (f : X -> bool) l1 x l2 y l3 :
  f x = true -> f y = true ->
  List.filter f (l1 ++ x :: l2 ++ y :: l3)
  = List.filter f l1 ++ x :: List.filter f l2 ++ y :: List.filter f l3.
Proof.
  intros Hx Hy. rewrite List.filter_app. simpl. rewrite Hx.
  rewrite List.filter_app. simpl. now rewrite Hy.
Qed.

Lemma members_of_app group entries entries' :
  members_of group (entries ++ entries')
  = members_of group entries ++ members_of group entries'.
Proof. apply List.filter_app. Qed.

Lemma members_of_member_entries lint path cells :
  members_of (Some (Lint.name lint)) (member_entries lint path cells)
  = member_entries lint path cells.
Proof.
  apply filter_all. intros e He. unfold member_entries in He.
  apply in_map_iff in He as (item & <- & _). simpl.
  now rewrite bool_decide_eq_true_2.
Qed.

Lemma members_of_aggregate group lint path cells entries :
  members_of group (aggregate_entry lint path cells :: entries)
  = members_of group entries.
Proof. reflexivity. Qed.

(** C10: in a verbose report the lines under a top-level entry are the
    member entries found under its group key, which is the rule's name. When
    two rules that are run on cells have the same name, the block under the
    aggregate entry of either lists the member entries of both. *)
Theorem verbose_children_merge_by_name read_text json_loads any_first self
    path lint_dict log status log' data cells l1 r1 l2 r2 l3 :
  Linter.run read_text json_loads any_first self path lint_dict log
  = (Returns (Linter.RStatus status), log') ->
  json_loads (read_text path) = Some data ->
  notebook_cells data = Some cells ->
  Linter.verbose self = true ->
  cell_lints any_first lint_dict = l1 ++ r1 :: l2 ++ r2 :: l3 ->
  Lint.name r1 = Lint.name r2 ->
  let entries := LinterStatus._status_list status in
  let merged := members_of (Some (Lint.name r1)) entries in
  let aggregate1 := aggregate_entry r1 path cells in
  let aggregate2 := aggregate_entry r2 path cells in
  LinterStatus.__str__ status
  = join_text (map (entry_text entries) (LinterStatus.root_entries status))
  /\ (exists top1 top2 top3,
        LinterStatus.root_entries status
        = top1 ++ aggregate1 :: top2 ++ aggregate2 :: top3)
  /\ entry_text entries aggregate1 = top_line aggregate1 +:+ child_block merged
  /\ entry_text entries aggregate2 = top_line aggregate2 +:+ child_block merged
  /\ exists a b c,
       merged = a ++ member_entries r1 path cells
                  ++ b ++ member_entries r2 path cells ++ c.
Proof.
  intros H Hjson Hcells Hverbose Hsplit Hname entries merged agg1 agg2.
  apply (run_returns_status _ _ _ _ _ _ _ _ _ _ _ H Hjson) in Hcells
    as (-> & _ & _ & _).
  assert (Hentries :
    entries
    = (map (file_entry (read_text path) data path) (file_lints lint_dict)
       ++ flat_map (group_block path cells) l1
       ++ member_entries r1 path cells)
      ++ agg1
      :: (flat_map (group_block path cells) l2
          ++ member_entries r2 path cells)
      ++ agg2 :: flat_map (group_block path cells) l3).
  { unfold entries. cbn [LinterStatus._status_list].
    unfold report_entries. rewrite Hsplit.
    rewrite flat_map_app. cbn [flat_map]. rewrite flat_map_app.
    cbn [flat_map]. unfold group_block at 2 4.
    rewrite <- !app_assoc. reflexivity. }
  split; [now apply str_verbose|].
  split; [|split; [|split]].
  - unfold LinterStatus.root_entries. fold entries. rewrite Hentries.
    rewrite filter_around by reflexivity. eauto.
  - reflexivity.
  - unfold entry_text, merged, agg2. cbn [aggregate_entry
      LinterStatus.LintStatusEntry.group]. now rewrite Hname.
  - unfold merged. rewrite Hentries.
    rewrite !members_of_app. unfold agg1, agg2.
    rewrite members_of_aggregate, !members_of_app, members_of_aggregate.
    rewrite members_of_member_entries.
    rewrite Hname, members_of_member_entries.
    rewrite <- !app_assoc.
    eexists (_ ++ _), _, _. rewrite <- app_assoc. reflexivity.
Qed.

Lemma verbose_children_merge_by_name_witness :
  let status :=
    Samples.report_of
      (Samples.run Samples.verbose_linter "striped.ipynb"
         [Samples.license_rule; Samples.cells_rule]) in
  let entries := LinterStatus._status_list status in
  let merged := members_of (Some (Lint.name Samples.cells_rule)) entries in
  let aggregate1 :=
    aggregate_entry Samples.cells_rule "striped.ipynb" Samples.striped_cells in
  let aggregate2 :=
    aggregate_entry Samples.license_rule "striped.ipynb"
      Samples.striped_cells in
  LinterStatus.__str__ status
  = join_text (map (entry_text entries) (LinterStatus.root_entries status))
  /\ (exists top1 top2 top3,
        LinterStatus.root_entries status
        = top1 ++ aggregate1 :: top2 ++ aggregate2 :: top3)
  /\ entry_text entries aggregate1 = top_line aggregate1 +:+ child_block merged
  /\ entry_text entries aggregate2 = top_line aggregate2 +:+ child_block merged
  /\ exists a b c,
       merged = a ++ member_entries Samples.cells_rule "striped.ipynb"
                       Samples.striped_cells
                  ++ b ++ member_entries Samples.license_rule "striped.ipynb"
                            Samples.striped_cells
                  ++ c.
Proof.
  apply (verbose_children_merge_by_name Samples.read_text Samples.json_loads
           true Samples.verbose_linter "striped.ipynb"
           (registry_of [Samples.license_rule; Samples.cells_rule]) []
           (Samples.report_of
              (Samples.run Samples.verbose_linter "striped.ipynb"
                 [Samples.license_rule; Samples.cells_rule]))
           (snd (Samples.run Samples.verbose_linter "striped.ipynb"
                   [Samples.license_rule; Samples.cells_rule]))
           (Samples.notebook Samples.striped_cells) Samples.striped_cells
           [] Samples.cells_rule [] Samples.license_rule []).
  - vm_compute. reflexivity.
  - vm_compute. reflexivity.
  - reflexivity.
  - reflexivity.
  - vm_compute. reflexivity.
  - reflexivity.
Defined.

(** * Further properties of the linter *)

(** ** Runs that reach their end *)

Lemma py_get_dict cell :
  is_dict cell ->
  forall log, py_get cell "cell_type" log = (Returns (cell_kind cell), log).
Proof. destruct cell; simpl; intros []. reflexivity. Qed.

Lemma py_get_returns_dict v key log r log' :
  py_get v key log = (Returns r, log') -> is_dict v.
Proof. destruct v; simpl; try discriminate. auto. Qed.

Lemma lint_cell_progress lint path acc item log :
  is_dict (snd item) ->
  Forall (cell_ok lint path) (pick (Lint.scope lint) item) ->
  exists acc' log',
    Linter.lint_cell lint path acc item log = (Returns acc', log').
Proof.
  intros Hdict Hok. unfold Linter.lint_cell.
  rewrite (bind_step _ _ _ _ _ (py_get_dict _ Hdict log)).
  unfold pick, matches in Hok.
  destruct (Linter.out_of_scope (Lint.scope lint) (cell_kind (snd item)));
    simpl in Hok; [unfold ret; eauto|].
  apply Forall_cons in Hok as [[Hsrc Hbool] _].
  rewrite (bind_step (Linter.cell_source (snd item)) _ log
             (cell_text (snd item)) log)
    by (rewrite (logless_cell_source _ log); now rewrite Hsrc).
  unfold bind at 1. unfold invoke.
  unfold boolean_call, call_result, member_call in Hbool. simpl in Hbool.
  destruct (Lint.run lint (cell_text (snd item)) (snd item) path)
    as [b|]; [|discriminate].
  unfold bind. rewrite add_entry_bool. unfold ret. eauto.
Qed.

Lemma for_each_progress {X S} (good : X -> Prop) (body : S -> X -> M S) l :
  (forall s x log, good x -> exists s' log', body s x log = (Returns s', log')) ->
  Forall good l ->
  forall s log, exists s' log', for_each l body s log = (Returns s', log').
Proof.
  intros Hbody. induction 1 as [|x l Hx Hl IH]; intros s log; simpl.
  - unfold ret. eauto.
  - destruct (Hbody s x log Hx) as (s1 & log1 & H1).
    rewrite (bind_step _ _ _ _ _ H1). apply IH.
Qed.

Lemma enumerate_good {X} (P : X -> Prop) (Q : nat * X -> Prop) l :
  Forall P l ->
  (forall i x, In (i, x) (enumerate l) -> P x -> Q (i, x)) ->
  Forall Q (enumerate l).
Proof.
  intros HP HQ. apply List.Forall_forall. intros [i x] Hin.
  apply HQ; [exact Hin|]. apply enumerate_lookup in Hin.
  rewrite List.Forall_forall in HP. apply HP.
  apply list_elem_of_In, list_elem_of_lookup. eauto.
Qed.

Lemma cells_loop_progress lint path cells acc log :
  Forall is_dict cells ->
  Forall (cell_ok lint path) (selected (Lint.scope lint) cells) ->
  exists acc' log',
    for_each (enumerate cells) (Linter.lint_cell lint path) acc log
    = (Returns acc', log').
Proof.
  intros Hdict Hok.
  apply (for_each_progress
           (fun item => is_dict (snd item)
                        /\ Forall (cell_ok lint path)
                             (pick (Lint.scope lint) item))).
  - intros s x l [Hd Hp]. now apply lint_cell_progress.
  - apply (enumerate_good is_dict); [exact Hdict|].
    intros i x Hin Hd. split; [exact Hd|].
    unfold pick. simpl. destruct (matches (Lint.scope lint) x) eqn:Hm;
      constructor; [|constructor].
    rewrite List.Forall_forall in Hok. apply Hok.
    unfold selected. apply filter_In. auto.
Qed.

Lemma lint_group_progress self data cells path status lint log :
  notebook_cells data = Some cells ->
  Forall is_dict cells ->
  group_ok path cells lint ->
  exists status' log',
    Linter.lint_group self data path status lint log
    = (Returns status', log').
Proof.
  intros Hcells Hdict [Hok Hcond].
  unfold Linter.lint_group, Linter._run_lint_group.
  destruct (cells_loop_progress lint path cells ([], status) log Hdict Hok)
    as (acc & log1 & Hloop).
  unfold bind at 1 2. rewrite (notebook_cells_get _ _ Hcells log).
  simpl py_iter. unfold bind at 1. unfold ret at 1. unfold bind at 1.
  rewrite Hloop.
  destruct (Lint.cond lint) as [[|]|]; [| |now destruct Hcond];
    unfold ret at 1; rewrite add_entry_bool; unfold ret; eauto.
Qed.

Lemma lint_file_progress source data path status lint log :
  boolean_call (file_call source data path lint) ->
  exists status' log',
    Linter.lint_file source data path status lint log
    = (Returns status', log').
Proof.
  unfold boolean_call, call_result, file_call, Linter.lint_file. simpl.
  intros Hbool. unfold bind, invoke.
  destruct (Lint.run lint source data path) as [b|]; [|discriminate].
  rewrite add_entry_bool. eauto.
Qed.

Lemma lint_cell_returns_dict lint path acc item log acc' log' :
  Linter.lint_cell lint path acc item log = (Returns acc', log') ->
  is_dict (snd item).
Proof.
  unfold Linter.lint_cell. intros H.
  apply bind_returns in H as (cell_type & log1 & Hget & _).
  now apply py_get_returns_dict in Hget.
Qed.

Lemma run_lint_group_returns_dicts self lint data cells status path log r
    log' :
  notebook_cells data = Some cells ->
  Linter._run_lint_group self lint data status path log = (Returns r, log') ->
  Forall is_dict cells.
Proof.
  intros Hcells H. unfold Linter._run_lint_group in H.
  rewrite (bind_step _ _ _ _ _ (notebook_cells_get _ _ Hcells log)) in H.
  apply bind_returns in H as (cells' & log1 & Hiter & H).
  injection Hiter as <- <-.
  apply bind_returns in H as (acc & log1 & Hloop & _).
  apply (for_each_returns (fun _ (_ : list unit) _ => True)
           (fun _ => I) (fun _ _ _ _ _ _ _ => I) _ (fun _ => [])
           (fun item => map (member_call lint path)
                          (pick (Lint.scope lint) item))
           (fun item => is_dict (snd item))) in Hloop as (_ & _ & Hd).
  - rewrite <- (enumerate_from_snd cells 0). apply Forall_map. exact Hd.
  - intros s x l s' l' Hx. split; [exact I|]. split.
    + now apply lint_cell_returns in Hx as (_ & -> & _).
    + now apply lint_cell_returns_dict in Hx.
Qed.

Section Reach.
Variable read_text : Path -> string.
Variable json_loads : string -> option pyval.
Variable any_first : bool.

Lemma cell_loops_dicts self data cells path lint_dict status log status'
    log' :
  notebook_cells data = Some cells ->
  for_each [Options.CELLS; Options.CODE; Options.TEXT]
    (fun status scope =>
       for_each (Options.Cond_members any_first)
         (fun status cond =>
            for_each (lint_dict scope cond) (Linter.lint_group self data path)
              status)
         status)
    status log = (Returns status', log') ->
  cell_lints any_first lint_dict = [] \/ Forall is_dict cells.
Proof.
  intros Hcells H.
  assert (Hgroup : forall s x l s' l',
            Linter.lint_group self data path s x l = (Returns s', l') ->
            True /\ l' = l ++ member_calls x path cells
            /\ Forall is_dict cells).
  { intros s x l s' l' Hx. split; [exact I|].
    pose proof Hx as Hx'.
    apply (lint_group_returns _ _ _ _ _ _ _ _ _ Hcells) in Hx'
      as (_ & -> & _).
    split; [reflexivity|]. unfold Linter.lint_group in Hx.
    apply bind_returns in Hx as (r & l1 & Hrun & _).
    exact (run_lint_group_returns_dicts _ _ _ _ _ _ _ _ _ Hcells Hrun). }
  pose proof (fun lints =>
    for_each_returns (fun _ (_ : list unit) _ => True)
      (fun _ => I) (fun _ _ _ _ _ _ _ => I)
      (Linter.lint_group self data path) (fun _ => [])
      (fun lint => member_calls lint path cells)
      (fun _ => Forall is_dict cells) Hgroup lints) as Hlints.
  pose proof (fun scope conds =>
    for_each_returns (fun _ (_ : list unit) _ => True)
      (fun _ => I) (fun _ _ _ _ _ _ _ => I)
      (fun status cond =>
         for_each (lint_dict scope cond) (Linter.lint_group self data path)
           status)
      (fun _ => [])
      (fun cond => flat_map (fun lint => member_calls lint path cells)
                     (lint_dict scope cond))
      (fun cond => Forall (fun _ => Forall is_dict cells)
                     (lint_dict scope cond))
      (fun s cond l s' l' Hx =>
         match Hlints (lint_dict scope cond) s l s' l' Hx with
         | conj _ Hrest => conj I Hrest
         end) conds) as Hconds.
  apply (for_each_returns (fun _ (_ : list unit) _ => True)
           (fun _ => I) (fun _ _ _ _ _ _ _ => I) _ (fun _ => [])
           (fun scope =>
              flat_map
                (fun cond =>
                   flat_map (fun lint => member_calls lint path cells)
                     (lint_dict scope cond))
                (Options.Cond_members any_first))
           (fun scope =>
              Forall (fun cond =>
                        Forall (fun _ => Forall is_dict cells)
                          (lint_dict scope cond))
                (Options.Cond_members any_first))
           (fun s scope l s' l' Hx =>
              match Hconds scope (Options.Cond_members any_first) s l s' l'
                      Hx with
              | conj _ Hrest => conj I Hrest
              end))
    in H as (_ & _ & Hok).
  assert (Hall : Forall (fun _ : Lint.t => Forall is_dict cells)
                   (cell_lints any_first lint_dict)).
  { unfold cell_lints. apply Forall_flat_map.
    eapply Forall_impl; [exact Hok|]. intros scope Hscope.
    now apply Forall_flat_map. }
  destruct (cell_lints any_first lint_dict) as [|lint rest];
    [now left | right]. now apply Forall_cons in Hall as [Hall _].
Qed.

Lemma cell_loops_progress self data cells path lint_dict status log :
  notebook_cells data = Some cells ->
  Forall (group_ok path cells) (cell_lints any_first lint_dict) ->
  cell_lints any_first lint_dict = [] \/ Forall is_dict cells ->
  exists status' log',
    for_each [Options.CELLS; Options.CODE; Options.TEXT]
      (fun status scope =>
         for_each (Options.Cond_members any_first)
           (fun status cond =>
              for_each (lint_dict scope cond)
                (Linter.lint_group self data path) status)
           status)
      status log = (Returns status', log').
Proof.
  intros Hcells Hok Hdict.
  assert (Hgood : Forall (fun lint => group_ok path cells lint
                                      /\ Forall is_dict cells)
                    (cell_lints any_first lint_dict)).
  { destruct Hdict as [-> | Hd]; [constructor|].
    eapply Forall_impl; [exact Hok | now intros lint Hl]. }
  clear Hok Hdict. unfold cell_lints in Hgood.
  apply Forall_flat_map in Hgood.
  apply (for_each_progress
           (fun scope =>
              Forall (fun lint => group_ok path cells lint
                                  /\ Forall is_dict cells)
                (flat_map (fun cond => lint_dict scope cond)
                   (Options.Cond_members any_first))));
    [|exact Hgood].
  intros s scope l Hscope. apply Forall_flat_map in Hscope.
  apply (for_each_progress
           (fun cond =>
              Forall (fun lint => group_ok path cells lint
                                  /\ Forall is_dict cells)
                (lint_dict scope cond)));
    [|exact Hscope].
  intros s' cond l' Hcond.
  apply (for_each_progress
           (fun lint => group_ok path cells lint /\ Forall is_dict cells));
    [|exact Hcond].
  intros s'' lint l'' [Hg Hd]. now apply (lint_group_progress _ _ cells).
Qed.

Lemma run_progress self path lint_dict log data cells :
  json_loads (read_text path) = Some data ->
  notebook_cells data = Some cells ->
  lintable any_first lint_dict (read_text path) data cells path ->
  exists status log',
    Linter.run read_text json_loads any_first self path lint_dict log
    = (Returns (Linter.RStatus status), log').
Proof.
  intros Hjson Hcells (Hfile & Hgroups & Hdict). unfold Linter.run.
  rewrite (bind_step _ _ _ _ _
             (load_notebook_cells _ _ self path data cells log Hjson Hcells)).
  cbn [fst snd]. rewrite (notebook_cells_truth _ _ Hcells). cbn [negb].
  destruct (for_each_progress
              (fun lint =>
                 boolean_call (file_call (read_text path) data path lint))
              (Linter.lint_file (read_text path) data path)
              (lint_dict Options.FILE Options.ANY)
              (fun s x l Hx => lint_file_progress _ _ _ s x l Hx)
              Hfile (LinterStatus.__init__ path (Linter.verbose self)) log)
    as (status1 & log1 & H1).
  rewrite (bind_step _ _ _ _ _ H1).
  destruct (cell_loops_progress self data cells path lint_dict status1 log1
              Hcells Hgroups Hdict) as (status2 & log2 & H2).
  rewrite (bind_step _ _ _ _ _ H2). unfold ret. eauto.
Qed.

End Reach.

(** X1: on a notebook that decodes to a mapping with a list of cells, [run]
    returns a report exactly when the notebook is lintable for the registry
    (every invoked callback hands back a [bool], the source lines of every
    selected cell join, every rule run on cells has a condition of the
    enumeration, and the cells are dicts if any rule is run on cells); the
    report and the log of calls are then the ones given in closed form. *)
Theorem run_reports_when_lintable read_text json_loads any_first self path
    lint_dict log data cells :
  json_loads (read_text path) = Some data ->
  notebook_cells data = Some cells ->
  (lintable any_first lint_dict (read_text path) data cells path <->
   exists status log',
     Linter.run read_text json_loads any_first self path lint_dict log
     = (Returns (Linter.RStatus status), log'))
  /\ (lintable any_first lint_dict (read_text path) data cells path ->
      Linter.run read_text json_loads any_first self path lint_dict log
      = (Returns
           (Linter.RStatus
              (LinterStatus.mk path (Linter.verbose self)
                 (report_entries any_first lint_dict (read_text path) data
                    cells path))),
         log ++ report_calls any_first lint_dict (read_text path) data cells
                  path)).
Proof.
  intros Hjson Hcells.
  assert (Hback : forall status log',
            Linter.run read_text json_loads any_first self path lint_dict log
            = (Returns (Linter.RStatus status), log') ->
            lintable any_first lint_dict (read_text path) data cells path).
  { intros status log' H.
    destruct (run_returns_status _ _ _ _ _ _ _ _ _ _ _ H Hjson Hcells)
      as (_ & _ & Hfile & Hgroups).
    split; [exact Hfile|]. split; [exact Hgroups|].
    unfold Linter.run in H.
    rewrite (bind_step _ _ _ _ _
               (load_notebook_cells _ _ self path data cells log Hjson Hcells))
      in H.
    cbn [fst snd] in H. rewrite (notebook_cells_truth _ _ Hcells) in H.
    cbn [negb] in H.
    apply bind_returns in H as (status1 & log1 & _ & H).
    apply bind_returns in H as (status2 & log2 & H & _).
    exact (cell_loops_dicts _ _ _ _ _ _ _ _ _ _ Hcells H). }
  assert (Hforth : lintable any_first lint_dict (read_text path) data cells
                     path ->
                   Linter.run read_text json_loads any_first self path
                     lint_dict log
                   = (Returns
                        (Linter.RStatus
                           (LinterStatus.mk path (Linter.verbose self)
                              (report_entries any_first lint_dict
                                 (read_text path) data cells path))),
                      log ++ report_calls any_first lint_dict (read_text path)
                               data cells path)).
  { intros Hl.
    destruct (run_progress read_text json_loads any_first self path lint_dict
                log data cells Hjson Hcells Hl) as (status & log' & H).
    destruct (run_returns_status _ _ _ _ _ _ _ _ _ _ _ H Hjson Hcells)
      as (-> & -> & _).
    exact H. }
  split; [split|exact Hforth].
  - intros Hl. rewrite (Hforth Hl). eauto.
  - intros (status & log' & H). exact (Hback _ _ H).
Qed.

Lemma run_reports_when_lintable_witness :
  Linter.run Samples.read_text Samples.json_loads true Samples.linter
    "mixed.ipynb" (registry_of [Samples.file_rule; Samples.license_rule]) []
  = (Returns
       (Linter.RStatus
          (LinterStatus.mk "mixed.ipynb" false
             (report_entries true
                (registry_of [Samples.file_rule; Samples.license_rule])
                (Samples.read_text "mixed.ipynb")
                (Samples.notebook Samples.mixed_cells) Samples.mixed_cells
                "mixed.ipynb"))),
     [] ++ report_calls true
             (registry_of [Samples.file_rule; Samples.license_rule])
             (Samples.read_text "mixed.ipynb")
             (Samples.notebook Samples.mixed_cells) Samples.mixed_cells
             "mixed.ipynb").
Proof.
  apply (proj2 (run_reports_when_lintable Samples.read_text
                  Samples.json_loads true Samples.linter "mixed.ipynb"
                  (registry_of [Samples.file_rule; Samples.license_rule]) []
                  (Samples.notebook Samples.mixed_cells) Samples.mixed_cells
                  ltac:(vm_compute; reflexivity) ltac:(reflexivity))).
  split; [|split].
  - vm_compute. repeat constructor.
  - vm_compute. repeat constructor. discriminate.
  - right. vm_compute. repeat constructor.
Defined.

(** X2: a notebook whose top-level JSON value is not a mapping makes [run]
    raise [AttributeError]: [_load_notebook] calls [data.get] on it, and its
    [except] clause does not catch that error. No callback is invoked. *)
Theorem run_on_non_mapping read_text json_loads any_first self path
    lint_dict log value :
  json_loads (read_text path) = Some value ->
  ~ is_dict value ->
  Linter.run read_text json_loads any_first self path lint_dict log
  = (Raises (AttributeError
               ("'" +:+ py_type_name value
                +:+ "' object has no attribute 'get'")),
     log).
Proof.
  intros Hjson Hnot. unfold Linter.run, Linter._load_notebook.
  unfold bind at 1 2. unfold try_except, bind. rewrite Hjson.
  unfold ret at 1.
  destruct value; simpl in *; try reflexivity. now destruct Hnot.
Qed.

Lemma run_on_non_mapping_witness :
  Samples.run Samples.linter "array.ipynb" [Samples.file_rule]
  = (Raises (AttributeError "'list' object has no attribute 'get'"), []).
Proof.
  apply (run_on_non_mapping Samples.read_text Samples.json_loads true
           Samples.linter "array.ipynb" (registry_of [Samples.file_rule]) []
           (PList [])).
  - vm_compute. reflexivity.
  - simpl. tauto.
Defined.

(** X3: a rule whose condition is no member of [Options.Cond] is found out
    only after the loop over the cells: on cells it could be run on,
    [_run_lint_group] invokes the callback on every selected cell and then
    raises [Exception("Unsupported lint condition.")]. *)
Theorem unsupported_condition_raises_after_the_cells self lint data cells
    status path log :
  notebook_cells data = Some cells ->
  Forall is_dict cells ->
  Forall (cell_ok lint path) (selected (Lint.scope lint) cells) ->
  Lint.cond lint = None ->
  Linter._run_lint_group self lint data status path log
  = (Raises (Exception "Unsupported lint condition."),
     log ++ map (fun item => mkCall lint (cell_text (snd item)) (snd item) path)
              (selected (Lint.scope lint) cells)).
Proof.
  intros Hcells Hdict Hok Hcond. unfold Linter._run_lint_group.
  destruct (cells_loop_progress lint path cells ([], status) log Hdict Hok)
    as (acc & log1 & Hloop).
  pose proof Hloop as Hloop'.
  apply (for_each_returns (grows lint path) (grows_nil lint path)
           (grows_app lint path) _ (pick (Lint.scope lint))
           (fun item => map (member_call lint path)
                          (pick (Lint.scope lint) item))
           (fun item => Forall (cell_ok lint path)
                          (pick (Lint.scope lint) item))
           (lint_cell_returns lint path)) in Hloop'
    as (_ & -> & _).
  rewrite map_flat_map, flat_map_pick in Hloop.
  unfold bind at 1 2. rewrite (notebook_cells_get _ _ Hcells log).
  simpl py_iter. unfold ret at 1. unfold bind at 1.
  rewrite Hloop, Hcond. unfold member_call. reflexivity.
Qed.

Lemma unsupported_condition_raises_after_the_cells_witness :
  let lint := Lint.mk "odd_rule" "" Options.CODE None "sample"
                Samples.always_true in
  Linter._run_lint_group Samples.linter lint
    (Samples.notebook Samples.striped_cells)
    (LinterStatus.__init__ "striped.ipynb" false) "striped.ipynb" []
  = (Raises (Exception "Unsupported lint condition."),
     [] ++ map (fun item =>
                  mkCall lint (cell_text (snd item)) (snd item) "striped.ipynb")
             (selected Options.CODE Samples.striped_cells)).
Proof.
  intros lint.
  apply (unsupported_condition_raises_after_the_cells Samples.linter lint
           (Samples.notebook Samples.striped_cells) Samples.striped_cells
           (LinterStatus.__init__ "striped.ipynb" false) "striped.ipynb" []).
  - reflexivity.
  - vm_compute. repeat constructor.
  - vm_compute. repeat constructor.
  - reflexivity.
Defined.

(** ** The printed report, continued *)

Lemma fold_print_entry_quiet status groups entries : forall output,
  LinterStatus.verbose status = false ->
  fold_left (LinterStatus.print_entry status groups) entries output
  = output +:+ join_text (map top_line entries).
Proof.
  induction entries as [|entry entries IH]; intros output Hv; simpl.
  - now rewrite string_app_nil_r.
  - rewrite IH by assumption. unfold LinterStatus.print_entry at 1.
    rewrite Hv. unfold top_line. now rewrite !string_app_assoc.
Qed.

Lemma members_of_group_block_none path cells lints :
  members_of None (flat_map (group_block path cells) lints) = [].
Proof.
  induction lints as [|lint lints IH]; [reflexivity|].
  cbn [flat_map]. rewrite members_of_app, IH, app_nil_r.
  unfold group_block. rewrite members_of_app. cbn [members_of List.filter
    aggregate_entry LinterStatus.LintStatusEntry.is_group_entry andb].
  rewrite app_nil_r. unfold member_entries, members_of.
  induction (selected (Lint.scope lint) cells) as [|item items IHi];
    [reflexivity | exact IHi].
Qed.

Lemma members_of_file_entries group source data path lints :
  members_of group (map (file_entry source data path) lints) = [].
Proof. induction lints as [|lint lints IH]; [reflexivity | exact IH]. Qed.

(** X5: in the report of a run, verbose or not, the entry of a file-scoped
    rule prints as its one line: its group is unset and no member entry is
    filed under the unset group, so that no block of members follows. *)
Theorem file_entry_prints_one_line read_text json_loads any_first self path
    lint_dict log status log' data cells lint output :
  Linter.run read_text json_loads any_first self path lint_dict log
  = (Returns (Linter.RStatus status), log') ->
  json_loads (read_text path) = Some data ->
  notebook_cells data = Some cells ->
  In lint (lint_dict Options.FILE Options.ANY) ->
  In (file_entry (read_text path) data path lint)
    (LinterStatus.root_entries status)
  /\ LinterStatus.print_entry status (LinterStatus.build_groups status) output
       (file_entry (read_text path) data path lint)
     = output +:+ top_line (file_entry (read_text path) data path lint).
Proof.
  intros H Hjson Hcells Hin.
  destruct (run_returns_status _ _ _ _ _ _ _ _ _ _ _ H Hjson Hcells)
    as (-> & _). split.
  - unfold LinterStatus.root_entries. apply filter_In. split; [|reflexivity].
    cbn [LinterStatus._status_list]. unfold report_entries, file_lints.
    apply in_or_app. left. now apply in_map.
  - destruct (Linter.verbose self) eqn:Hv.
    + rewrite print_entry_verbose by reflexivity.
      unfold entry_text. cbn [file_entry LinterStatus.LintStatusEntry.group
        LinterStatus._status_list].
      unfold report_entries. rewrite members_of_app.
      rewrite members_of_file_entries, members_of_group_block_none.
      cbn [app child_block]. now rewrite string_app_nil_r.
    + unfold LinterStatus.print_entry. cbn [LinterStatus.verbose].
      unfold top_line. now rewrite !string_app_assoc.
Qed.

Lemma file_entry_prints_one_line_witness :
  let status :=
    Samples.report_of
      (Samples.run Samples.verbose_linter "mixed.ipynb"
         [Samples.file_rule; Samples.copyright_rule]) in
  let entry :=
    file_entry (Samples.read_text "mixed.ipynb")
      (Samples.notebook Samples.mixed_cells) "mixed.ipynb" Samples.file_rule in
  In entry (LinterStatus.root_entries status)
  /\ LinterStatus.print_entry status (LinterStatus.build_groups status) ""
       entry
     = "" +:+ top_line entry.
Proof.
  intros status entry.
  apply (file_entry_prints_one_line Samples.read_text Samples.json_loads true
           Samples.verbose_linter "mixed.ipynb"
           (registry_of [Samples.file_rule; Samples.copyright_rule]) []
           status
           (snd (Samples.run Samples.verbose_linter "mixed.ipynb"
                   [Samples.file_rule; Samples.copyright_rule]))
           (Samples.notebook Samples.mixed_cells) Samples.mixed_cells
           Samples.file_rule "").
  - vm_compute. reflexivity.
  - vm_compute. reflexivity.
  - reflexivity.
  - vm_compute. left. reflexivity.
Defined.

(** ** Top-level entries and overall success *)

Lemma roots_of_group_blocks path cells lints :
  List.filter
    (fun obj => negb (LinterStatus.LintStatusEntry.is_group_entry obj))
    (flat_map (group_block path cells) lints)
  = map (fun lint => aggregate_entry lint path cells) lints.
Proof.
  induction lints as [|lint lints IH]; [reflexivity|].
  cbn [flat_map map]. rewrite List.filter_app, IH. unfold group_block.
  rewrite List.filter_app. cbn [List.filter aggregate_entry
    LinterStatus.LintStatusEntry.is_group_entry negb].
  unfold member_entries.
  induction (selected (Lint.scope lint) cells) as [|item items IHi];
    [reflexivity | exact IHi].
Qed.

Lemma roots_of_file_entries source data path lints :
  List.filter
    (fun obj => negb (LinterStatus.LintStatusEntry.is_group_entry obj))
    (map (file_entry source data path) lints)
  = map (file_entry source data path) lints.
Proof.
  induction lints as [|lint lints IH]; [reflexivity|].
  cbn [map List.filter file_entry LinterStatus.LintStatusEntry.is_group_entry
       negb]. now rewrite IH.
Qed.

(** X4: a report that is not verbose prints one line for each entry that is
    not flagged as a group member, in the order of the entries, and nothing
    else: no line for a member entry, no [[All results]] block. For the
    report of a run these are one line for each rule filed under ([FILE],
    [ANY]), then one line for each rule run on cells, with the verdict of
    its group, however many cells the rule was run on. *)
Theorem quiet_report_lines read_text json_loads any_first self path lint_dict
    log status log' data cells :
  Linter.run read_text json_loads any_first self path lint_dict log
  = (Returns (Linter.RStatus status), log') ->
  json_loads (read_text path) = Some data ->
  notebook_cells data = Some cells ->
  Linter.verbose self = false ->
  LinterStatus.__str__ status
  = join_text
      (map top_line
         (map (file_entry (read_text path) data path)
            (lint_dict Options.FILE Options.ANY)
          ++ map (fun lint =>
                    LinterStatus.LintStatusEntry.mk lint
                      (group_verdict lint path cells) (Lint.name lint)
                      (Some (Lint.name lint)) false)
               (cell_lints any_first lint_dict)))
  /\ forall quiet,
       LinterStatus.verbose quiet = false ->
       LinterStatus.__str__ quiet
       = join_text
           (map top_line
              (List.filter
                 (fun entry =>
                    negb (LinterStatus.LintStatusEntry.is_group_entry entry))
                 (LinterStatus._status_list quiet))).
Proof.
  intros H Hjson Hcells Hv.
  assert (Hquiet : forall quiet,
            LinterStatus.verbose quiet = false ->
            LinterStatus.__str__ quiet
            = join_text
                (map top_line
                   (List.filter
                      (fun entry =>
                         negb (LinterStatus.LintStatusEntry.is_group_entry
                                 entry))
                      (LinterStatus._status_list quiet)))).
  { intros quiet Hq. unfold LinterStatus.__str__.
    now rewrite fold_print_entry_quiet. }
  split; [|exact Hquiet].
  destruct (run_returns_status _ _ _ _ _ _ _ _ _ _ _ H Hjson Hcells)
    as (-> & _).
  rewrite Hquiet by exact Hv. cbn [LinterStatus._status_list].
  unfold report_entries, file_lints.
  now rewrite List.filter_app, roots_of_file_entries, roots_of_group_blocks.
Qed.

Lemma quiet_report_lines_witness :
  let status :=
    Samples.report_of
      (Samples.run Samples.linter "striped.ipynb"
         [Samples.file_rule; Samples.license_rule]) in
  LinterStatus.__str__ status
  = join_text
      (map top_line
         ([file_entry (Samples.read_text "striped.ipynb")
             (Samples.notebook Samples.striped_cells) "striped.ipynb"
             Samples.file_rule]
          ++ [LinterStatus.LintStatusEntry.mk Samples.license_rule false
                "license_check" (Some "license_check") false]))
  /\ forall quiet,
       LinterStatus.verbose quiet = false ->
       LinterStatus.__str__ quiet
       = join_text
           (map top_line
              (List.filter
                 (fun entry =>
                    negb (LinterStatus.LintStatusEntry.is_group_entry entry))
                 (LinterStatus._status_list quiet))).
Proof.
  intros status.
  apply (quiet_report_lines Samples.read_text Samples.json_loads true
           Samples.linter "striped.ipynb"
           (registry_of [Samples.file_rule; Samples.license_rule]) [] status
           (snd (Samples.run Samples.linter "striped.ipynb"
                   [Samples.file_rule; Samples.license_rule]))
           (Samples.notebook Samples.striped_cells) Samples.striped_cells).
  - vm_compute. reflexivity.
  - vm_compute. reflexivity.
  - reflexivity.
  - reflexivity.
Defined.

(** X6: the report of a run has exactly one top-level entry for each rule
    that was dispatched, in the order of dispatch: the entries of the rules
    filed under ([FILE], [ANY]), then the aggregate entries of the rules run
    on cells. *)
Theorem one_top_level_entry_per_rule read_text json_loads any_first self path
    lint_dict log status log' data cells :
  Linter.run read_text json_loads any_first self path lint_dict log
  = (Returns (Linter.RStatus status), log') ->
  json_loads (read_text path) = Some data ->
  notebook_cells data = Some cells ->
  LinterStatus.root_entries status
  = map (file_entry (read_text path) data path)
      (lint_dict Options.FILE Options.ANY)
    ++ map (fun lint =>
              LinterStatus.LintStatusEntry.mk lint
                (group_verdict lint path cells) (Lint.name lint)
                (Some (Lint.name lint)) false)
         (cell_lints any_first lint_dict)
  /\ length (LinterStatus.root_entries status)
     = length (lint_dict Options.FILE Options.ANY)
       + length (cell_lints any_first lint_dict).
Proof.
  intros H Hjson Hcells.
  destruct (run_returns_status _ _ _ _ _ _ _ _ _ _ _ H Hjson Hcells)
    as (-> & _).
  assert (Hroots :
    LinterStatus.root_entries
      (LinterStatus.mk path (Linter.verbose self)
         (report_entries any_first lint_dict (read_text path) data cells
            path))
    = map (file_entry (read_text path) data path)
        (lint_dict Options.FILE Options.ANY)
      ++ map (fun lint => aggregate_entry lint path cells)
           (cell_lints any_first lint_dict)).
  { unfold LinterStatus.root_entries. cbn [LinterStatus._status_list].
    unfold report_entries, file_lints.
    now rewrite List.filter_app, roots_of_file_entries,
      roots_of_group_blocks. }
  split; [exact Hroots|].
  now rewrite Hroots, length_app, !length_map.
Qed.

Lemma one_top_level_entry_per_rule_witness :
  let status :=
    Samples.report_of
      (Samples.run Samples.linter "striped.ipynb"
         [Samples.license_rule; Samples.file_rule; Samples.text_all_rule]) in
  let lint_dict :=
    registry_of
      [Samples.license_rule; Samples.file_rule; Samples.text_all_rule] in
  LinterStatus.root_entries status
  = map (file_entry (Samples.read_text "striped.ipynb")
           (Samples.notebook Samples.striped_cells) "striped.ipynb")
      (lint_dict Options.FILE Options.ANY)
    ++ map (fun lint =>
              LinterStatus.LintStatusEntry.mk lint
                (group_verdict lint "striped.ipynb" Samples.striped_cells)
                (Lint.name lint) (Some (Lint.name lint)) false)
         (cell_lints true lint_dict)
  /\ length (LinterStatus.root_entries status)
     = length (lint_dict Options.FILE Options.ANY)
       + length (cell_lints true lint_dict).
Proof.
  intros status lint_dict.
  apply (one_top_level_entry_per_rule Samples.read_text Samples.json_loads
           true Samples.linter "striped.ipynb" lint_dict [] status
           (snd (Samples.run Samples.linter "striped.ipynb"
                   [Samples.license_rule; Samples.file_rule;
                    Samples.text_all_rule]))
           (Samples.notebook Samples.striped_cells) Samples.striped_cells).
  - vm_compute. reflexivity.
  - vm_compute. reflexivity.
  - reflexivity.
Defined.

Lemma is_success_loop_true entries :
  LinterStatus.is_success_loop entries = true <->
  forall entry,
    In entry entries ->
    LinterStatus.LintStatusEntry.is_group_entry entry = false ->
    LinterStatus.LintStatusEntry.is_success entry = true.
Proof.
  split.
  - intros Ht entry Hin Hg.
    destruct (LinterStatus.LintStatusEntry.is_success entry) eqn:Hs;
      [reflexivity|].
    assert (Hf : LinterStatus.is_success_loop entries = false)
      by (apply is_success_loop_false; eauto).
    congruence.
  - intros Hall.
    destruct (LinterStatus.is_success_loop entries) eqn:Hl; [reflexivity|].
    apply is_success_loop_false in Hl as (entry & Hin & Hg & Hs).
    rewrite (Hall entry Hin Hg) in Hs. discriminate.
Qed.

(** X7: the report of a run is an overall success exactly when the callback
    of every file-scoped rule returned [True] and the group verdict of every
    rule run on cells is true. *)
Theorem success_when_every_rule_passes read_text json_loads any_first self
    path lint_dict log status log' data cells :
  Linter.run read_text json_loads any_first self path lint_dict log
  = (Returns (Linter.RStatus status), log') ->
  json_loads (read_text path) = Some data ->
  notebook_cells data = Some cells ->
  LinterStatus.is_success status = true <->
  (forall lint,
     In lint (lint_dict Options.FILE Options.ANY) ->
     Lint.run lint (read_text path) data path = VBool true)
  /\ (forall lint,
        In lint (cell_lints any_first lint_dict) ->
        group_verdict lint path cells = true).
Proof.
  intros H Hjson Hcells.
  destruct (one_top_level_entry_per_rule _ _ _ _ _ _ _ _ _ _ _ H Hjson Hcells)
    as [Hroots _].
  destruct (run_returns_status _ _ _ _ _ _ _ _ _ _ _ H Hjson Hcells)
    as (_ & _ & Hfile & _).
  unfold LinterStatus.is_success.
  rewrite is_success_loop_roots. fold (LinterStatus.root_entries status).
  rewrite Hroots, is_success_loop_true. split.
  - intros Hall. split.
    + intros lint Hin.
      assert (Hs := Hall (file_entry (read_text path) data path lint)
                      (in_or_app _ _ _ (or_introl (in_map _ _ _ Hin)))
                      eq_refl).
      rewrite List.Forall_forall in Hfile. apply Hfile in Hin.
      unfold boolean_call, call_result, file_call in Hin.
      unfold file_entry, call_result, file_call in Hs. simpl in Hin, Hs.
      destruct (Lint.run lint (read_text path) data path);
        [simpl in Hs; now subst | discriminate].
    + intros lint Hin.
      exact (Hall _ (in_or_app _ _ _
                       (or_intror
                          (in_map (fun lint =>
                                     LinterStatus.LintStatusEntry.mk lint
                                       (group_verdict lint path cells)
                                       (Lint.name lint)
                                       (Some (Lint.name lint)) false)
                             _ _ Hin))) eq_refl).
  - intros [Hf Hg] entry Hin _.
    apply in_app_or in Hin as [Hin | Hin];
      apply in_map_iff in Hin as (lint & <- & Hin).
    + unfold file_entry, call_result, file_call. simpl.
      now rewrite (Hf lint Hin).
    + simpl. now apply Hg.
Qed.

Lemma success_when_every_rule_passes_witness :
  let status :=
    Samples.report_of
      (Samples.run Samples.linter "mixed.ipynb"
         [Samples.file_rule; Samples.copyright_rule]) in
  let lint_dict := registry_of [Samples.file_rule; Samples.copyright_rule] in
  LinterStatus.is_success status = true <->
  (forall lint,
     In lint (lint_dict Options.FILE Options.ANY) ->
     Lint.run lint (Samples.read_text "mixed.ipynb")
       (Samples.notebook Samples.mixed_cells) "mixed.ipynb" = VBool true)
  /\ (forall lint,
        In lint (cell_lints true lint_dict) ->
        group_verdict lint "mixed.ipynb" Samples.mixed_cells = true).
Proof.
  intros status lint_dict.
  apply (success_when_every_rule_passes Samples.read_text Samples.json_loads
           true Samples.linter "mixed.ipynb" lint_dict [] status
           (snd (Samples.run Samples.linter "mixed.ipynb"
                   [Samples.file_rule; Samples.copyright_rule]))
           (Samples.notebook Samples.mixed_cells) Samples.mixed_cells).
  - vm_compute. reflexivity.
  - vm_compute. reflexivity.
  - reflexivity.
Defined.

Lemma py_any_booleans {X} (f : X -> verdict) l :
  py_any (map f l) = true -> exists x, In x l /\ verdict_truth (f x) = true.
Proof.
  unfold py_any. rewrite existsb_exists. intros (v & Hin & Hv).
  apply in_map_iff in Hin as (x & <- & Hin). eauto.
Qed.

(** X8: for a rule run on cells, of whatever scope among [CELLS], [CODE]
    and [TEXT], the aggregate entry that [run] records is, under the
    condition [ANY], true exactly when the callback returned [True] on at
    least one selected cell and, under [ALL], true exactly when it returned
    [True] on every selected cell. *)
Theorem group_verdict_by_condition read_text json_loads any_first self path
    lint_dict log status log' data cells pre lint post :
  Linter.run read_text json_loads any_first self path lint_dict log
  = (Returns (Linter.RStatus status), log') ->
  json_loads (read_text path) = Some data ->
  notebook_cells data = Some cells ->
  cell_lints any_first lint_dict = pre ++ lint :: post ->
  Lint.scope lint <> Options.FILE ->
  exists verdict,
    LinterStatus._status_list status
    = entries_before lint_dict (read_text path) data cells path pre
      ++ member_entries lint path cells
      ++ LinterStatus.LintStatusEntry.mk lint verdict (Lint.name lint)
           (Some (Lint.name lint)) false
      :: flat_map (group_block path cells) post
    /\ (Lint.cond lint = Some Options.ANY ->
        (verdict = true <->
         exists cell_idx cell,
           cells !! cell_idx = Some cell
           /\ scope_filter (Lint.scope lint) cell = true
           /\ Lint.run lint (cell_text cell) cell path = VBool true))
    /\ (Lint.cond lint = Some Options.ALL ->
        (verdict = true <->
         forall cell_idx cell,
           cells !! cell_idx = Some cell ->
           scope_filter (Lint.scope lint) cell = true ->
           Lint.run lint (cell_text cell) cell path = VBool true)).
Proof.
  intros H Hjson Hcells Hsplit Hscope.
  destruct (run_group _ _ _ _ _ _ _ _ _ _ _ _ _ _ H Hjson Hcells Hsplit)
    as [Hentries [Hok _]].
  exists (group_verdict lint path cells). split; [exact Hentries|].
  assert (Hbool : Forall (fun item =>
                    isinstance_bool
                      (call_result (member_call lint path item)) = true)
                    (selected (Lint.scope lint) cells))
    by (eapply Forall_impl; [exact Hok | now intros item [_ Hb]]).
  split; intros Hcond; unfold group_verdict, member_calls;
    rewrite Hcond, map_map.
  - split.
    + intros Hany. apply py_any_booleans in Hany as ([i cell] & Hin & Hv).
      rewrite List.Forall_forall in Hbool. pose proof (Hbool _ Hin) as Hb.
      apply selected_lookup in Hin as [Hi Hm].
      exists i, cell. split; [exact Hi|].
      split; [now rewrite <- matches_scope_filter|].
      unfold call_result, member_call in Hv, Hb. simpl in Hv, Hb.
      destruct (Lint.run lint (cell_text cell) cell path);
        [simpl in Hv; now subst | discriminate].
    + intros (i & cell & Hi & Hm & Hrun). unfold py_any.
      apply existsb_exists.
      exists (call_result (member_call lint path (i, cell))). split.
      * apply in_map_iff. exists (i, cell). split; [reflexivity|].
        apply selected_lookup. now rewrite matches_scope_filter.
      * unfold call_result, member_call. simpl. now rewrite Hrun.
  - rewrite py_all_booleans by exact Hbool. split.
    + intros Hall i cell Hi Hm.
      apply (Hall (i, cell)). apply selected_lookup.
      now rewrite matches_scope_filter.
    + intros Hall [i cell] Hin. apply selected_lookup in Hin as [Hi Hm].
      apply (Hall i cell Hi). now rewrite <- matches_scope_filter.
Qed.

Lemma group_verdict_by_condition_witness :
  exists verdict,
    LinterStatus._status_list
      (Samples.report_of
         (Samples.run Samples.linter "striped.ipynb"
            [Samples.file_rule; Samples.cells_rule]))
    = entries_before (registry_of [Samples.file_rule; Samples.cells_rule])
        (Samples.read_text "striped.ipynb")
        (Samples.notebook Samples.striped_cells) Samples.striped_cells
        "striped.ipynb" []
      ++ member_entries Samples.cells_rule "striped.ipynb"
           Samples.striped_cells
      ++ LinterStatus.LintStatusEntry.mk Samples.cells_rule verdict
           "license_check" (Some "license_check") false
      :: flat_map (group_block "striped.ipynb" Samples.striped_cells) []
    /\ (Lint.cond Samples.cells_rule = Some Options.ANY ->
        (verdict = true <->
         exists cell_idx cell,
           Samples.striped_cells !! cell_idx = Some cell
           /\ scope_filter Options.CELLS cell = true
           /\ Lint.run Samples.cells_rule (cell_text cell) cell
                "striped.ipynb" = VBool true))
    /\ (Lint.cond Samples.cells_rule = Some Options.ALL ->
        (verdict = true <->
         forall cell_idx cell,
           Samples.striped_cells !! cell_idx = Some cell ->
           scope_filter Options.CELLS cell = true ->
           Lint.run Samples.cells_rule (cell_text cell) cell "striped.ipynb"
           = VBool true)).
Proof.
  apply (group_verdict_by_condition Samples.read_text Samples.json_loads true
           Samples.linter "striped.ipynb"
           (registry_of [Samples.file_rule; Samples.cells_rule]) []
           (Samples.report_of
              (Samples.run Samples.linter "striped.ipynb"
                 [Samples.file_rule; Samples.cells_rule]))
           (snd (Samples.run Samples.linter "striped.ipynb"
                   [Samples.file_rule; Samples.cells_rule]))
           (Samples.notebook Samples.striped_cells) Samples.striped_cells
           [] Samples.cells_rule []).
  - vm_compute. reflexivity.
  - vm_compute. reflexivity.
  - reflexivity.
  - vm_compute. reflexivity.
  - discriminate.
Defined.

(** X9: on a notebook with an empty list of cells, no rule run on cells has
    its callback invoked; every such rule still gets its aggregate entry,
    which is false under [ANY] and true under [ALL]. The run returns this
    report as soon as the file-scoped callbacks return bools and the
    conditions are of the enumeration. *)
Theorem run_on_notebook_without_cells read_text json_loads any_first self
    path lint_dict log data :
  json_loads (read_text path) = Some data ->
  notebook_cells data = Some [] ->
  Forall (fun lint =>
            isinstance_bool (Lint.run lint (read_text path) data path) = true)
    (lint_dict Options.FILE Options.ANY) ->
  Forall (fun lint => Lint.cond lint <> None)
    (cell_lints any_first lint_dict) ->
  Linter.run read_text json_loads any_first self path lint_dict log
  = (Returns
       (Linter.RStatus
          (LinterStatus.mk path (Linter.verbose self)
             (map (file_entry (read_text path) data path)
                (lint_dict Options.FILE Options.ANY)
              ++ map (fun lint =>
                        LinterStatus.LintStatusEntry.mk lint
                          (bool_decide (Lint.cond lint = Some Options.ALL))
                          (Lint.name lint) (Some (Lint.name lint)) false)
                   (cell_lints any_first lint_dict)))),
     log ++ map (fun lint => mkCall lint (read_text path) data path)
              (lint_dict Options.FILE Options.ANY)).
Proof.
  intros Hjson Hcells Hfile Hcond.
  assert (Hl : lintable any_first lint_dict (read_text path) data [] path).
  { split; [exact Hfile|]. split; [|right; constructor].
    eapply Forall_impl; [exact Hcond|]. intros lint Hc.
    split; [constructor | exact Hc]. }
  rewrite (proj2 (run_reports_when_lintable read_text json_loads any_first
                    self path lint_dict log data [] Hjson Hcells) Hl).
  unfold report_entries, report_calls, file_lints.
  assert (Hblocks : forall lints,
            Forall (fun lint => Lint.cond lint <> None) lints ->
            flat_map (group_block path []) lints
            = map (fun lint =>
                     LinterStatus.LintStatusEntry.mk lint
                       (bool_decide (Lint.cond lint = Some Options.ALL))
                       (Lint.name lint) (Some (Lint.name lint)) false)
                lints).
  { induction 1 as [|lint lints Hc _ IH]; [reflexivity|].
    cbn [flat_map map]. rewrite IH. unfold group_block at 1.
    unfold member_entries, selected, aggregate_entry, group_verdict,
      member_calls, selected. cbn [enumerate length seq combine List.filter
      map app].
    destruct (Lint.cond lint) as [[|]|]; [| |now destruct Hc]; reflexivity. }
  rewrite (Hblocks _ Hcond).
  assert (Hcalls : forall lints,
            flat_map (fun lint => member_calls lint path []) lints = [])
    by (induction lints as [|lint lints IH]; [reflexivity | exact IH]).
  now rewrite Hcalls, app_nil_r.
Qed.

Lemma run_on_notebook_without_cells_witness :
  let lint_dict := registry_of [Samples.license_rule; Samples.text_all_rule] in
  let read_text := fun _ : Path => "empty notebook" in
  let json_loads := fun _ : string => Some (Samples.notebook []) in
  Linter.run read_text json_loads true Samples.linter "empty.ipynb" lint_dict
    []
  = (Returns
       (Linter.RStatus
          (LinterStatus.mk "empty.ipynb" (Linter.verbose Samples.linter)
             (map (file_entry (read_text "empty.ipynb") (Samples.notebook [])
                     "empty.ipynb")
                (lint_dict Options.FILE Options.ANY)
              ++ map (fun lint =>
                        LinterStatus.LintStatusEntry.mk lint
                          (bool_decide (Lint.cond lint = Some Options.ALL))
                          (Lint.name lint) (Some (Lint.name lint)) false)
                   (cell_lints true lint_dict)))),
     [] ++ map (fun lint =>
                  mkCall lint (read_text "empty.ipynb") (Samples.notebook [])
                    "empty.ipynb")
             (lint_dict Options.FILE Options.ANY)).
Proof.
  intros lint_dict read_text json_loads.
  apply (run_on_notebook_without_cells read_text json_loads true
           Samples.linter "empty.ipynb" lint_dict [] (Samples.notebook [])).
  - reflexivity.
  - reflexivity.
  - vm_compute. constructor.
  - vm_compute. repeat constructor; discriminate.
Defined.

(** * Properties of the notebook formatter *)

(** ** Dicts *)

Lemma dict_lookup_set_eq items key value :
  dict_lookup (dict_set items key value) key = Some value.
Proof.
  induction items as [|[k v] items IH]; simpl.
  - now rewrite String.eqb_refl.
  - destruct (String.eqb k key) eqn:Hk; simpl; now rewrite Hk.
Qed.

Lemma dict_lookup_set_ne items key value key' :
  key <> key' ->
  dict_lookup (dict_set items key value) key' = dict_lookup items key'.
Proof.
  intros Hne. induction items as [|[k v] items IH]; simpl.
  - destruct (String.eqb key key') eqn:Hk; [|reflexivity].
    apply String.eqb_eq in Hk. now destruct Hne.
  - destruct (String.eqb k key) eqn:Hk; simpl.
    + apply String.eqb_eq in Hk. subst k.
      destruct (String.eqb key key') eqn:Hk'; [|reflexivity].
      apply String.eqb_eq in Hk'. now destruct Hne.
    + now rewrite IH.
Qed.

Lemma dict_set_same items key value :
  dict_lookup items key = Some value -> dict_set items key value = items.
Proof.
  induction items as [|[k v] items IH]; simpl; [discriminate|].
  destruct (String.eqb k key) eqn:Hk.
  - now intros [= ->].
  - intros H. now rewrite IH.
Qed.

Lemma dict_set_keys_present items key value old :
  dict_lookup items key = Some old ->
  keys (dict_set items key value) = keys items.
Proof.
  unfold keys. induction items as [|[k v] items IH]; simpl; [discriminate|].
  destruct (String.eqb k key) eqn:Hk; simpl; [reflexivity|].
  intros H. now rewrite IH.
Qed.

Lemma dict_set_keys_absent items key value :
  dict_lookup items key = None ->
  keys (dict_set items key value) = keys items ++ [key].
Proof.
  unfold keys. induction items as [|[k v] items IH]; simpl; [reflexivity|].
  destruct (String.eqb k key) eqn:Hk; simpl; [discriminate|].
  intros H. now rewrite IH.
Qed.

Lemma dict_lookup_remove_ne items key key' :
  key <> key' ->
  dict_lookup (dict_remove items key) key' = dict_lookup items key'.
Proof.
  intros Hne. induction items as [|[k v] items IH]; simpl; [reflexivity|].
  destruct (String.eqb k key) eqn:Hk; simpl.
  - apply String.eqb_eq in Hk. subst k.
    destruct (String.eqb key key') eqn:Hk'; [|reflexivity].
    apply String.eqb_eq in Hk'. now destruct Hne.
  - now rewrite IH.
Qed.

Lemma dict_lookup_In items key value :
  dict_lookup items key = Some value -> In (key, value) items.
Proof.
  induction items as [|[k v] items IH]; simpl; [discriminate|].
  destruct (String.eqb k key) eqn:Hk.
  - apply String.eqb_eq in Hk. intros [= ->]. left. now subst.
  - intros H. right. auto.
Qed.

Lemma dict_lookup_None items key :
  dict_lookup items key = None <-> ~ In key (keys items).
Proof.
  unfold keys. induction items as [|[k v] items IH]; simpl.
  - split; [intros _ [] | reflexivity].
  - destruct (String.eqb k key) eqn:Hk.
    + apply String.eqb_eq in Hk. split; [discriminate | intros H].
      destruct H. now left.
    + apply String.eqb_neq in Hk. rewrite IH. split.
      * intros H [Heq | Hin]; [now destruct Hk | now destruct H].
      * intros H Hin. apply H. now right.
Qed.

Lemma dict_remove_filter items key :
  List.NoDup (keys items) ->
  dict_remove items key
  = List.filter (fun kv => negb (String.eqb (fst kv) key)) items.
Proof.
  unfold keys. induction items as [|[k v] items IH]; simpl; [reflexivity|].
  intros Hnd. apply List.NoDup_cons_iff in Hnd as [Hnot Hnd].
  destruct (String.eqb k key) eqn:Hk; simpl.
  - apply String.eqb_eq in Hk. subst k. symmetry. apply filter_all.
    intros [k' v'] Hin. simpl. apply negb_true_iff, String.eqb_neq.
    intros ->. apply Hnot. apply in_map_iff. exists (key, v'). auto.
  - now rewrite IH.
Qed.

Lemma dict_lookup_filter (f : string -> bool) items key :
  dict_lookup (List.filter (fun kv => f (fst kv)) items) key
  = if f key then dict_lookup items key else None.
Proof.
  induction items as [|[k v] items IH]; cbn [List.filter dict_lookup fst].
  - now destruct (f key).
  - destruct (String.eqb_spec k key) as [-> | Hk].
    + destruct (f key) eqn:Hf; [|exact IH].
      cbn [dict_lookup]. now rewrite String.eqb_refl.
    + destruct (f k); [|exact IH].
      cbn [dict_lookup]. now rewrite (proj2 (String.eqb_neq _ _) Hk).
Qed.

Lemma dict_lookup_app items items' key :
  dict_lookup (items ++ items') key
  = match dict_lookup items key with
    | Some v => Some v
    | None => dict_lookup items' key
    end.
Proof.
  induction items as [|[k v] items IH]; simpl; [reflexivity|].
  now destruct (String.eqb k key).
Qed.

(** ** Computations of the formatter *)

Lemma wbind_returns {A B} (m : Nbfmt.W A) (k : A -> Nbfmt.W B) err b err2 :
  Nbfmt.wbind m k err = (Returns b, err2) ->
  exists a err1, m err = (Returns a, err1) /\ k a err1 = (Returns b, err2).
Proof.
  unfold Nbfmt.wbind. destruct (m err) as [[a|e] err1];
    [eauto | discriminate].
Qed.

Lemma wbind_step {A B} (m : Nbfmt.W A) (k : A -> Nbfmt.W B) err a err1 :
  m err = (Returns a, err1) -> Nbfmt.wbind m k err = k a err1.
Proof. unfold Nbfmt.wbind. now intros ->. Qed.

Lemma wbind_raises {A B} (m : Nbfmt.W A) (k : A -> Nbfmt.W B) err e err1 :
  m err = (Raises e, err1) -> Nbfmt.wbind m k err = (Raises e, err1).
Proof. unfold Nbfmt.wbind. now intros ->. Qed.

Lemma lift_returns {A} (m : M A) err a err' :
  Nbfmt.lift m err = (Returns a, err') -> eval m = Returns a /\ err' = err.
Proof. unfold Nbfmt.lift. now intros [= -> ->]. Qed.

(** ** Sorting the notebook *)

Lemma middle_items_remove items :
  List.NoDup (keys items) ->
  dict_remove (dict_remove items "metadata") "cells" = middle_items items.
Proof.
  intros Hnd. rewrite (dict_remove_filter items) by exact Hnd.
  rewrite dict_remove_filter.
  - unfold middle_items. clear Hnd.
    induction items as [|[k v] items IH]; simpl; [reflexivity|].
    destruct (String.eqb k "metadata"); simpl; [exact IH|].
    destruct (String.eqb k "cells"); simpl; now rewrite IH.
  - unfold keys in *. clear -Hnd.
    induction items as [|[k v] items IH]; simpl; [constructor|].
    apply List.NoDup_cons_iff in Hnd as [Hnot Hnd].
    destruct (String.eqb k "metadata"); simpl; [now apply IH|].
    apply List.NoDup_cons_iff. split; [|now apply IH].
    intros Hin. apply Hnot. apply in_map_iff in Hin as (kv & <- & Hin).
    apply filter_In in Hin as [Hin _]. exact (in_map fst _ _ Hin).
Qed.

(** X10: [sort_notebook] puts the notebook's ["metadata"] first and its
    ["cells"] last and leaves the other items between them in the order they
    had; every key keeps its value. *)
Theorem sort_notebook_order items metadata cells err :
  List.NoDup (keys items) ->
  dict_lookup items "metadata" = Some metadata ->
  dict_lookup items "cells" = Some cells ->
  Nbfmt.sort_notebook items err
  = (Returns (("metadata", metadata) :: middle_items items
              ++ [("cells", cells)]), err)
  /\ forall key,
       dict_lookup (("metadata", metadata) :: middle_items items
                    ++ [("cells", cells)]) key
       = dict_lookup items key.
Proof.
  intros Hnd Hm Hc. split.
  - unfold Nbfmt.sort_notebook.
    rewrite (wbind_step _ _ err items err eq_refl).
    rewrite (wbind_step _ _ err
               (("metadata", metadata) :: dict_remove items "metadata") err)
      by (unfold Nbfmt.move_to_end; now rewrite Hm).
    assert (Hc' : dict_lookup
                    (("metadata", metadata) :: dict_remove items "metadata")
                    "cells" = Some cells).
    { change (dict_lookup (dict_remove items "metadata") "cells"
              = Some cells).
      now rewrite dict_lookup_remove_ne by discriminate. }
    rewrite (wbind_step _ _ err
               (("metadata", metadata)
                :: dict_remove (dict_remove items "metadata") "cells"
                ++ [("cells", cells)]) err)
      by (unfold Nbfmt.move_to_end; now rewrite Hc').
    now rewrite middle_items_remove.
  - intros key. unfold middle_items.
    destruct (String.eqb_spec "metadata" key) as [<- | Hkm].
    { cbn [dict_lookup]. now rewrite String.eqb_refl. }
    cbn [dict_lookup]. rewrite (proj2 (String.eqb_neq _ _) Hkm).
    rewrite dict_lookup_app,
      (dict_lookup_filter
         (fun k => negb (String.eqb k "metadata")
                   && negb (String.eqb k "cells"))).
    rewrite (String.eqb_sym key "metadata"),
      (proj2 (String.eqb_neq _ _) Hkm).
    cbn [negb andb dict_lookup]. rewrite (String.eqb_sym key "cells").
    destruct (String.eqb_spec "cells" key) as [<- | Hkc]; cbn [negb].
    + now rewrite Hc.
    + now destruct (dict_lookup items key).
Qed.

Lemma sort_notebook_order_witness :
  Nbfmt.sort_notebook FmtSamples.items []
  = (Returns (("metadata",
               PDict [("kernelspec", PStr "python3");
                      ("colab", PDict [("collapsed_sections", PList [])])])
              :: middle_items FmtSamples.items
              ++ [("cells", PList FmtSamples.cells)]), [])
  /\ forall key,
       dict_lookup
         (("metadata",
           PDict [("kernelspec", PStr "python3");
                  ("colab", PDict [("collapsed_sections", PList [])])])
          :: middle_items FmtSamples.items
          ++ [("cells", PList FmtSamples.cells)]) key
       = dict_lookup FmtSamples.items key.
Proof.
  apply (sort_notebook_order FmtSamples.items).
  - vm_compute. repeat constructor; simpl; intuition discriminate.
  - reflexivity.
  - reflexivity.
Defined.

(** X11: [sort_notebook] raises [KeyError] on a notebook without
    ["metadata"], and on a notebook with ["metadata"] but without
    ["cells"]; the missing ["metadata"] is reported first. *)
Theorem sort_notebook_missing_key items err :
  (dict_lookup items "metadata" = None ->
   Nbfmt.sort_notebook items err = (Raises (KeyError "metadata"), err))
  /\ (dict_lookup items "metadata" <> None ->
      dict_lookup items "cells" = None ->
      Nbfmt.sort_notebook items err = (Raises (KeyError "cells"), err)).
Proof.
  split.
  - intros Hm. unfold Nbfmt.sort_notebook.
    rewrite (wbind_step _ _ err items err eq_refl).
    apply wbind_raises. unfold Nbfmt.move_to_end. now rewrite Hm.
  - intros Hm Hc. unfold Nbfmt.sort_notebook.
    rewrite (wbind_step _ _ err items err eq_refl).
    destruct (dict_lookup items "metadata") as [metadata|] eqn:Hm';
      [|now destruct Hm].
    rewrite (wbind_step _ _ err
               (("metadata", metadata) :: dict_remove items "metadata") err)
      by (unfold Nbfmt.move_to_end; now rewrite Hm').
    apply wbind_raises. unfold Nbfmt.move_to_end.
    change (dict_lookup (("metadata", metadata)
                         :: dict_remove items "metadata") "cells")
      with (dict_lookup (dict_remove items "metadata") "cells").
    rewrite dict_lookup_remove_ne by discriminate. now rewrite Hc.
Qed.

Lemma sort_notebook_missing_key_witness :
  Nbfmt.sort_notebook [("cells", PList [])] []
  = (Raises (KeyError "metadata"), [])
  /\ Nbfmt.sort_notebook [("metadata", PDict [])] []
     = (Raises (KeyError "cells"), []).
Proof.
  split.
  - apply (proj1 (sort_notebook_missing_key [("cells", PList [])] [])).
    reflexivity.
  - apply (proj2 (sort_notebook_missing_key [("metadata", PDict [])] [])).
    + discriminate.
    + reflexivity.
Defined.

Lemma middle_items_keys items key :
  In key (keys (middle_items items)) ->
  In key (keys items) /\ key <> "metadata" /\ key <> "cells".
Proof.
  unfold keys, middle_items. intros Hin.
  apply in_map_iff in Hin as ([k v] & <- & Hin).
  apply filter_In in Hin as [Hin Hf]. simpl in *.
  apply andb_true_iff in Hf as [H1 H2].
  apply negb_true_iff, String.eqb_neq in H1, H2.
  split; [|now split]. exact (in_map fst _ _ Hin).
Qed.

Lemma middle_items_NoDup items :
  List.NoDup (keys items) -> List.NoDup (keys (middle_items items)).
Proof.
  unfold keys, middle_items.
  induction items as [|[k v] items IH]; simpl; [constructor|].
  intros Hnd. apply List.NoDup_cons_iff in Hnd as [Hnot Hnd].
  destruct (negb (String.eqb k "metadata") && negb (String.eqb k "cells"));
    simpl; [|now apply IH].
  apply List.NoDup_cons_iff. split; [|now apply IH].
  intros Hin. apply Hnot. apply in_map_iff in Hin as (kv & <- & Hin).
  apply filter_In in Hin as [Hin _]. exact (in_map fst _ _ Hin).
Qed.

Lemma middle_items_sorted items metadata cells :
  middle_items (("metadata", metadata) :: middle_items items
                ++ [("cells", cells)])
  = middle_items items.
Proof.
  unfold middle_items at 1. cbn [List.filter fst].
  change (String.eqb "metadata" "metadata") with true. cbn [negb andb].
  rewrite List.filter_app. cbn [List.filter fst].
  change (String.eqb "cells" "metadata") with false.
  change (String.eqb "cells" "cells") with true. cbn [negb andb].
  rewrite app_nil_r. apply filter_all. intros [k v] Hin.
  unfold middle_items in Hin. now apply filter_In in Hin as [_ Hf].
Qed.

(** X12: [sort_notebook] is idempotent: sorting a sorted notebook gives it
    back unchanged. *)
Theorem sort_notebook_idempotent items sorted err err' :
  List.NoDup (keys items) ->
  Nbfmt.sort_notebook items err = (Returns sorted, err') ->
  Nbfmt.sort_notebook sorted err' = (Returns sorted, err')
  /\ List.NoDup (keys sorted).
Proof.
  intros Hnd H.
  destruct (dict_lookup items "metadata") as [metadata|] eqn:Hm.
  2: { rewrite (proj1 (sort_notebook_missing_key items err) Hm) in H.
       discriminate. }
  destruct (dict_lookup items "cells") as [cells|] eqn:Hc.
  2: { rewrite (proj2 (sort_notebook_missing_key items err)) in H;
         [discriminate | now rewrite Hm | exact Hc]. }
  destruct (sort_notebook_order items metadata cells err Hnd Hm Hc)
    as [Hsort Hlookup].
  rewrite Hsort in H. injection H as <- <-.
  assert (Hnd' : List.NoDup
                   (keys (("metadata", metadata) :: middle_items items
                          ++ [("cells", cells)]))).
  { unfold keys. cbn [map fst]. rewrite map_app. cbn [map fst].
    apply List.NoDup_cons_iff. split.
    - intros Hin. apply in_app_or in Hin as [Hin | [[=] | []]].
      now apply middle_items_keys in Hin as (_ & Hne & _).
    - apply List.NoDup_app; [now apply middle_items_NoDup | |].
      + repeat constructor. intros [].
      + intros key Hin [<- | []].
        now apply middle_items_keys in Hin as (_ & _ & Hne). }
  split; [|exact Hnd'].
  destruct (sort_notebook_order _ metadata cells err Hnd') as [Hsort' _].
  - reflexivity.
  - rewrite Hlookup. exact Hc.
  - now rewrite Hsort', middle_items_sorted.
Qed.

Lemma sort_notebook_idempotent_witness :
  let sorted := FmtSamples.value_of [] (Nbfmt.sort_notebook FmtSamples.items [])
  in
  Nbfmt.sort_notebook sorted [] = (Returns sorted, [])
  /\ List.NoDup (keys sorted).
Proof.
  intros sorted.
  apply (sort_notebook_idempotent FmtSamples.items sorted [] []).
  - vm_compute. repeat constructor; simpl; intuition discriminate.
  - vm_compute. reflexivity.
Defined.

(** ** The notebook's metadata *)

Lemma dict_set_set items key value value' :
  dict_set (dict_set items key value) key value' = dict_set items key value'.
Proof.
  induction items as [|[k v] items IH]; cbn [dict_set].
  - now rewrite String.eqb_refl.
  - destruct (String.eqb k key) eqn:Hk; cbn [dict_set]; rewrite Hk;
      [reflexivity | now rewrite IH].
Qed.

Lemma set_in_dict items key1 key2 value inner err :
  dict_lookup items key1 = Some (PDict inner) ->
  Nbfmt.set_in (PDict items) key1 key2 value err
  = (Returns (PDict (dict_set items key1 (PDict (dict_set inner key2 value)))),
     err).
Proof.
  intros H. unfold Nbfmt.set_in, Nbfmt.wbind, Nbfmt.lift, eval.
  cbn [py_getitem]. unfold dict_getitem. rewrite H. reflexivity.
Qed.

Lemma update_metadata_returns_dicts preserve_outputs data filepath err data'
    err' :
  Nbfmt.update_metadata preserve_outputs data filepath err
  = (Returns data', err') ->
  exists items metadata colab,
    data = PDict items
    /\ dict_or_empty items "metadata" = Some metadata
    /\ dict_or_empty metadata "colab" = Some colab.
Proof.
  unfold Nbfmt.update_metadata. intros H.
  apply wbind_returns in H as (md & err1 & Hmd & H).
  apply lift_returns in Hmd as [Hmd ->].
  destruct data as [| | | | |items]; try discriminate.
  cbn in Hmd. injection Hmd as <-.
  apply wbind_returns in H as (co & err1 & Hco & H).
  apply lift_returns in Hco as [Hco ->].
  exists items. unfold dict_or_empty.
  destruct (dict_lookup items "metadata") as [[| | | | |metadata]|];
    try discriminate.
  - cbn in Hco. injection Hco as <-. exists metadata.
    apply wbind_returns in H as (md1 & err1 & Hset & H).
    injection Hset as <- <-.
    destruct (dict_lookup metadata "colab") as [[| | | | |colab]|] eqn:Hc;
      [| | | | |now eauto|now eauto].
    all: exfalso.
    all: destruct filepath, preserve_outputs.
    all: apply wbind_returns in H as (md2 & err2 & Hset & H).
    all: try (unfold Nbfmt.set_in, Nbfmt.wbind, Nbfmt.lift, eval in Hset;
              cbn [py_getitem] in Hset; unfold dict_getitem in Hset;
              rewrite dict_lookup_set_eq in Hset; discriminate).
    all: injection Hset as <- <-.
    all: apply wbind_returns in H as (md3 & err3 & Hset & H).
    all: unfold Nbfmt.set_in, Nbfmt.wbind, Nbfmt.lift, eval in Hset;
         cbn [py_getitem] in Hset; unfold dict_getitem in Hset;
         rewrite dict_lookup_set_eq in Hset; discriminate.
  - cbn in Hco. injection Hco as <-. exists []. cbn. eauto.
Qed.

Lemma update_metadata_of_dicts preserve_outputs items filepath metadata colab
    err :
  dict_or_empty items "metadata" = Some metadata ->
  dict_or_empty metadata "colab" = Some colab ->
  Nbfmt.update_metadata preserve_outputs (PDict items) filepath err
  = (Returns
       (PDict
          (dict_set items "metadata"
             (PDict
                (dict_set metadata "colab"
                   (PDict (colab_settings preserve_outputs filepath colab)))))),
     err).
Proof.
  intros Hm Hc. unfold Nbfmt.update_metadata.
  rewrite (wbind_step _ _ err (PDict metadata) err).
  2: { unfold Nbfmt.lift, eval, dict_or_empty in *. cbn.
       destruct (dict_lookup items "metadata") as [[| | | | |m]|];
         try discriminate; now injection Hm as <-. }
  rewrite (wbind_step _ _ err (PDict colab) err).
  2: { unfold Nbfmt.lift, eval, dict_or_empty in *. cbn.
       destruct (dict_lookup metadata "colab") as [[| | | | |c]|];
         try discriminate; now injection Hc as <-. }
  rewrite (wbind_step _ _ err
             (PDict (dict_set metadata "colab" (PDict colab))) err eq_refl).
  unfold colab_settings.
  destruct filepath as [fp|].
  - rewrite (wbind_step _ _ err _ err
               (set_in_dict _ "colab" "name" _ colab err
                  (dict_lookup_set_eq _ _ _))).
    rewrite dict_set_set.
    assert (Hrest : forall c0 b,
      Nbfmt.wbind
        (Nbfmt.set_in (PDict (dict_set metadata "colab" (PDict c0))) "colab"
           "private_outputs" (PBool b))
        (fun metadata0 =>
           Nbfmt.wbind (Nbfmt.set_in metadata0 "colab" "provenance" (PList []))
             (fun metadata1 =>
                Nbfmt.wbind
                  (Nbfmt.set_in metadata1 "colab" "toc_visible" (PBool true))
                  (fun metadata2 =>
                     Nbfmt.py_setitem (PDict items) "metadata" metadata2)))
        err
      = (Returns
           (PDict
              (dict_set items "metadata"
                 (PDict
                    (dict_set metadata "colab"
                       (PDict
                          (dict_set
                             (dict_set (dict_set c0 "private_outputs" (PBool b))
                                "provenance" (PList []))
                             "toc_visible" (PBool true))))))), err)).
    { intros c0 b.
      rewrite (wbind_step _ _ err _ err
                 (set_in_dict _ "colab" "private_outputs" _ c0 err
                    (dict_lookup_set_eq _ _ _))).
      rewrite dict_set_set.
      rewrite (wbind_step _ _ err _ err
                 (set_in_dict _ "colab" "provenance" _ _ err
                    (dict_lookup_set_eq _ _ _))).
      rewrite dict_set_set.
      rewrite (wbind_step _ _ err _ err
                 (set_in_dict _ "colab" "toc_visible" _ _ err
                    (dict_lookup_set_eq _ _ _))).
      rewrite dict_set_set. reflexivity. }
    destruct preserve_outputs; apply Hrest.
  - rewrite (wbind_step _ _ err
               (PDict (dict_set metadata "colab" (PDict colab))) err eq_refl).
    destruct preserve_outputs; cbn [negb].
    all: rewrite (wbind_step _ _ err _ err
                    (set_in_dict _ "colab" "private_outputs" _ colab err
                       (dict_lookup_set_eq _ _ _))).
    all: rewrite dict_set_set.
    all: rewrite (wbind_step _ _ err _ err
                    (set_in_dict _ "colab" "provenance" _ _ err
                       (dict_lookup_set_eq _ _ _))).
    all: rewrite dict_set_set.
    all: rewrite (wbind_step _ _ err _ err
                    (set_in_dict _ "colab" "toc_visible" _ _ err
                       (dict_lookup_set_eq _ _ _))).
    all: rewrite dict_set_set; reflexivity.
Qed.

Lemma update_metadata_inv preserve_outputs data filepath err data' err' :
  Nbfmt.update_metadata preserve_outputs data filepath err
  = (Returns data', err') ->
  exists items metadata colab,
    data = PDict items
    /\ dict_or_empty items "metadata" = Some metadata
    /\ dict_or_empty metadata "colab" = Some colab
    /\ data' = PDict
                 (dict_set items "metadata"
                    (PDict
                       (dict_set metadata "colab"
                          (PDict (colab_settings preserve_outputs filepath
                                    colab)))))
    /\ err' = err.
Proof.
  intros H.
  destruct (update_metadata_returns_dicts _ _ _ _ _ _ H)
    as (items & metadata & colab & -> & Hm & Hc).
  rewrite (update_metadata_of_dicts _ _ _ _ _ _ Hm Hc) in H.
  injection H as <- <-. exists items, metadata, colab. auto.
Qed.

Lemma colab_settings_lookup preserve_outputs filepath colab :
  dict_lookup (colab_settings preserve_outputs filepath colab)
    "private_outputs" = Some (PBool (negb preserve_outputs))
  /\ dict_lookup (colab_settings preserve_outputs filepath colab)
       "provenance" = Some (PList [])
  /\ dict_lookup (colab_settings preserve_outputs filepath colab)
       "toc_visible" = Some (PBool true)
  /\ (forall fp,
        filepath = Some fp ->
        dict_lookup (colab_settings preserve_outputs filepath colab) "name"
        = Some (PStr (basename fp))).
Proof.
  unfold colab_settings. repeat split.
  - rewrite !dict_lookup_set_ne by discriminate. apply dict_lookup_set_eq.
  - rewrite dict_lookup_set_ne by discriminate. apply dict_lookup_set_eq.
  - apply dict_lookup_set_eq.
  - intros fp ->. rewrite !dict_lookup_set_ne by discriminate.
    apply dict_lookup_set_eq.
Qed.

Lemma colab_settings_other preserve_outputs filepath colab key :
  key <> "private_outputs" -> key <> "provenance" -> key <> "toc_visible" ->
  (filepath <> None -> key <> "name") ->
  dict_lookup (colab_settings preserve_outputs filepath colab) key
  = dict_lookup colab key.
Proof.
  intros H1 H2 H3 H4. unfold colab_settings.
  rewrite !dict_lookup_set_ne by congruence.
  destruct filepath; [|reflexivity].
  rewrite dict_lookup_set_ne; [reflexivity|].
  intros <-. now apply H4.
Qed.

(** X13: when [update_metadata] returns, the notebook has a ["metadata"]
    dict with a ["colab"] dict in which [private_outputs] is the opposite of
    the flag [preserve_outputs], [provenance] is the empty list,
    [toc_visible] is true and, if a file path was given, [name] is the base
    name of the path; nothing is written to [sys.stderr]. *)
Theorem update_metadata_settings preserve_outputs data filepath err data'
    err' :
  Nbfmt.update_metadata preserve_outputs data filepath err
  = (Returns data', err') ->
  exists metadata colab,
    py_field data' "metadata" = Some (PDict metadata)
    /\ dict_lookup metadata "colab" = Some (PDict colab)
    /\ dict_lookup colab "private_outputs"
       = Some (PBool (negb preserve_outputs))
    /\ dict_lookup colab "provenance" = Some (PList [])
    /\ dict_lookup colab "toc_visible" = Some (PBool true)
    /\ (forall fp,
          filepath = Some fp ->
          dict_lookup colab "name" = Some (PStr (basename fp)))
    /\ err' = err.
Proof.
  intros H.
  destruct (update_metadata_inv _ _ _ _ _ _ H)
    as (items & metadata & colab & -> & Hm & Hc & -> & ->).
  destruct (colab_settings_lookup preserve_outputs filepath colab)
    as (H1 & H2 & H3 & H4).
  eexists _, _. cbn [py_field].
  split; [apply dict_lookup_set_eq|].
  split; [apply dict_lookup_set_eq|]. auto.
Qed.

Lemma update_metadata_settings_witness :
  exists metadata colab,
    py_field
      (FmtSamples.value_of PNone
         (Nbfmt.update_metadata false FmtSamples.notebook
            (Some "site/en/guide/notebook.ipynb") []))
      "metadata" = Some (PDict metadata)
    /\ dict_lookup metadata "colab" = Some (PDict colab)
    /\ dict_lookup colab "private_outputs" = Some (PBool (negb false))
    /\ dict_lookup colab "provenance" = Some (PList [])
    /\ dict_lookup colab "toc_visible" = Some (PBool true)
    /\ (forall fp,
          Some "site/en/guide/notebook.ipynb" = Some fp ->
          dict_lookup colab "name" = Some (PStr (basename fp)))
    /\ snd (Nbfmt.update_metadata false FmtSamples.notebook
              (Some "site/en/guide/notebook.ipynb") []) = [].
Proof.
  apply (update_metadata_settings false FmtSamples.notebook
           (Some "site/en/guide/notebook.ipynb") []).
  vm_compute. reflexivity.
Defined.

(** X14: [update_metadata] changes nothing else: every top-level key other
    than ["metadata"] keeps its value (the cells among them), every key of
    the metadata other than ["colab"] keeps its value, and every Colab
    setting other than the four it sets keeps its value. *)
Theorem update_metadata_keeps_the_rest preserve_outputs data filepath err
    data' err' :
  Nbfmt.update_metadata preserve_outputs data filepath err
  = (Returns data', err') ->
  exists items metadata colab metadata' colab',
    data = PDict items
    /\ dict_or_empty items "metadata" = Some metadata
    /\ dict_or_empty metadata "colab" = Some colab
    /\ py_field data' "metadata" = Some (PDict metadata')
    /\ dict_lookup metadata' "colab" = Some (PDict colab')
    /\ (forall key,
          key <> "metadata" -> py_field data' key = dict_lookup items key)
    /\ (forall key,
          key <> "colab" ->
          dict_lookup metadata' key = dict_lookup metadata key)
    /\ (forall key,
          key <> "private_outputs" -> key <> "provenance" ->
          key <> "toc_visible" -> (filepath <> None -> key <> "name") ->
          dict_lookup colab' key = dict_lookup colab key).
Proof.
  intros H.
  destruct (update_metadata_inv _ _ _ _ _ _ H)
    as (items & metadata & colab & -> & Hm & Hc & -> & ->).
  exists items, metadata, colab. eexists _, _. cbn [py_field].
  split; [reflexivity|]. split; [exact Hm|]. split; [exact Hc|].
  split; [apply dict_lookup_set_eq|].
  split; [apply dict_lookup_set_eq|].
  split; [|split].
  - intros key Hk. now apply dict_lookup_set_ne.
  - intros key Hk. now apply dict_lookup_set_ne.
  - intros key. apply colab_settings_other.
Qed.

Lemma update_metadata_keeps_the_rest_witness :
  exists items metadata colab metadata' colab',
    FmtSamples.notebook = PDict items
    /\ dict_or_empty items "metadata" = Some metadata
    /\ dict_or_empty metadata "colab" = Some colab
    /\ py_field
         (FmtSamples.value_of PNone
            (Nbfmt.update_metadata true FmtSamples.notebook None []))
         "metadata" = Some (PDict metadata')
    /\ dict_lookup metadata' "colab" = Some (PDict colab')
    /\ (forall key,
          key <> "metadata" ->
          py_field
            (FmtSamples.value_of PNone
               (Nbfmt.update_metadata true FmtSamples.notebook None []))
            key
          = dict_lookup items key)
    /\ (forall key,
          key <> "colab" ->
          dict_lookup metadata' key = dict_lookup metadata key)
    /\ (forall key,
          key <> "private_outputs" -> key <> "provenance" ->
          key <> "toc_visible" -> (@None string <> None -> key <> "name") ->
          dict_lookup colab' key = dict_lookup colab key).
Proof.
  apply (update_metadata_keeps_the_rest true FmtSamples.notebook None []
           (FmtSamples.value_of PNone
              (Nbfmt.update_metadata true FmtSamples.notebook None []))
           (snd (Nbfmt.update_metadata true FmtSamples.notebook None []))).
  vm_compute. reflexivity.
Defined.

Lemma dict_or_empty_set items key found :
  dict_or_empty (dict_set items key (PDict found)) key = Some found.
Proof. unfold dict_or_empty. now rewrite dict_lookup_set_eq. Qed.

Lemma colab_settings_idempotent preserve_outputs filepath colab :
  colab_settings preserve_outputs filepath
    (colab_settings preserve_outputs filepath colab)
  = colab_settings preserve_outputs filepath colab.
Proof.
  destruct (colab_settings_lookup preserve_outputs filepath colab)
    as (H1 & H2 & H3 & H4).
  unfold colab_settings at 1.
  assert (Hname :
    match filepath with
    | Some fp =>
        dict_set (colab_settings preserve_outputs filepath colab) "name"
          (PStr (basename fp))
    | None => colab_settings preserve_outputs filepath colab
    end = colab_settings preserve_outputs filepath colab).
  { destruct filepath as [fp|]; [|reflexivity].
    apply dict_set_same. now apply H4. }
  rewrite Hname.
  rewrite (dict_set_same _ "private_outputs") by exact H1.
  rewrite (dict_set_same _ "provenance") by exact H2.
  now rewrite (dict_set_same _ "toc_visible") by exact H3.
Qed.

(** X15: [update_metadata] is idempotent: applied to a notebook it has
    returned, with the same flag and path, it returns the notebook
    unchanged. *)
Theorem update_metadata_idempotent preserve_outputs data filepath err data'
    err' :
  Nbfmt.update_metadata preserve_outputs data filepath err
  = (Returns data', err') ->
  Nbfmt.update_metadata preserve_outputs data' filepath err'
  = (Returns data', err').
Proof.
  intros H.
  destruct (update_metadata_inv _ _ _ _ _ _ H)
    as (items & metadata & colab & -> & Hm & Hc & -> & ->).
  rewrite (update_metadata_of_dicts preserve_outputs _ filepath _ _ err
             (dict_or_empty_set _ _ _) (dict_or_empty_set _ _ _)).
  now rewrite !dict_set_set, colab_settings_idempotent.
Qed.

Lemma update_metadata_idempotent_witness :
  let data' :=
    FmtSamples.value_of PNone
      (Nbfmt.update_metadata false FmtSamples.notebook (Some "a/b.ipynb") [])
  in
  Nbfmt.update_metadata false data' (Some "a/b.ipynb") []
  = (Returns data', []).
Proof.
  intros data'.
  apply (update_metadata_idempotent false FmtSamples.notebook
           (Some "a/b.ipynb") [] data' []).
  vm_compute. reflexivity.
Defined.

(** X16: [update_metadata] returns exactly when the notebook is a dict
    whose ["metadata"], if there is one, is a dict whose ["colab"], if there
    is one, is a dict; a missing ["metadata"] or ["colab"] is created. A
    ["metadata"] that is not a dict raises [AttributeError]. *)
Theorem update_metadata_returns_iff preserve_outputs data filepath err :
  ((exists data' err',
      Nbfmt.update_metadata preserve_outputs data filepath err
      = (Returns data', err'))
   <->
   exists items metadata colab,
     data = PDict items
     /\ dict_or_empty items "metadata" = Some metadata
     /\ dict_or_empty metadata "colab" = Some colab)
  /\ (forall items value,
        data = PDict items ->
        dict_lookup items "metadata" = Some value ->
        ~ is_dict value ->
        Nbfmt.update_metadata preserve_outputs data filepath err
        = (Raises (AttributeError
                     ("'" +:+ py_type_name value
                      +:+ "' object has no attribute 'get'")), err)).
Proof.
  split; [split|].
  - intros (data' & err' & H).
    exact (update_metadata_returns_dicts _ _ _ _ _ _ H).
  - intros (items & metadata & colab & -> & Hm & Hc).
    rewrite (update_metadata_of_dicts _ _ _ _ _ _ Hm Hc). eauto.
  - intros items value -> Hm Hnot. unfold Nbfmt.update_metadata.
    rewrite (wbind_step _ _ err value err)
      by (unfold Nbfmt.lift, eval; cbn; now rewrite Hm).
    apply wbind_raises. unfold Nbfmt.lift, eval.
    destruct value; cbn; try reflexivity. now destruct Hnot.
Qed.

Lemma update_metadata_returns_iff_witness :
  (exists data' err',
     Nbfmt.update_metadata false (PDict [("cells", PList [])]) None []
     = (Returns data', err'))
  /\ Nbfmt.update_metadata false (PDict [("metadata", PNone)]) None []
     = (Raises (AttributeError "'NoneType' object has no attribute 'get'"),
        []).
Proof.
  split.
  - apply (proj2 (proj1 (update_metadata_returns_iff false
                           (PDict [("cells", PList [])]) None []))).
    exists [("cells", PList [])], [], []. repeat split.
  - apply (proj2 (update_metadata_returns_iff false
                    (PDict [("metadata", PNone)]) None [])
             [("metadata", PNone)] PNone).
    + reflexivity.
    + reflexivity.
    + simpl. tauto.
Defined.

(** ** Deleting cells *)

Lemma py_getitem_returns v key value :
  eval (py_getitem v key) = Returns value -> py_field v key = Some value.
Proof.
  destruct v; try discriminate. unfold eval. cbn. unfold dict_getitem.
  destruct (dict_lookup items key); [now intros [= ->] | discriminate].
Qed.

Lemma py_getitem_field v key value err :
  py_field v key = Some value ->
  Nbfmt.lift (py_getitem v key) err = (Returns value, err).
Proof.
  destruct v; try discriminate. cbn [py_field]. intros H.
  unfold Nbfmt.lift, eval. cbn [py_getitem]. unfold dict_getitem.
  now rewrite H.
Qed.

Lemma py_field_dict v key value : py_field v key = Some value -> is_dict v.
Proof. destruct v; try discriminate. now intros _. Qed.

Lemma py_iter_message onfail onfail' v items :
  eval (py_iter onfail v) = Returns items ->
  eval (py_iter onfail' v) = Returns items.
Proof. destruct v; try discriminate; exact (fun H => H). Qed.

Lemma py_iter_iterable onfail v items :
  eval (py_iter onfail v) = Returns items -> iterable v = true.
Proof. destruct v; try discriminate; reflexivity. Qed.

Lemma has_iterable_source_dict cell :
  has_iterable_source cell = true -> is_dict cell.
Proof.
  unfold has_iterable_source.
  destruct (py_field cell "source") eqn:H; [|discriminate].
  intros _. exact (py_field_dict _ _ _ H).
Qed.

Lemma has_source_returns cell err keep err' :
  Nbfmt.has_source cell err = (Returns keep, err') ->
  keep = source_truthy cell /\ err' = err /\ has_iterable_source cell = true.
Proof.
  unfold Nbfmt.has_source. intros H.
  apply wbind_returns in H as (source & err1 & Hsrc & H).
  apply lift_returns in Hsrc as [Hsrc ->].
  apply py_getitem_returns in Hsrc.
  apply wbind_returns in H as (items & err1 & Hit & H).
  apply lift_returns in Hit as [Hit ->].
  injection H as <- <-. unfold source_truthy, has_iterable_source.
  rewrite Hsrc. rewrite (py_iter_message _ "" _ _ Hit).
  split; [reflexivity|]. split; [reflexivity|].
  exact (py_iter_iterable _ _ _ Hit).
Qed.

Lemma has_source_of cell err :
  has_iterable_source cell = true ->
  Nbfmt.has_source cell err = (Returns (source_truthy cell), err).
Proof.
  unfold has_iterable_source, source_truthy, Nbfmt.has_source.
  destruct (py_field cell "source") as [source|] eqn:Hs; [|discriminate].
  intros Hit. rewrite (wbind_step _ _ _ _ _ (py_getitem_field _ _ _ err Hs)).
  destruct source; try discriminate; reflexivity.
Qed.

Lemma nonempty_cells_returns cells : forall err kept err',
  Nbfmt.nonempty_cells cells err = (Returns kept, err') ->
  kept = List.filter source_truthy cells /\ err' = err
  /\ forallb has_iterable_source cells = true.
Proof.
  induction cells as [|cell cells IH]; intros err kept err' H.
  - injection H as <- <-. auto.
  - cbn [Nbfmt.nonempty_cells] in H.
    apply wbind_returns in H as (keep & err1 & Hkeep & H).
    apply has_source_returns in Hkeep as (-> & -> & Hd).
    apply wbind_returns in H as (rest & err1 & Hrest & H).
    apply IH in Hrest as (-> & -> & Hds).
    injection H as <- <-. cbn [List.filter forallb]. rewrite Hd, Hds.
    split; [now destruct (source_truthy cell)|]. auto.
Qed.

Lemma nonempty_cells_of cells err :
  forallb has_iterable_source cells = true ->
  Nbfmt.nonempty_cells cells err
  = (Returns (List.filter source_truthy cells), err).
Proof.
  induction cells as [|cell cells IH]; [reflexivity|].
  cbn [forallb]. intros [Hc Hcs]%andb_true_iff.
  cbn [Nbfmt.nonempty_cells List.filter].
  rewrite (wbind_step _ _ _ _ _ (has_source_of cell err Hc)).
  rewrite (wbind_step _ _ _ _ _ (IH Hcs)).
  now destruct (source_truthy cell).
Qed.

(** The first cell whose source cannot be read stops the first loop. *)
Lemma nonempty_cells_missing_source before cell after err :
  forallb has_iterable_source before = true ->
  is_dict cell -> py_field cell "source" = None ->
  Nbfmt.nonempty_cells (before ++ cell :: after) err
  = (Raises (KeyError "source"), err).
Proof.
  intros Hb Hd Hs. induction before as [|c before IH].
  - cbn [app Nbfmt.nonempty_cells]. apply wbind_raises.
    unfold Nbfmt.has_source. apply wbind_raises.
    destruct cell; try now destruct Hd. cbn [py_field] in Hs.
    unfold Nbfmt.lift, eval. cbn [py_getitem]. unfold dict_getitem.
    now rewrite Hs.
  - cbn [forallb] in Hb. apply andb_true_iff in Hb as [Hc Hb].
    cbn [app Nbfmt.nonempty_cells].
    rewrite (wbind_step _ _ _ _ _ (has_source_of c err Hc)).
    apply wbind_raises. exact (IH Hb).
Qed.

Lemma clear_outputs_returns acc cell err acc' err' :
  Nbfmt.clear_outputs acc cell err = (Returns acc', err') ->
  acc' = (fst acc || produces_outputs cell, snd acc ++ [without_outputs cell])
  /\ err' = err /\ has_cell_type cell = true.
Proof.
  unfold Nbfmt.clear_outputs. intros H.
  apply wbind_returns in H as (cell_type & err1 & Hct & H).
  apply lift_returns in Hct as [Hct ->].
  apply py_getitem_returns in Hct.
  unfold without_outputs, produces_outputs, has_cell_type. rewrite Hct.
  destruct (py_eq_str cell_type "code"); cbn [andb].
  - apply wbind_returns in H as (outputs & err1 & Hout & H).
    apply lift_returns in Hout as [Hout ->].
    destruct cell as [| | | | |items]; try discriminate.
    unfold eval in Hout. cbn in Hout. injection Hout as <-.
    cbn [py_field].
    destruct (dict_lookup items "outputs") as [outputs|]; cbn [py_truth] in *.
    + destruct (py_truth outputs).
      * injection H as <- <-. now rewrite orb_true_r.
      * injection H as <- <-. now rewrite orb_false_r.
    + injection H as <- <-. now rewrite orb_false_r.
  - injection H as <- <-. now rewrite orb_false_r.
Qed.

Lemma clear_outputs_of acc cell err :
  has_cell_type cell = true ->
  Nbfmt.clear_outputs acc cell err
  = (Returns (fst acc || produces_outputs cell,
              snd acc ++ [without_outputs cell]), err).
Proof.
  unfold has_cell_type, Nbfmt.clear_outputs, without_outputs,
    produces_outputs.
  destruct (py_field cell "cell_type") as [cell_type|] eqn:Hct;
    [|discriminate].
  intros _. rewrite (wbind_step _ _ _ _ _ (py_getitem_field _ _ _ err Hct)).
  destruct cell as [| | | | |items]; try discriminate. cbn [py_field].
  destruct (py_eq_str cell_type "code"); cbn [andb];
    [|now rewrite orb_false_r].
  unfold Nbfmt.wbind at 1. unfold Nbfmt.lift, eval. cbn [py_get ret fst].
  destruct (dict_lookup items "outputs") as [outputs|]; cbn [py_truth].
  - destruct (py_truth outputs);
      [now rewrite orb_true_r | now rewrite orb_false_r].
  - now rewrite orb_false_r.
Qed.

Lemma clear_loop_returns cells : forall acc err acc' err',
  Nbfmt.wfor_each cells Nbfmt.clear_outputs acc err = (Returns acc', err') ->
  acc' = (fst acc || existsb produces_outputs cells,
          snd acc ++ map without_outputs cells)
  /\ err' = err /\ forallb has_cell_type cells = true.
Proof.
  induction cells as [|cell cells IH]; intros acc err acc' err' H.
  - injection H as <- <-. cbn. rewrite orb_false_r, app_nil_r.
    now destruct acc.
  - cbn [Nbfmt.wfor_each] in H.
    apply wbind_returns in H as (acc1 & err1 & Hc & H).
    apply clear_outputs_returns in Hc as (-> & -> & Ht).
    apply IH in H as (-> & -> & Hts). cbn [fst snd existsb map forallb].
    rewrite Ht, Hts. now rewrite orb_assoc, <- app_assoc.
Qed.

Lemma clear_loop_of cells : forall acc err,
  forallb has_cell_type cells = true ->
  Nbfmt.wfor_each cells Nbfmt.clear_outputs acc err
  = (Returns (fst acc || existsb produces_outputs cells,
              snd acc ++ map without_outputs cells), err).
Proof.
  induction cells as [|cell cells IH]; intros acc err.
  - intros _. cbn. rewrite orb_false_r, app_nil_r. now destruct acc.
  - cbn [forallb]. intros [Hc Hcs]%andb_true_iff.
    cbn [Nbfmt.wfor_each].
    rewrite (wbind_step _ _ _ _ _ (clear_outputs_of acc cell err Hc)).
    rewrite (IH _ _ Hcs). cbn [fst snd existsb map].
    now rewrite orb_assoc, <- app_assoc.
Qed.

(** The first kept cell without a type stops the second loop. *)
Lemma clear_loop_missing_type before cell after : forall acc err,
  forallb has_cell_type before = true ->
  is_dict cell -> py_field cell "cell_type" = None ->
  Nbfmt.wfor_each (before ++ cell :: after) Nbfmt.clear_outputs acc err
  = (Raises (KeyError "cell_type"), err).
Proof.
  intros acc err Hb Hd Hs. revert acc.
  induction before as [|c before IH]; intros acc.
  - cbn [app Nbfmt.wfor_each]. apply wbind_raises.
    unfold Nbfmt.clear_outputs. apply wbind_raises.
    destruct cell; try now destruct Hd. cbn [py_field] in Hs.
    unfold Nbfmt.lift, eval. cbn [py_getitem]. unfold dict_getitem.
    now rewrite Hs.
  - cbn [forallb] in Hb. apply andb_true_iff in Hb as [Hc Hb].
    cbn [app Nbfmt.wfor_each].
    rewrite (wbind_step _ _ _ _ _ (clear_outputs_of acc c err Hc)).
    exact (IH Hb _).
Qed.

(** [delete_cells] up to its second loop. *)
Lemma delete_cells_unfold preserve_outputs items cells err :
  dict_lookup items "cells" = Some (PList cells) ->
  forallb has_iterable_source cells = true ->
  Nbfmt.delete_cells preserve_outputs (PDict items) err
  = if preserve_outputs
    then (Returns (PDict (dict_set items "cells"
                            (PList (List.filter source_truthy cells)))), err)
    else
      Nbfmt.wbind
        (Nbfmt.wfor_each (List.filter source_truthy cells)
           Nbfmt.clear_outputs (false, []))
        (fun acc =>
           Nbfmt.wbind
             (Nbfmt.py_setitem
                (PDict (dict_set items "cells"
                          (PList (List.filter source_truthy cells))))
                "cells" (PList (snd acc)))
             (fun data =>
                if fst acc
                then Nbfmt.wbind
                       (Nbfmt.warn "Removed the existing output cells.")
                       (fun _ => Nbfmt.wret data)
                else Nbfmt.wret data))
        err.
Proof.
  intros Hcells Hsrc. unfold Nbfmt.delete_cells.
  rewrite (wbind_step _ _ _ _ _
             (py_getitem_field (PDict items) "cells" _ err Hcells)).
  rewrite (wbind_step _ _ err cells err eq_refl).
  rewrite (wbind_step _ _ _ _ _ (nonempty_cells_of cells err Hsrc)).
  rewrite (wbind_step _ _ err
             (PDict (dict_set items "cells"
                       (PList (List.filter source_truthy cells)))) err
             eq_refl).
  destruct preserve_outputs; cbn [negb]; [reflexivity|].
  rewrite (wbind_step _ _ err
             (PList (List.filter source_truthy cells)) err)
    by (apply py_getitem_field; cbn [py_field];
        apply dict_lookup_set_eq).
  now rewrite (wbind_step _ _ err (List.filter source_truthy cells) err
                 eq_refl).
Qed.

Lemma delete_cells_of_deletable preserve_outputs items cells err :
  dict_lookup items "cells" = Some (PList cells) ->
  deletable preserve_outputs cells = true ->
  Nbfmt.delete_cells preserve_outputs (PDict items) err
  = (Returns (PDict (dict_set items "cells"
                       (PList (remaining_cells preserve_outputs cells)))),
     err ++ outputs_warning preserve_outputs cells).
Proof.
  intros Hcells [Hsrc Hty]%andb_true_iff.
  rewrite (delete_cells_unfold _ _ _ _ Hcells Hsrc).
  unfold remaining_cells, outputs_warning.
  destruct preserve_outputs; cbn [negb andb orb] in *;
    [now rewrite app_nil_r|].
  rewrite (wbind_step _ _ _ _ _ (clear_loop_of _ (false, []) err Hty)).
  cbn [fst snd orb app].
  rewrite (wbind_step _ _ err
             (PDict (dict_set
                       (dict_set items "cells"
                          (PList (List.filter source_truthy cells)))
                       "cells"
                       (PList (map without_outputs
                                 (List.filter source_truthy cells))))) err
             eq_refl).
  rewrite dict_set_set.
  destruct (existsb produces_outputs (List.filter source_truthy cells));
    [reflexivity | now rewrite app_nil_r].
Qed.

Lemma delete_cells_inv preserve_outputs data err data' err' cells :
  Nbfmt.delete_cells preserve_outputs data err = (Returns data', err') ->
  notebook_cells data = Some cells ->
  exists items,
    data = PDict items
    /\ dict_lookup items "cells" = Some (PList cells)
    /\ deletable preserve_outputs cells = true
    /\ data' = PDict (dict_set items "cells"
                        (PList (remaining_cells preserve_outputs cells)))
    /\ err' = err ++ outputs_warning preserve_outputs cells.
Proof.
  intros H Hcells.
  destruct data as [| | | | |items]; try discriminate.
  exists items. split; [reflexivity|].
  assert (Hlook : dict_lookup items "cells" = Some (PList cells)).
  { cbn in Hcells.
    destruct (dict_lookup items "cells") as [[| | | |l|]|];
      try discriminate. now injection Hcells as ->. }
  split; [exact Hlook|].
  assert (Hsrc : forallb has_iterable_source cells = true).
  { unfold Nbfmt.delete_cells in H.
    rewrite (wbind_step _ _ _ _ _
               (py_getitem_field (PDict items) "cells" _ err Hlook)) in H.
    rewrite (wbind_step _ _ err cells err eq_refl) in H.
    apply wbind_returns in H as (kept & err1 & Hkept & _).
    now apply nonempty_cells_returns in Hkept as (_ & _ & Hd). }
  assert (Hdel : deletable preserve_outputs cells = true).
  { unfold deletable. rewrite Hsrc. cbn [andb].
    rewrite (delete_cells_unfold _ _ _ _ Hlook Hsrc) in H.
    destruct preserve_outputs; [reflexivity|]. cbn [orb].
    apply wbind_returns in H as (acc & err1 & Hloop & _).
    now apply clear_loop_returns in Hloop as (_ & _ & Hty). }
  split; [exact Hdel|].
  rewrite (delete_cells_of_deletable _ _ _ _ Hlook Hdel) in H.
  now injection H as <- <-.
Qed.

Lemma notebook_cells_set items cells :
  notebook_cells (PDict (dict_set items "cells" (PList cells))) = Some cells.
Proof. cbn [notebook_cells]. now rewrite dict_lookup_set_eq. Qed.

Lemma notebook_cells_lookup items cells :
  notebook_cells (PDict items) = Some cells ->
  dict_lookup items "cells" = Some (PList cells).
Proof.
  cbn [notebook_cells].
  destruct (dict_lookup items "cells") as [[| | | |l|]|]; try discriminate.
  now intros [= ->].
Qed.

Lemma without_outputs_same cell : same_but_outputs cell (without_outputs cell).
Proof.
  intros key Hcount Hout. unfold without_outputs.
  destruct (produces_outputs cell); [|reflexivity].
  destruct cell; try reflexivity. cbn [cleared py_field].
  rewrite dict_lookup_set_ne by congruence.
  now rewrite dict_lookup_set_ne by congruence.
Qed.

Lemma source_truthy_without_outputs cell :
  source_truthy (without_outputs cell) = source_truthy cell.
Proof.
  unfold source_truthy.
  now rewrite (without_outputs_same cell "source") by discriminate.
Qed.

Lemma has_iterable_source_without_outputs cell :
  has_iterable_source (without_outputs cell) = has_iterable_source cell.
Proof.
  unfold has_iterable_source.
  now rewrite (without_outputs_same cell "source") by discriminate.
Qed.

Lemma has_cell_type_without_outputs cell :
  has_cell_type (without_outputs cell) = has_cell_type cell.
Proof.
  unfold has_cell_type.
  now rewrite (without_outputs_same cell "cell_type") by discriminate.
Qed.

Lemma produces_outputs_without_outputs cell :
  produces_outputs (without_outputs cell) = false.
Proof.
  unfold without_outputs. destruct (produces_outputs cell) eqn:H; [|exact H].
  destruct cell; try (cbn in H; discriminate H).
  unfold produces_outputs, cleared.
  cbn [py_field]. rewrite dict_lookup_set_eq. cbn [py_truth].
  apply andb_false_r.
Qed.

Lemma without_outputs_fixed cell :
  produces_outputs cell = false -> without_outputs cell = cell.
Proof. unfold without_outputs. now intros ->. Qed.

Lemma forallb_filter_self {X} (f : X -> bool) l :
  forallb f (List.filter f l) = true.
Proof.
  apply forallb_forall. intros x Hx. now apply filter_In in Hx.
Qed.

Lemma forallb_filter_of {X} (f g : X -> bool) l :
  forallb f l = true -> forallb f (List.filter g l) = true.
Proof.
  rewrite !forallb_forall. intros H x Hx. apply H.
  now apply filter_In in Hx.
Qed.

Lemma forallb_map_eq {X} (f : X -> bool) (g : X -> X) l :
  (forall x, f (g x) = f x) -> forallb f (map g l) = forallb f l.
Proof.
  intros H. induction l as [|x l IH]; [reflexivity|].
  cbn [map forallb]. now rewrite H, IH.
Qed.

Lemma existsb_none {X} (f : X -> bool) l :
  (forall x, In x l -> f x = false) -> existsb f l = false.
Proof.
  induction l as [|x l IH]; intros H; [reflexivity|]. cbn [existsb].
  rewrite (H x) by now left. apply IH. intros y Hy. apply H. now right.
Qed.

Lemma map_fixed {X} (g : X -> X) l :
  (forall x, In x l -> g x = x) -> map g l = l.
Proof.
  induction l as [|x l IH]; intros H; [reflexivity|]. cbn [map].
  rewrite (H x) by now left. f_equal. apply IH. intros y Hy. apply H.
  now right.
Qed.

(** What the cells [delete_cells] leaves have in common. *)
Lemma remaining_cells_spec preserve_outputs cells cell :
  In cell (remaining_cells preserve_outputs cells) ->
  source_truthy cell = true
  /\ (preserve_outputs = false -> produces_outputs cell = false).
Proof.
  unfold remaining_cells. destruct preserve_outputs.
  - intros [_ H]%filter_In. split; [exact H | discriminate].
  - intros (c & <- & [_ H]%filter_In)%in_map_iff.
    rewrite source_truthy_without_outputs.
    split; [exact H|]. intros _. apply produces_outputs_without_outputs.
Qed.

Lemma remaining_cells_again preserve_outputs cells :
  remaining_cells preserve_outputs (remaining_cells preserve_outputs cells)
  = remaining_cells preserve_outputs cells.
Proof.
  assert (Hf : List.filter source_truthy
                 (remaining_cells preserve_outputs cells)
               = remaining_cells preserve_outputs cells).
  { apply filter_all. intros cell Hin.
    now apply remaining_cells_spec in Hin as [H _]. }
  unfold remaining_cells at 1. rewrite Hf.
  destruct preserve_outputs eqn:Hp; [reflexivity|].
  apply map_fixed. intros cell Hin. apply without_outputs_fixed.
  apply remaining_cells_spec in Hin as [_ H]. now apply H.
Qed.

Lemma remaining_cells_deletable preserve_outputs cells :
  deletable preserve_outputs cells = true ->
  deletable preserve_outputs (remaining_cells preserve_outputs cells) = true.
Proof.
  intros [Hsrc Hty]%andb_true_iff. unfold deletable.
  assert (Hf : List.filter source_truthy
                 (remaining_cells preserve_outputs cells)
               = remaining_cells preserve_outputs cells).
  { apply filter_all. intros cell Hin.
    now apply remaining_cells_spec in Hin as [H _]. }
  rewrite Hf. unfold remaining_cells.
  destruct preserve_outputs; cbn [orb] in *.
  - rewrite andb_true_r. now apply forallb_filter_of.
  - rewrite !forallb_map_eq
      by auto using has_iterable_source_without_outputs,
           has_cell_type_without_outputs.
    rewrite Hty, andb_true_r. now apply forallb_filter_of.
Qed.

Lemma remaining_cells_warning preserve_outputs cells :
  outputs_warning preserve_outputs (remaining_cells preserve_outputs cells)
  = [].
Proof.
  unfold outputs_warning.
  destruct preserve_outputs eqn:Hp; [reflexivity|]. cbn [negb andb].
  rewrite existsb_none; [reflexivity|].
  intros cell [Hin _]%filter_In.
  apply remaining_cells_spec in Hin as [_ H]. now apply H.
Qed.

Lemma remaining_cells_same preserve_outputs cells :
  Forall2 same_but_outputs (List.filter source_truthy cells)
    (remaining_cells preserve_outputs cells).
Proof.
  unfold remaining_cells.
  induction (List.filter source_truthy cells) as [|cell l IH];
    destruct preserve_outputs; cbn [map]; constructor; auto.
  - now intros key _ _.
  - apply without_outputs_same.
Qed.

(** X17: if [delete_cells] returns on a notebook with a list of cells, the
    notebook's cells are those that have a truthy item in their source, in
    their order, the code cells with outputs among them cleared unless
    outputs are preserved; the other keys of the notebook and the order of
    its keys are those of before; the one warning is written if outputs are
    not preserved and some kept code cell had outputs, and nothing is
    written otherwise. *)
Theorem delete_cells_result preserve_outputs data err data' err' cells :
  Nbfmt.delete_cells preserve_outputs data err = (Returns data', err') ->
  notebook_cells data = Some cells ->
  notebook_cells data' = Some (remaining_cells preserve_outputs cells)
  /\ (forall key, key <> "cells" -> py_field data' key = py_field data key)
  /\ (exists items items',
        data = PDict items /\ data' = PDict items'
        /\ keys items' = keys items)
  /\ err' = err ++ outputs_warning preserve_outputs cells.
Proof.
  intros H Hcells.
  destruct (delete_cells_inv _ _ _ _ _ _ H Hcells)
    as (items & -> & Hlook & _ & -> & ->).
  split; [apply notebook_cells_set|].
  split; [intros key Hkey; cbn [py_field];
          apply dict_lookup_set_ne; congruence|].
  split; [|reflexivity].
  exists items, (dict_set items "cells"
                   (PList (remaining_cells preserve_outputs cells))).
  split; [reflexivity|]. split; [reflexivity|].
  exact (dict_set_keys_present _ _ _ _ Hlook).
Qed.

Lemma delete_cells_result_witness :
  let data' :=
    PDict [("nbformat", PInt 4);
           ("cells",
            PList [FmtSamples.title_cell;
                   PDict [("cell_type", PStr "code");
                          ("execution_count", PInt 0);
                          ("source", PList [PStr "print(1)"]);
                          ("outputs", PList [])];
                   FmtSamples.license_cell]);
           ("metadata",
            PDict [("kernelspec", PStr "python3");
                   ("colab", PDict [("collapsed_sections", PList [])])])] in
  Nbfmt.delete_cells false FmtSamples.notebook [] = (Returns data', [" " +:+ LinterStatus.ESC +:+ "[33m Removed the existing output cells." +:+ LinterStatus.ESC +:+ "[00m" +:+ LinterStatus.NL])
  /\ notebook_cells data'
     = Some (remaining_cells false FmtSamples.cells).
Proof.
  intros data'. split; [vm_compute; reflexivity|].
  apply (delete_cells_result false FmtSamples.notebook [] data'
           [" " +:+ LinterStatus.ESC +:+ "[33m Removed the existing output cells." +:+ LinterStatus.ESC +:+ "[00m" +:+ LinterStatus.NL]
           FmtSamples.cells).
  - vm_compute. reflexivity.
  - reflexivity.
Defined.

(** X18: in the notebook [delete_cells] returns every cell has a truthy item
    in its source and, unless outputs are preserved, no code cell has
    outputs; each cell is a cell of before, in the order of before, changed
    at most under ["execution_count"] and ["outputs"]. *)
Theorem delete_cells_postcondition preserve_outputs data err data' err' cells
    cells' :
  Nbfmt.delete_cells preserve_outputs data err = (Returns data', err') ->
  notebook_cells data = Some cells ->
  notebook_cells data' = Some cells' ->
  Forall (fun cell =>
            source_truthy cell = true
            /\ (preserve_outputs = false -> produces_outputs cell = false))
    cells'
  /\ Forall2 same_but_outputs (List.filter source_truthy cells) cells'
  /\ (preserve_outputs = true -> cells' = List.filter source_truthy cells).
Proof.
  intros H Hcells Hcells'.
  destruct (delete_cells_inv _ _ _ _ _ _ H Hcells)
    as (items & -> & Hlook & _ & -> & ->).
  rewrite notebook_cells_set in Hcells'. injection Hcells' as <-.
  split; [|split].
  - apply List.Forall_forall. intros cell Hin.
    exact (remaining_cells_spec _ _ _ Hin).
  - apply remaining_cells_same.
  - now intros ->.
Qed.

Lemma delete_cells_postcondition_witness :
  Forall (fun cell =>
            source_truthy cell = true
            /\ (false = false -> produces_outputs cell = false))
    (remaining_cells false FmtSamples.cells)
  /\ Forall2 same_but_outputs
       (List.filter source_truthy FmtSamples.cells)
       (remaining_cells false FmtSamples.cells)
  /\ (false = true ->
      remaining_cells false FmtSamples.cells
      = List.filter source_truthy FmtSamples.cells).
Proof.
  apply (delete_cells_postcondition false FmtSamples.notebook []
           (FmtSamples.value_of PNone
              (Nbfmt.delete_cells false FmtSamples.notebook []))
           (snd (Nbfmt.delete_cells false FmtSamples.notebook []))
           FmtSamples.cells).
  - vm_compute. reflexivity.
  - reflexivity.
  - vm_compute. reflexivity.
Defined.

(** X19: [delete_cells] is idempotent: applied to a notebook it has
    returned, with the same flag, it returns the notebook unchanged and
    writes nothing. *)
Theorem delete_cells_idempotent preserve_outputs data err data' err' cells :
  Nbfmt.delete_cells preserve_outputs data err = (Returns data', err') ->
  notebook_cells data = Some cells ->
  Nbfmt.delete_cells preserve_outputs data' err' = (Returns data', err').
Proof.
  intros H Hcells.
  destruct (delete_cells_inv _ _ _ _ _ _ H Hcells)
    as (items & -> & Hlook & Hdel & -> & ->).
  rewrite (delete_cells_of_deletable preserve_outputs _
             (remaining_cells preserve_outputs cells))
    by (apply dict_lookup_set_eq || now apply remaining_cells_deletable).
  now rewrite dict_set_set, remaining_cells_again, remaining_cells_warning,
    app_nil_r.
Qed.

Lemma delete_cells_idempotent_witness :
  let data' :=
    FmtSamples.value_of PNone
      (Nbfmt.delete_cells false FmtSamples.notebook []) in
  let err' := snd (Nbfmt.delete_cells false FmtSamples.notebook []) in
  Nbfmt.delete_cells false data' err' = (Returns data', err').
Proof.
  intros data' err'.
  apply (delete_cells_idempotent false FmtSamples.notebook [] data' err'
           FmtSamples.cells).
  - vm_compute. reflexivity.
  - reflexivity.
Defined.

(** X20: on a notebook with a list of cells, [delete_cells] returns exactly
    when every cell is a dict with a ["source"] that can be iterated and,
    unless outputs are preserved, every cell it keeps has a ["cell_type"].
    The first cell without a ["source"] raises [KeyError]; so does the
    first kept cell without a ["cell_type"], and then the warning about
    removed outputs is not written, whatever was cleared before. *)
Theorem delete_cells_returns_iff preserve_outputs data err cells :
  notebook_cells data = Some cells ->
  ((exists data' err',
      Nbfmt.delete_cells preserve_outputs data err = (Returns data', err'))
   <-> deletable preserve_outputs cells = true)
  /\ (forall before cell after,
        cells = before ++ cell :: after ->
        forallb has_iterable_source before = true ->
        is_dict cell -> py_field cell "source" = None ->
        Nbfmt.delete_cells preserve_outputs data err
        = (Raises (KeyError "source"), err))
  /\ (forall before cell after,
        preserve_outputs = false ->
        forallb has_iterable_source cells = true ->
        List.filter source_truthy cells = before ++ cell :: after ->
        forallb has_cell_type before = true ->
        py_field cell "cell_type" = None ->
        Nbfmt.delete_cells preserve_outputs data err
        = (Raises (KeyError "cell_type"), err)).
Proof.
  intros Hcells.
  destruct data as [| | | | |items]; try discriminate.
  pose proof (notebook_cells_lookup _ _ Hcells) as Hlook.
  split; [split|split].
  - intros (data' & err' & H).
    now destruct (delete_cells_inv _ _ _ _ _ _ H Hcells)
      as (items' & _ & _ & Hdel & _).
  - intros Hdel. rewrite (delete_cells_of_deletable _ _ _ _ Hlook Hdel).
    eauto.
  - intros before cell after -> Hb Hd Hs. unfold Nbfmt.delete_cells.
    rewrite (wbind_step _ _ _ _ _
               (py_getitem_field (PDict items) "cells" _ err Hlook)).
    rewrite (wbind_step _ _ err (before ++ cell :: after) err eq_refl).
    apply wbind_raises.
    exact (nonempty_cells_missing_source _ _ _ _ Hb Hd Hs).
  - intros before cell after -> Hsrc Hkept Hb Hs.
    rewrite (delete_cells_unfold _ _ _ _ Hlook Hsrc).
    apply wbind_raises. rewrite Hkept.
    apply clear_loop_missing_type; [exact Hb | | exact Hs].
    apply has_iterable_source_dict.
    apply (proj1 (forallb_forall _ _) Hsrc).
    assert (Hin : In cell (List.filter source_truthy cells))
      by (rewrite Hkept; apply in_elt).
    now apply filter_In in Hin.
Qed.

Lemma delete_cells_returns_iff_witness :
  (exists data' err',
     Nbfmt.delete_cells false FmtSamples.notebook [] = (Returns data', err'))
  /\ Nbfmt.delete_cells true
       (PDict [("cells", PList [FmtSamples.run_cell; PDict []])]) []
     = (Raises (KeyError "source"), [])
  /\ Nbfmt.delete_cells false
       (PDict [("cells",
                PList [FmtSamples.run_cell;
                       PDict [("source", PStr "x = 1")]])]) []
     = (Raises (KeyError "cell_type"), []).
Proof.
  split; [|split].
  - apply (proj2 (proj1 (delete_cells_returns_iff false FmtSamples.notebook
                           [] FmtSamples.cells eq_refl))).
    vm_compute. reflexivity.
  - apply (proj1 (proj2 (delete_cells_returns_iff true
                           (PDict [("cells",
                                    PList [FmtSamples.run_cell; PDict []])])
                           [] [FmtSamples.run_cell; PDict []] eq_refl))
             [FmtSamples.run_cell] (PDict []) []).
    + reflexivity.
    + vm_compute. reflexivity.
    + simpl. exact I.
    + reflexivity.
  - apply (proj2 (proj2 (delete_cells_returns_iff false
                           (PDict [("cells",
                                    PList [FmtSamples.run_cell;
                                           PDict [("source", PStr "x = 1")]])])
                           []
                           [FmtSamples.run_cell;
                            PDict [("source", PStr "x = 1")]] eq_refl))
             [FmtSamples.run_cell] (PDict [("source", PStr "x = 1")]) []).
    + reflexivity.
    + vm_compute. reflexivity.
    + vm_compute. reflexivity.
    + vm_compute. reflexivity.
    + reflexivity.
Defined.

(** ** The license header *)

Lemma cell_source_joins cell :
  joins cell = true ->
  eval (Linter.cell_source cell) = Returns (cell_text cell).
Proof.
  unfold joins, cell_text.
  now destruct (eval (Linter.cell_source cell)).
Qed.

Lemma cell_source_returns cell source :
  eval (Linter.cell_source cell) = Returns source ->
  joins cell = true /\ cell_text cell = source.
Proof. unfold joins, cell_text. now intros ->. Qed.

Lemma cell_source_field cell cell' :
  py_field cell' "source" = py_field cell "source" ->
  is_dict cell -> is_dict cell' ->
  eval (Linter.cell_source cell') = eval (Linter.cell_source cell).
Proof.
  destruct cell as [| | | | |items]; try (now intros _ []).
  destruct cell' as [| | | | |items']; try (now intros _ _ []).
  cbn [py_field]. intros H _ _.
  unfold Linter.cell_source, eval, bind. cbn [py_getitem].
  unfold dict_getitem. now rewrite H.
Qed.

Lemma as_form_source cell :
  eval (Linter.cell_source (as_form cell)) = eval (Linter.cell_source cell).
Proof.
  destruct cell as [| | | | |items]; try reflexivity. cbn [as_form].
  destruct (dict_or_empty items "metadata"); [|reflexivity].
  apply cell_source_field; cbn [py_field is_dict]; auto.
  apply dict_lookup_set_ne. discriminate.
Qed.

Lemma marked_source cell :
  eval (Linter.cell_source (marked cell)) = eval (Linter.cell_source cell).
Proof.
  unfold marked. destruct (has_header cell); [apply as_form_source|].
  reflexivity.
Qed.

Lemma has_header_marked cell : has_header (marked cell) = has_header cell.
Proof. unfold has_header, cell_text. now rewrite marked_source. Qed.

Lemma joins_marked cell : joins (marked cell) = joins cell.
Proof. unfold joins. now rewrite marked_source. Qed.

Lemma as_form_again cell : as_form (as_form cell) = as_form cell.
Proof.
  destruct cell as [| | | | |items]; try reflexivity. cbn [as_form].
  destruct (dict_or_empty items "metadata") as [metadata|] eqn:Hm.
  - cbn [as_form]. rewrite dict_or_empty_set.
    now rewrite !dict_set_set.
  - cbn [as_form]. now rewrite Hm.
Qed.

Lemma marked_again cell : marked (marked cell) = marked cell.
Proof.
  unfold marked at 1. rewrite has_header_marked. unfold marked.
  destruct (has_header cell); [apply as_form_again | reflexivity].
Qed.

Lemma metadata_ok_marked cell : metadata_ok (marked cell) = metadata_ok cell.
Proof.
  unfold marked. destruct (has_header cell); [|reflexivity].
  destruct cell as [| | | | |items]; try reflexivity.
  cbn [as_form metadata_ok].
  destruct (dict_or_empty items "metadata") as [metadata|] eqn:Hm.
  - cbn [metadata_ok]. now rewrite dict_or_empty_set.
  - cbn [metadata_ok]. now rewrite Hm.
Qed.

Lemma markable_marked cell : markable (marked cell) = markable cell.
Proof.
  unfold markable.
  now rewrite joins_marked, has_header_marked, metadata_ok_marked.
Qed.

Lemma mark_license_of acc cell err :
  markable cell = true ->
  Nbfmt.mark_license acc cell err
  = (Returns (fst acc || has_header cell, snd acc ++ [marked cell]), err).
Proof.
  unfold markable. intros [Hj Hm]%andb_true_iff.
  unfold Nbfmt.mark_license.
  rewrite (wbind_step _ _ err (cell_text cell) err)
    by (unfold Nbfmt.lift; now rewrite (cell_source_joins _ Hj)).
  change (str_contains Nbfmt.license_header (cell_text cell))
    with (has_header cell).
  unfold marked. destruct (has_header cell); cbn [negb orb] in Hm;
    [|now rewrite orb_false_r].
  destruct cell as [| | | | |items]; try discriminate.
  cbn [metadata_ok as_form] in *.
  destruct (dict_or_empty items "metadata") as [metadata|] eqn:Hd;
    [|discriminate].
  rewrite (wbind_step _ _ err (PDict metadata) err).
  2: { unfold Nbfmt.lift, eval, dict_or_empty in *. cbn.
       destruct (dict_lookup items "metadata") as [[| | | | |m]|];
         try discriminate; now injection Hd as <-. }
  rewrite orb_true_r. reflexivity.
Qed.

Lemma mark_license_returns acc cell err acc' err' :
  Nbfmt.mark_license acc cell err = (Returns acc', err') ->
  acc' = (fst acc || has_header cell, snd acc ++ [marked cell])
  /\ err' = err /\ markable cell = true.
Proof.
  intros H.
  assert (Hm : markable cell = true).
  { unfold Nbfmt.mark_license in H.
    apply wbind_returns in H as (source & err1 & Hsrc & H).
    apply lift_returns in Hsrc as [Hsrc ->].
    apply cell_source_returns in Hsrc as [Hj <-].
    unfold markable. rewrite Hj. cbn [andb].
    change (str_contains Nbfmt.license_header (cell_text cell))
      with (has_header cell) in H.
    destruct (has_header cell); [|reflexivity]. cbn [negb orb].
    apply wbind_returns in H as (metadata & err1 & Hget & H).
    apply lift_returns in Hget as [Hget ->].
    destruct cell as [| | | | |items]; try discriminate.
    unfold eval in Hget. cbn in Hget. injection Hget as <-.
    apply wbind_returns in H as (metadata' & err1 & Hset & _).
    cbn [metadata_ok]. unfold dict_or_empty.
    destruct (dict_lookup items "metadata") as [[| | | | |m]|];
      try discriminate; reflexivity. }
  rewrite (mark_license_of _ _ _ Hm) in H. now injection H as <- <-.
Qed.

Lemma mark_loop_of cells : forall acc err,
  forallb markable cells = true ->
  Nbfmt.wfor_each cells Nbfmt.mark_license acc err
  = (Returns (fst acc || existsb has_header cells,
              snd acc ++ map marked cells), err).
Proof.
  induction cells as [|cell cells IH]; intros acc err.
  - intros _. cbn. rewrite orb_false_r, app_nil_r. now destruct acc.
  - cbn [forallb]. intros [Hc Hcs]%andb_true_iff.
    cbn [Nbfmt.wfor_each].
    rewrite (wbind_step _ _ _ _ _ (mark_license_of acc cell err Hc)).
    rewrite (IH _ _ Hcs). cbn [fst snd existsb map].
    now rewrite orb_assoc, <- app_assoc.
Qed.

Lemma mark_loop_returns cells : forall acc err acc' err',
  Nbfmt.wfor_each cells Nbfmt.mark_license acc err = (Returns acc', err') ->
  forallb markable cells = true.
Proof.
  induction cells as [|cell cells IH]; intros acc err acc' err' H;
    [reflexivity|].
  cbn [Nbfmt.wfor_each] in H.
  apply wbind_returns in H as (acc1 & err1 & Hc & H).
  apply mark_license_returns in Hc as (_ & _ & Hm).
  cbn [forallb]. rewrite Hm. exact (IH _ _ _ _ H).
Qed.

Lemma has_license_of_markable items cells err :
  dict_lookup items "cells" = Some (PList cells) ->
  forallb markable cells = true ->
  Nbfmt.has_license_and_update (PDict items) err
  = (Returns (existsb has_header cells,
              PDict (dict_set items "cells" (PList (map marked cells)))),
     err ++ license_warning (existsb has_header cells)).
Proof.
  intros Hlook Hm. unfold Nbfmt.has_license_and_update.
  rewrite (wbind_step _ _ _ _ _
             (py_getitem_field (PDict items) "cells" _ err Hlook)).
  rewrite (wbind_step _ _ err cells err eq_refl).
  rewrite (wbind_step _ _ _ _ _ (mark_loop_of _ (false, []) err Hm)).
  cbn [fst snd orb app].
  rewrite (wbind_step _ _ err
             (PDict (dict_set items "cells" (PList (map marked cells)))) err
             eq_refl).
  destruct (existsb has_header cells); cbn [negb license_warning];
    [now rewrite app_nil_r | reflexivity].
Qed.

Lemma has_license_inv data err b data' err' cells :
  Nbfmt.has_license_and_update data err = (Returns (b, data'), err') ->
  notebook_cells data = Some cells ->
  exists items,
    data = PDict items
    /\ dict_lookup items "cells" = Some (PList cells)
    /\ forallb markable cells = true
    /\ b = existsb has_header cells
    /\ data' = PDict (dict_set items "cells" (PList (map marked cells)))
    /\ err' = err ++ license_warning b.
Proof.
  intros H Hcells.
  destruct data as [| | | | |items]; try discriminate.
  exists items. split; [reflexivity|].
  pose proof (notebook_cells_lookup _ _ Hcells) as Hlook.
  split; [exact Hlook|].
  assert (Hm : forallb markable cells = true).
  { unfold Nbfmt.has_license_and_update in H.
    rewrite (wbind_step _ _ _ _ _
               (py_getitem_field (PDict items) "cells" _ err Hlook)) in H.
    rewrite (wbind_step _ _ err cells err eq_refl) in H.
    apply wbind_returns in H as (acc & err1 & Hloop & _).
    exact (mark_loop_returns _ _ _ _ _ Hloop). }
  split; [exact Hm|].
  rewrite (has_license_of_markable _ _ _ Hlook Hm) in H.
  now injection H as <- <- <-.
Qed.

Lemma existsb_map_eq {X} (f : X -> bool) (g : X -> X) l :
  (forall x, f (g x) = f x) -> existsb f (map g l) = existsb f l.
Proof.
  intros H. induction l as [|x l IH]; [reflexivity|].
  cbn [map existsb]. now rewrite H, IH.
Qed.

Lemma marked_same cell :
  markable cell = true -> same_but_view cell (marked cell).
Proof.
  unfold markable, marked. intros [_ Hm]%andb_true_iff.
  destruct (has_header cell); cbn [negb orb] in Hm.
  2: { split; reflexivity. }
  destruct cell as [| | | | |items]; try discriminate.
  cbn [metadata_ok as_form] in *.
  destruct (dict_or_empty items "metadata") as [metadata|] eqn:Hd;
    [|discriminate].
  split.
  - intros key Hkey. cbn [py_field]. apply dict_lookup_set_ne. congruence.
  - intros key Hkey. unfold metadata_field. cbn [py_field].
    rewrite dict_lookup_set_eq. cbn [py_field].
    rewrite dict_lookup_set_ne by congruence.
    unfold dict_or_empty in Hd.
    destruct (dict_lookup items "metadata") as [[| | | | |m]|];
      try discriminate; now injection Hd as <-.
Qed.

Lemma marked_form cell :
  markable cell = true -> has_header cell = true ->
  shown_as_form (marked cell).
Proof.
  unfold markable, marked. intros [_ Hm]%andb_true_iff Hh.
  rewrite Hh in *. cbn [negb orb] in Hm.
  destruct cell as [| | | | |items]; try discriminate.
  cbn [metadata_ok as_form] in *.
  destruct (dict_or_empty items "metadata") as [metadata|] eqn:Hd;
    [|discriminate].
  exists (dict_set metadata "cellView" (PStr "form")). cbn [py_field].
  split; apply dict_lookup_set_eq.
Qed.

(** X21: if [has_license_and_update] returns on a notebook with a list of
    cells, it returns whether the joined source of some cell holds the
    license header; it writes the missing-license warning exactly when it
    returns [False]; the keys of the notebook other than ["cells"] and the
    order of its keys are those of before. *)
Theorem has_license_and_update_result data err b data' err' cells :
  Nbfmt.has_license_and_update data err = (Returns (b, data'), err') ->
  notebook_cells data = Some cells ->
  b = existsb has_header cells
  /\ err' = err ++ license_warning b
  /\ (forall key, key <> "cells" -> py_field data' key = py_field data key)
  /\ exists items items',
       data = PDict items /\ data' = PDict items'
       /\ keys items' = keys items.
Proof.
  intros H Hcells.
  destruct (has_license_inv _ _ _ _ _ _ H Hcells)
    as (items & -> & Hlook & _ & -> & -> & ->).
  split; [reflexivity|]. split; [reflexivity|].
  split; [intros key Hkey; cbn [py_field];
          apply dict_lookup_set_ne; congruence|].
  exists items, (dict_set items "cells" (PList (map marked cells))).
  split; [reflexivity|]. split; [reflexivity|].
  exact (dict_set_keys_present _ _ _ _ Hlook).
Qed.

Lemma has_license_and_update_result_witness :
  true = existsb has_header FmtSamples.cells
  /\ snd (Nbfmt.has_license_and_update FmtSamples.notebook [])
     = [] ++ license_warning true
  /\ (forall key,
        key <> "cells" ->
        py_field
          (snd (FmtSamples.value_of (false, PNone)
                  (Nbfmt.has_license_and_update FmtSamples.notebook [])))
          key
        = py_field FmtSamples.notebook key)
  /\ exists items items',
       FmtSamples.notebook = PDict items
       /\ snd (FmtSamples.value_of (false, PNone)
                 (Nbfmt.has_license_and_update FmtSamples.notebook []))
          = PDict items'
       /\ keys items' = keys items.
Proof.
  apply (has_license_and_update_result FmtSamples.notebook [] true
           (snd (FmtSamples.value_of (false, PNone)
                   (Nbfmt.has_license_and_update FmtSamples.notebook [])))
           (snd (Nbfmt.has_license_and_update FmtSamples.notebook []))
           FmtSamples.cells).
  - vm_compute. reflexivity.
  - reflexivity.
Defined.

(** X22: in the notebook [has_license_and_update] returns, the cells are
    those of before, position by position; a cell whose joined source holds
    the license header shows as a form and differs from the cell of before
    at most under ["cellView"] of its ["metadata"]: every other key of the
    cell has the value of before, and so has every other key of its
    metadata, none being added where the cell had no metadata; every other
    cell is unchanged. *)
Theorem has_license_and_update_marks data err b data' err' cells cells' :
  Nbfmt.has_license_and_update data err = (Returns (b, data'), err') ->
  notebook_cells data = Some cells ->
  notebook_cells data' = Some cells' ->
  Forall2
    (fun cell cell' =>
       same_but_view cell cell'
       /\ (has_header cell = true -> shown_as_form cell')
       /\ (has_header cell = false -> cell' = cell))
    cells cells'.
Proof.
  intros H Hcells Hcells'.
  destruct (has_license_inv _ _ _ _ _ _ H Hcells)
    as (items & -> & Hlook & Hm & -> & -> & ->).
  rewrite notebook_cells_set in Hcells'. injection Hcells' as <-.
  clear H Hcells Hlook.
  induction cells as [|cell cells IH]; cbn [map]; constructor.
  - cbn [forallb] in Hm. apply andb_true_iff in Hm as [Hc _].
    split; [exact (marked_same _ Hc)|].
    split; [exact (marked_form _ Hc)|].
    unfold marked. now intros ->.
  - cbn [forallb] in Hm. apply andb_true_iff in Hm as [_ Hcs]. auto.
Qed.

Lemma has_license_and_update_marks_witness :
  Forall2
    (fun cell cell' =>
       same_but_view cell cell'
       /\ (has_header cell = true -> shown_as_form cell')
       /\ (has_header cell = false -> cell' = cell))
    FmtSamples.cells
    [FmtSamples.title_cell; FmtSamples.empty_cell; FmtSamples.blank_cell;
     FmtSamples.run_cell;
     PDict [("cell_type", PStr "code");
            ("source",
             PList [PStr "#@title Licensed under the Apache License, Version 2.0";
                    PStr "# you may not use this file"]);
            ("metadata", PDict [("cellView", PStr "form")])]].
Proof.
  apply (has_license_and_update_marks FmtSamples.notebook [] true
           (snd (FmtSamples.value_of (false, PNone)
                   (Nbfmt.has_license_and_update FmtSamples.notebook [])))
           (snd (Nbfmt.has_license_and_update FmtSamples.notebook []))).
  - vm_compute. reflexivity.
  - reflexivity.
  - vm_compute. reflexivity.
Defined.

(** X23: [has_license_and_update] changes nothing the second time: applied
    to a notebook it has returned, it returns the same answer and the
    notebook unchanged; the missing-license warning, if there was one, is
    written again. *)
Theorem has_license_and_update_again data err b data' err' cells :
  Nbfmt.has_license_and_update data err = (Returns (b, data'), err') ->
  notebook_cells data = Some cells ->
  Nbfmt.has_license_and_update data' err'
  = (Returns (b, data'), err' ++ license_warning b).
Proof.
  intros H Hcells.
  destruct (has_license_inv _ _ _ _ _ _ H Hcells)
    as (items & -> & Hlook & Hm & -> & -> & ->).
  rewrite (has_license_of_markable _ (map marked cells))
    by (apply dict_lookup_set_eq
        || now rewrite (forallb_map_eq _ _ _ markable_marked)).
  rewrite (existsb_map_eq _ _ _ has_header_marked).
  rewrite dict_set_set, map_map.
  now rewrite (map_ext _ _ marked_again).
Qed.

Lemma has_license_and_update_again_witness :
  let data' :=
    snd (FmtSamples.value_of (false, PNone)
           (Nbfmt.has_license_and_update FmtSamples.notebook [])) in
  Nbfmt.has_license_and_update data' []
  = (Returns (true, data'), [] ++ license_warning true).
Proof.
  intros data'.
  apply (has_license_and_update_again FmtSamples.notebook [] true data' []
           FmtSamples.cells).
  - vm_compute. reflexivity.
  - reflexivity.
Defined.

Lemma silent_wret {A} (a : A) : silent (Nbfmt.wret a).
Proof. now intros err. Qed.

Lemma silent_lift {A} (m : M A) : silent (Nbfmt.lift m).
Proof. now intros err. Qed.

Lemma silent_wbind {A B} (m : Nbfmt.W A) (k : A -> Nbfmt.W B) :
  silent m -> (forall a, silent (k a)) -> silent (Nbfmt.wbind m k).
Proof.
  intros Hm Hk err. unfold Nbfmt.wbind. specialize (Hm err).
  destruct (m err) as [[a|e] err1]; cbn [snd] in *; subst err1;
    [apply Hk | reflexivity].
Qed.

Lemma silent_py_setitem v key value : silent (Nbfmt.py_setitem v key value).
Proof. intros err. now destruct v. Qed.

Lemma silent_wfor_each {A S} (body : S -> A -> Nbfmt.W S) l :
  (forall s a, silent (body s a)) -> forall s, silent (Nbfmt.wfor_each l body s).
Proof.
  intros Hb. induction l as [|x l IH]; intros s; cbn [Nbfmt.wfor_each].
  - apply silent_wret.
  - apply silent_wbind; auto.
Qed.

Lemma silent_mark_license acc cell : silent (Nbfmt.mark_license acc cell).
Proof.
  unfold Nbfmt.mark_license. apply silent_wbind; [apply silent_lift|].
  intros source. destruct (str_contains Nbfmt.license_header source);
    [|apply silent_wret].
  apply silent_wbind; [apply silent_lift|]. intros metadata.
  apply silent_wbind; [apply silent_py_setitem|]. intros metadata'.
  apply silent_wbind; [apply silent_py_setitem|]. intros cell'.
  apply silent_wret.
Qed.

(** X24: on a notebook with a list of cells, [has_license_and_update]
    returns exactly when the source lines of every cell join to a string
    and every cell that holds the license header has a dict, or nothing,
    under ["metadata"]. Whatever the notebook is, it writes to [sys.stderr]
    only when it returns [False], and then the missing-license warning
    alone. *)
Theorem has_license_and_update_returns_iff data err :
  (forall cells,
     notebook_cells data = Some cells ->
     (exists b data' err',
        Nbfmt.has_license_and_update data err = (Returns (b, data'), err'))
     <-> forallb markable cells = true)
  /\ snd (Nbfmt.has_license_and_update data err)
     = err ++ match fst (Nbfmt.has_license_and_update data err) with
              | Returns (false, _) => license_warning false
              | _ => []
              end.
Proof.
  split.
  - intros cells Hcells. split.
    + intros (b & data' & err' & H).
      now destruct (has_license_inv _ _ _ _ _ _ H Hcells)
        as (items & _ & _ & Hm & _).
    + intros Hm. destruct data as [| | | | |items]; try discriminate.
      rewrite (has_license_of_markable _ _ _
                 (notebook_cells_lookup _ _ Hcells) Hm).
      eauto.
  - assert (Hs : forall {A B} (m : Nbfmt.W A) (k : A -> Nbfmt.W B)
                   (f : result B -> list string),
               silent m ->
               (forall e, f (Raises e) = []) ->
               (forall a, snd (k a err) = err ++ f (fst (k a err))) ->
               snd (Nbfmt.wbind m k err)
               = err ++ f (fst (Nbfmt.wbind m k err))).
    { intros A B m k f Hm Hf Hk. unfold Nbfmt.wbind.
      specialize (Hm err). destruct (m err) as [[a|e] err1];
        cbn [snd fst] in *; subst err1;
        [apply Hk | now rewrite Hf, app_nil_r]. }
    pose (f := fun r : result (bool * pyval) =>
                 match r with
                 | Returns (false, _) => license_warning false
                 | _ => []
                 end).
    change (snd (Nbfmt.has_license_and_update data err)
            = err ++ f (fst (Nbfmt.has_license_and_update data err))).
    unfold Nbfmt.has_license_and_update.
    apply (Hs _ _ _ _ f); [apply silent_lift | reflexivity |].
    intros cells_value.
    apply (Hs _ _ _ _ f); [apply silent_lift | reflexivity |]. intros cells.
    apply (Hs _ _ _ _ f);
      [apply silent_wfor_each, silent_mark_license | reflexivity |].
    intros acc.
    apply (Hs _ _ _ _ f);
      [destruct cells_value;
       solve [apply silent_wret | apply silent_py_setitem]
      | reflexivity |].
    intros data1. destruct (fst acc); cbn [negb];
      [cbn; now rewrite app_nil_r | reflexivity].
Qed.

Lemma has_license_and_update_returns_iff_witness :
  ((exists b data' err',
      Nbfmt.has_license_and_update FmtSamples.notebook []
      = (Returns (b, data'), err'))
   <-> forallb markable FmtSamples.cells = true)
  /\ snd (Nbfmt.has_license_and_update
            (PDict [("cells", PList [FmtSamples.title_cell])]) [])
     = [] ++ license_warning false.
Proof.
  split.
  - apply (proj1 (has_license_and_update_returns_iff FmtSamples.notebook [])
             FmtSamples.cells).
    reflexivity.
  - apply (proj2 (has_license_and_update_returns_iff
                    (PDict [("cells", PList [FmtSamples.title_cell])]) [])).
Defined.

(** ** The required patterns *)

Lemma search_cells_prefix re_search pattern good rest err :
  forallb joins good = true ->
  Nbfmt.search_cells re_search pattern (good ++ rest) err
  = if found_in re_search good pattern then (Returns true, err)
    else Nbfmt.search_cells re_search pattern rest err.
Proof.
  induction good as [|cell good IH]; [reflexivity|].
  cbn [forallb]. intros [Hc Hg]%andb_true_iff.
  cbn [app Nbfmt.search_cells].
  rewrite (wbind_step _ _ err (cell_text cell) err)
    by (unfold Nbfmt.lift; now rewrite (cell_source_joins _ Hc)).
  unfold found_in. cbn [existsb].
  destruct (re_search pattern (cell_text cell)); [reflexivity|].
  exact (IH Hg).
Qed.

Lemma search_cells_returns re_search pattern cells : forall err b err',
  Nbfmt.search_cells re_search pattern cells err = (Returns b, err') ->
  b = found_in re_search cells pattern /\ err' = err.
Proof.
  induction cells as [|cell cells IH]; intros err b err' H.
  - now injection H as <- <-.
  - cbn [Nbfmt.search_cells] in H.
    apply wbind_returns in H as (source & err1 & Hsrc & H).
    apply lift_returns in Hsrc as [Hsrc ->].
    apply cell_source_returns in Hsrc as [_ <-].
    unfold found_in. cbn [existsb].
    destruct (re_search pattern (cell_text cell)).
    + now injection H as <- <-.
    + exact (IH _ _ _ H).
Qed.

Lemma check_patterns_returns re_search data cells patterns :
  notebook_cells data = Some cells ->
  forall err b err',
    Nbfmt.check_patterns re_search patterns data err = (Returns b, err') ->
    b = forallb (fun p => found_in re_search cells (snd p)) patterns
    /\ err' = err ++ regexps_warning
                       (List.find
                          (fun p => negb (found_in re_search cells (snd p)))
                          patterns).
Proof.
  intros Hcells. destruct data as [| | | | |items]; try discriminate.
  pose proof (notebook_cells_lookup _ _ Hcells) as Hlook.
  induction patterns as [|[desc pattern] patterns IH]; intros err b err' H.
  - injection H as <- <-. now rewrite app_nil_r.
  - cbn [Nbfmt.check_patterns] in H.
    rewrite (wbind_step _ _ _ _ _
               (py_getitem_field (PDict items) "cells" _ err Hlook)) in H.
    rewrite (wbind_step _ _ err cells err eq_refl) in H.
    apply wbind_returns in H as (has_pattern & err1 & Hs & H).
    apply search_cells_returns in Hs as [-> ->].
    cbn [forallb List.find snd].
    destruct (found_in re_search cells pattern); cbn [negb andb] in *.
    + exact (IH _ _ _ H).
    + now injection H as <- <-.
Qed.

Lemma check_patterns_prefix re_search items good rest patterns err :
  dict_lookup items "cells" = Some (PList (good ++ rest)) ->
  forallb joins good = true ->
  forallb (fun p => found_in re_search good (snd p)) patterns = true ->
  Nbfmt.check_patterns re_search patterns (PDict items) err
  = (Returns true, err).
Proof.
  intros Hlook Hj. induction patterns as [|[desc pattern] patterns IH];
    [reflexivity|].
  cbn [forallb snd]. intros [Hp Hps]%andb_true_iff.
  cbn [Nbfmt.check_patterns].
  rewrite (wbind_step _ _ _ _ _
             (py_getitem_field (PDict items) "cells" _ err Hlook)).
  rewrite (wbind_step _ _ err (good ++ rest) err eq_refl).
  rewrite (wbind_step _ _ err true err)
    by (rewrite (search_cells_prefix _ _ _ _ _ Hj); now rewrite Hp).
  exact (IH Hps).
Qed.

Lemma check_patterns_of re_search items cells patterns :
  dict_lookup items "cells" = Some (PList cells) ->
  forallb joins cells = true ->
  forall err,
    Nbfmt.check_patterns re_search patterns (PDict items) err
    = (Returns (forallb (fun p => found_in re_search cells (snd p)) patterns),
       err ++ regexps_warning
                (List.find
                   (fun p => negb (found_in re_search cells (snd p)))
                   patterns)).
Proof.
  intros Hlook Hj err.
  induction patterns as [|[desc pattern] patterns IH].
  - cbn. now rewrite app_nil_r.
  - cbn [Nbfmt.check_patterns forallb List.find snd].
    rewrite (wbind_step _ _ _ _ _
               (py_getitem_field (PDict items) "cells" _ err Hlook)).
    rewrite (wbind_step _ _ err cells err eq_refl).
    rewrite (wbind_step _ _ err (found_in re_search cells pattern) err).
    2: { rewrite <- (app_nil_r cells) at 1.
         rewrite (search_cells_prefix _ _ _ _ _ Hj).
         now destruct (found_in re_search cells pattern). }
    destruct (found_in re_search cells pattern); cbn [negb andb];
      [exact IH | reflexivity].
Qed.

Lemma find_none_forallb {X} (g : X -> bool) l :
  forallb g l = true <-> List.find (fun x => negb (g x)) l = None.
Proof.
  induction l as [|x l IH]; cbn [forallb List.find]; [tauto|].
  destruct (g x); cbn [negb andb]; [exact IH|].
  split; discriminate.
Qed.

(** X25: if [has_required_regexps] returns on a notebook with a list of
    cells, it returns whether each of the required patterns is found in the
    joined source of some cell; it writes one warning, for the first
    required pattern that no cell matches, and nothing if there is none: a
    second missing pattern is not reported. *)
Theorem has_required_regexps_result re_search data err b err' cells :
  Nbfmt.has_required_regexps re_search data err = (Returns b, err') ->
  notebook_cells data = Some cells ->
  b = forallb (fun p => found_in re_search cells (snd p))
        Nbfmt.REQUIRED_REGEXPS
  /\ err' = err ++ regexps_warning (first_missing re_search cells)
  /\ (b = true <-> first_missing re_search cells = None).
Proof.
  intros H Hcells. unfold Nbfmt.has_required_regexps in H.
  destruct (check_patterns_returns _ _ _ _ Hcells _ _ _ H) as [-> ->].
  split; [reflexivity|]. split; [reflexivity|].
  apply find_none_forallb.
Qed.

Lemma has_required_regexps_result_witness :
  false = forallb (fun p => found_in FmtSamples.literal_search
                              FmtSamples.cells (snd p))
            Nbfmt.REQUIRED_REGEXPS
  /\ snd (Nbfmt.has_required_regexps FmtSamples.literal_search
            FmtSamples.notebook [])
     = [] ++ regexps_warning
               (first_missing FmtSamples.literal_search FmtSamples.cells)
  /\ (false = true
      <-> first_missing FmtSamples.literal_search FmtSamples.cells = None).
Proof.
  apply (has_required_regexps_result FmtSamples.literal_search
           FmtSamples.notebook []).
  - vm_compute. reflexivity.
  - reflexivity.
Defined.

(** X26: [has_required_regexps] returns on every notebook whose cells have
    source lines that join to a string. It stops reading cells at a match:
    if every required pattern is found among the first cells of the
    notebook and the source lines of these join, it returns [True] and
    writes nothing, whatever the cells after them are. *)
Theorem has_required_regexps_reads_up_to_match re_search data err :
  (forall cells,
     notebook_cells data = Some cells ->
     forallb joins cells = true ->
     Nbfmt.has_required_regexps re_search data err
     = (Returns (forallb (fun p => found_in re_search cells (snd p))
                   Nbfmt.REQUIRED_REGEXPS),
        err ++ regexps_warning (first_missing re_search cells)))
  /\ (forall good rest,
        notebook_cells data = Some (good ++ rest) ->
        forallb joins good = true ->
        forallb (fun p => found_in re_search good (snd p))
          Nbfmt.REQUIRED_REGEXPS = true ->
        Nbfmt.has_required_regexps re_search data err = (Returns true, err)).
Proof.
  split.
  - intros cells Hcells Hj.
    destruct data as [| | | | |items]; try discriminate.
    exact (check_patterns_of _ _ _ _ (notebook_cells_lookup _ _ Hcells) Hj
             err).
  - intros good rest Hcells Hj Hall.
    destruct data as [| | | | |items]; try discriminate.
    exact (check_patterns_prefix _ _ _ _ _ _
             (notebook_cells_lookup _ _ Hcells) Hj Hall).
Qed.

Lemma has_required_regexps_reads_up_to_match_witness :
  Nbfmt.has_required_regexps FmtSamples.literal_search FmtSamples.notebook []
  = (Returns (forallb (fun p => found_in FmtSamples.literal_search
                                  FmtSamples.cells (snd p))
                Nbfmt.REQUIRED_REGEXPS),
     [] ++ regexps_warning
             (first_missing FmtSamples.literal_search FmtSamples.cells))
  /\ Nbfmt.has_required_regexps (fun pattern text => str_contains "x" text)
       (PDict [("cells",
                PList [PDict [("source", PList [PStr "x = 1"])]; PInt 7])])
       []
     = (Returns true, []).
Proof.
  split.
  - apply (proj1 (has_required_regexps_reads_up_to_match
                    FmtSamples.literal_search FmtSamples.notebook [])
             FmtSamples.cells).
    + reflexivity.
    + vm_compute. reflexivity.
  - apply (proj2 (has_required_regexps_reads_up_to_match
                    (fun pattern text => str_contains "x" text)
                    (PDict [("cells",
                             PList [PDict [("source", PList [PStr "x = 1"])];
                                    PInt 7])])
                    [])
             [PDict [("source", PList [PStr "x = 1"])]] [PInt 7]).
    + reflexivity.
    + vm_compute. reflexivity.
    + vm_compute. reflexivity.
Defined.

(** ** The steps of the formatter, one after the other *)

Lemma delete_cells_returns_list preserve_outputs data err data' err' :
  Nbfmt.delete_cells preserve_outputs data err = (Returns data', err') ->
  exists cells', notebook_cells data' = Some cells'.
Proof.
  unfold Nbfmt.delete_cells. intros H.
  apply wbind_returns in H as (value & err1 & Hget & H).
  apply lift_returns in Hget as [Hget ->].
  destruct data as [| | | | |items]; try discriminate.
  apply wbind_returns in H as (cells & err1 & _ & H).
  apply wbind_returns in H as (kept & err2 & _ & H).
  apply wbind_returns in H as (data1 & err3 & Hset & H).
  injection Hset as <- <-.
  destruct preserve_outputs; cbn [negb] in H.
  - injection H as <- <-. eexists. apply notebook_cells_set.
  - apply wbind_returns in H as (value1 & err3 & _ & H).
    apply wbind_returns in H as (cells1 & err4 & _ & H).
    apply wbind_returns in H as (acc & err5 & _ & H).
    apply wbind_returns in H as (data2 & err6 & Hset & H).
    injection Hset as <- <-.
    destruct (fst acc).
    + apply wbind_returns in H as (u & err7 & _ & H).
      injection H as <- <-. eexists. apply notebook_cells_set.
    + injection H as <- <-. eexists. apply notebook_cells_set.
Qed.

Lemma sort_notebook_returns items metadata cells err :
  dict_lookup items "metadata" = Some metadata ->
  dict_lookup items "cells" = Some cells ->
  Nbfmt.sort_notebook items err
  = (Returns (("metadata", metadata)
              :: dict_remove (dict_remove items "metadata") "cells"
              ++ [("cells", cells)]), err).
Proof.
  intros Hm Hc. unfold Nbfmt.sort_notebook.
  rewrite (wbind_step _ _ err items err eq_refl).
  rewrite (wbind_step _ _ err
             (("metadata", metadata) :: dict_remove items "metadata") err)
    by (unfold Nbfmt.move_to_end; now rewrite Hm).
  assert (Hc' : dict_lookup
                  (("metadata", metadata) :: dict_remove items "metadata")
                  "cells" = Some cells).
  { change (dict_lookup (dict_remove items "metadata") "cells"
            = Some cells).
    now rewrite dict_lookup_remove_ne by discriminate. }
  rewrite (wbind_step _ _ err
             (("metadata", metadata)
              :: dict_remove (dict_remove items "metadata") "cells"
              ++ [("cells", cells)]) err)
    by (unfold Nbfmt.move_to_end; now rewrite Hc').
  reflexivity.
Qed.

(** X27: the steps of [main] fit together: on the notebook that
    [delete_cells], [update_metadata] and [has_license_and_update] have
    returned, one after the other, [sort_notebook] does not raise; the
    sorted notebook begins with ["metadata"] and ends with ["cells"], its
    cells are the kept cells of the notebook [delete_cells] returned, with
    the license cells shown as forms, and its metadata hold the Colab
    settings. *)
Theorem formatted_notebook_sorts preserve_outputs data filepath err d1 e1 d2
    e2 b d3 e3 :
  Nbfmt.delete_cells preserve_outputs data err = (Returns d1, e1) ->
  Nbfmt.update_metadata preserve_outputs d1 filepath e1 = (Returns d2, e2) ->
  Nbfmt.has_license_and_update d2 e2 = (Returns (b, d3), e3) ->
  exists items sorted middle kept colab,
    d3 = PDict items
    /\ Nbfmt.sort_notebook items e3 = (Returns sorted, e3)
    /\ keys sorted = "metadata" :: middle ++ ["cells"]
    /\ notebook_cells d1 = Some kept
    /\ List.last sorted ("", PNone) = ("cells", PList (map marked kept))
    /\ (exists metadata,
          List.hd ("", PNone) sorted = ("metadata", PDict metadata)
          /\ dict_lookup metadata "colab" = Some (PDict colab))
    /\ dict_lookup colab "private_outputs"
       = Some (PBool (negb preserve_outputs))
    /\ dict_lookup colab "toc_visible" = Some (PBool true).
Proof.
  intros Hdel Hupd Hlic.
  destruct (delete_cells_returns_list _ _ _ _ _ Hdel) as [kept Hkept].
  destruct (update_metadata_inv _ _ _ _ _ _ Hupd)
    as (items1 & metadata & colab & -> & Hm & Hc & -> & ->).
  assert (Hkept2 : notebook_cells
                     (PDict
                        (dict_set items1 "metadata"
                           (PDict
                              (dict_set metadata "colab"
                                 (PDict
                                    (colab_settings preserve_outputs filepath
                                       colab))))))
                   = Some kept).
  { cbn [notebook_cells] in *.
    now rewrite dict_lookup_set_ne by discriminate. }
  destruct (has_license_inv _ _ _ _ _ _ Hlic Hkept2)
    as (items2 & [= <-] & Hlook & _ & _ & -> & _).
  eexists _, _, _, kept, (colab_settings preserve_outputs filepath colab).
  split; [reflexivity|].
  split.
  { apply sort_notebook_returns.
    - rewrite dict_lookup_set_ne by discriminate. apply dict_lookup_set_eq.
    - apply dict_lookup_set_eq. }
  split; [unfold keys; cbn [map]; rewrite map_app; reflexivity|].
  split; [exact Hkept|].
  split; [exact (last_last (_ :: _) _ _)|].
  split.
  { eexists. split; [reflexivity|]. apply dict_lookup_set_eq. }
  destruct (colab_settings_lookup preserve_outputs filepath colab)
    as (Hp & _ & Ht & _).
  split; [exact Hp | exact Ht].
Qed.

Lemma formatted_notebook_sorts_witness :
  let d1 := FmtSamples.value_of PNone
              (Nbfmt.delete_cells false FmtSamples.notebook []) in
  let e1 := snd (Nbfmt.delete_cells false FmtSamples.notebook []) in
  let d2 := FmtSamples.value_of PNone
              (Nbfmt.update_metadata false d1 (Some "docs/guide.ipynb") e1) in
  let d3 := snd (FmtSamples.value_of (false, PNone)
                   (Nbfmt.has_license_and_update d2 e1)) in
  exists items sorted middle kept colab,
    d3 = PDict items
    /\ Nbfmt.sort_notebook items e1 = (Returns sorted, e1)
    /\ keys sorted = "metadata" :: middle ++ ["cells"]
    /\ notebook_cells d1 = Some kept
    /\ List.last sorted ("", PNone) = ("cells", PList (map marked kept))
    /\ (exists metadata,
          List.hd ("", PNone) sorted = ("metadata", PDict metadata)
          /\ dict_lookup metadata "colab" = Some (PDict colab))
    /\ dict_lookup colab "private_outputs" = Some (PBool (negb false))
    /\ dict_lookup colab "toc_visible" = Some (PBool true).
Proof.
  intros d1 e1 d2 d3.
  apply (formatted_notebook_sorts false FmtSamples.notebook
           (Some "docs/guide.ipynb") [] d1 e1 d2 e1 true d3 e1).
  - vm_compute. reflexivity.
  - vm_compute. reflexivity.
  - vm_compute. reflexivity.
Defined.

(** ** The license rule of the linter and the formatter's check *)







